(** * lineBot: the equipment-lending ledger of [app.py]

    A shallow embedding of the inventory ledger and of the command handler
    [handle_text] of [app.py], together with the properties of the
    specification that concern them.

    Conventions of the embedding.
    - A Python [str] is a [string] holding its UTF-8 encoding.  [strip]
      knows every white-space character of Unicode.  [lower] is exact on
      ASCII and on the two characters outside ASCII whose lower case
      starts with an ASCII letter (U+212A and U+0130); it leaves any other
      character as it is, which no prefix test of the handler tells from
      its lower case.  [isdigit] and [int] know the ASCII digits only, and
      [int] reads a numeral of any length, where CPython refuses one of
      more than 4300 digits.
    - A Python [int] is a [Z] (unbounded, as in Python).
    - A gspread worksheet is the grid of cell texts that
      [get_all_values()] returns: a list of rows, each a list of strings,
      the header being row 0.
    - An exception is an explicit result ([None], [Raise], or an [outcome]
      of the handler); the handler threads the two worksheets through.
    - The clock of [add_tx], the draw of [random.choice] and the display
      name that the profile lookup returns are inputs of the handler.
    - The outcome [Reply r] of the handler says that it calls
      [reply_message] with [r], which is the last thing it does; what the
      channel makes of the reply (it may raise, and the handler then logs
      the exception) is not part of the outcome.
    - The spreadsheet service does not fail: a read or a write of a
      worksheet succeeds, and a number written to a cell is read back as
      its decimal numeral. *)

From Stdlib Require Import ZArith Lia Bool Ascii String List.
From Stdlib Require Import DecimalString DecimalZ DecimalN DecimalPos DecimalFacts.
From stdpp Require Import base list strings.

Local Open Scope Z_scope.

(** ** Python's string and integer primitives *)

Module Py.

(** [str.isspace] on ASCII, the one-byte class that [str.strip()]
    removes: TAB..CR, FS..US and the blank. *)
Definition isspace (c : ascii) : bool :=
  let n := nat_of_ascii c in
  ((9 <=? n) && (n <=? 13) || (28 <=? n) && (n <=? 32))%nat.

(** The C-locale class that the parser of [int()] skips around an ASCII
    numeral: TAB..CR and the blank. *)
Definition c_isspace (c : ascii) : bool :=
  let n := nat_of_ascii c in
  ((9 <=? n) && (n <=? 13) || (n =? 32))%nat.

Definition is_digit (c : ascii) : bool :=
  let n := nat_of_ascii c in ((48 <=? n) && (n <=? 57))%nat.

Definition digit_val (c : ascii) : option Z :=
  if is_digit c then Some (Z.of_nat (nat_of_ascii c) - 48) else None.

(** [s.lstrip(chars)] for a class of characters. *)
Fixpoint lstrip (p : ascii -> bool) (s : string) : string :=
  match s with
  | String c r => if p c then lstrip p r else s
  | EmptyString => EmptyString
  end.

Definition is_byte (n : nat) (c : ascii) : bool := (nat_of_ascii c =? n)%nat.

(** The white-space characters of two bytes: U+0085 and U+00A0. *)
Definition space2 (c1 c2 : ascii) : bool :=
  is_byte 194 c1 && (is_byte 133 c2 || is_byte 160 c2).

(** The white-space characters of three bytes: U+1680, U+2000..U+200A,
    U+2028, U+2029, U+202F, U+205F and U+3000. *)
Definition space3 (c1 c2 c3 : ascii) : bool :=
  let n3 := nat_of_ascii c3 in
  is_byte 225 c1 && is_byte 154 c2 && is_byte 128 c3
  || is_byte 226 c1 && is_byte 128 c2
     && ((128 <=? n3) && (n3 <=? 138) || is_byte 168 c3 || is_byte 169 c3
         || is_byte 175 c3)%nat
  || is_byte 226 c1 && is_byte 129 c2 && is_byte 159 c3
  || is_byte 227 c1 && is_byte 128 c2 && is_byte 128 c3.

(** [s.lstrip()]: the leading white space goes, whatever its width. *)
Fixpoint lstrip_space (s : string) : string :=
  match s with
  | EmptyString => EmptyString
  | String c1 r1 =>
      if isspace c1 then lstrip_space r1
      else
        match r1 with
        | EmptyString => s
        | String c2 r2 =>
            if space2 c1 c2 then lstrip_space r2
            else
              match r2 with
              | EmptyString => s
              | String c3 r3 =>
                  if space3 c1 c2 c3 then lstrip_space r3 else s
              end
        end
  end.

(** [s.rstrip()]: a string of white space only goes altogether; otherwise
    its first byte stays and the rest is stripped. *)
Fixpoint rstrip_space (s : string) : string :=
  match s with
  | EmptyString => EmptyString
  | String c r =>
      match lstrip_space s with
      | EmptyString => EmptyString
      | _ => String c (rstrip_space r)
      end
  end.

(** [s.strip()] *)
Definition strip (s : string) : string := rstrip_space (lstrip_space s).

Definition lower_char (c : ascii) : ascii :=
  let n := nat_of_ascii c in
  if ((65 <=? n) && (n <=? 90))%nat then ascii_of_nat (n + 32) else c.

(** [s.lower()]: U+0130 becomes the letter i with U+0307, U+212A becomes
    the letter k, an ASCII capital its small letter. *)
Fixpoint lower (s : string) : string :=
  match s with
  | EmptyString => EmptyString
  | String c1 r1 =>
      match r1 with
      | EmptyString => String (lower_char c1) (lower r1)
      | String c2 r2 =>
          if is_byte 196 c1 && is_byte 176 c2
          then String "i" (String "204" (String "135" (lower r2)))
          else
            match r2 with
            | EmptyString => String (lower_char c1) (lower r1)
            | String c3 r3 =>
                if is_byte 226 c1 && is_byte 132 c2 && is_byte 170 c3
                then String "k" (lower r3)
                else String (lower_char c1) (lower r1)
            end
      end
  end.

(** [s.startswith(p)] *)
Definition startswith (s p : string) : bool := String.prefix p s.

Fixpoint all_chars (p : ascii -> bool) (s : string) : bool :=
  match s with
  | String c r => p c && all_chars p r
  | EmptyString => true
  end.

(** [s.isdigit()] for the ASCII digits: at least one character, all of
    them digits. *)
Definition isdigit (s : string) : bool :=
  match s with
  | EmptyString => false
  | _ => all_chars is_digit s
  end.

Definition is_dash (c : ascii) : bool := Ascii.eqb c "-"%char.

(** The digits of a numeral, with the single underscores Python allows
    between two digits; [prev_us] tells that the previous character was
    an underscore.  Returns the value and the unread rest. *)
Fixpoint scan_digits (acc : Z) (prev_us : bool) (s : string)
  : option (Z * string) :=
  match s with
  | String c r =>
      match digit_val c with
      | Some d => scan_digits (10 * acc + d) false r
      | None =>
          if Ascii.eqb c "_"%char
          then (if prev_us then None else scan_digits acc true r)
          else (if prev_us then None else Some (acc, s))
      end
  | EmptyString => if prev_us then None else Some (acc, EmptyString)
  end.

(** [int(s)] for a string [s] of ASCII characters: blanks, an optional
    sign, the digits, blanks; [None] stands for [ValueError].  No limit is
    put on the number of digits. *)
Definition int (s : string) : option Z :=
  let s1 := lstrip c_isspace s in
  let '(neg, s2) :=
    match s1 with
    | String "+"%char r => (false, r)
    | String "-"%char r => (true, r)
    | _ => (false, s1)
    end in
  match s2 with
  | String c _ =>
      if is_digit c then
        match scan_digits 0 false s2 with
        | Some (n, rest) =>
            if all_chars c_isspace rest
            then Some (if neg then - n else n) else None
        | None => None
        end
      else None
  | EmptyString => None
  end.

(** [str(n)] for an integer [n]: its decimal numeral. *)
Definition str (n : Z) : string := NilEmpty.string_of_int (Z.to_int n).

(** [sep.join(l)] *)
Fixpoint join (sep : string) (l : list string) : string :=
  match l with
  | [] => EmptyString
  | [x] => x
  | x :: r => x +:+ sep +:+ join sep r
  end.

End Py.

(** ** [shlex.split]

    The lexer of Python's [shlex] module as [shlex.split(text)] runs it:
    POSIX mode, [whitespace_split] set, no comment characters.  The blanks
    are the space, TAB, CR and LF, the quotes are the single and the double
    quote, the escape character is the backslash, which keeps its meaning
    inside double quotes only. *)

Module Shlex.

Definition is_ws (c : ascii) : bool :=
  Ascii.eqb c " "%char || Ascii.eqb c "009"%char
  || Ascii.eqb c "013"%char || Ascii.eqb c "010"%char.

Definition is_quote (c : ascii) : bool :=
  Ascii.eqb c "039"%char || Ascii.eqb c "034"%char.

Definition is_escape (c : ascii) : bool := Ascii.eqb c "\"%char.

(** Where an escape returns to: the lexer's [escapedstate]. *)
Inductive back := BWord | BQuote (q : ascii).

(** The lexer's [state]: between tokens, inside a word, inside a quote,
    after the escape character. *)
Inductive state := SBlank | SWord | SQuote (q : ascii) | SEscape (b : back).

Definition state_of (b : back) : state :=
  match b with BWord => SWord | BQuote q => SQuote q end.

Definition snoc (tok : string) (c : ascii) : string :=
  tok +:+ String c EmptyString.

(** A token ends: it is kept when it is not empty or was quoted. *)
Definition emit (tok : string) (quoted : bool) (rest : list string)
  : list string :=
  match tok with
  | EmptyString => if quoted then tok :: rest else rest
  | _ => tok :: rest
  end.

(** [None] is the [ValueError] of an unclosed quote or a dangling
    escape. *)
Fixpoint lex (s : string) (st : state) (tok : string) (quoted : bool)
  : option (list string) :=
  match s with
  | EmptyString =>
      match st with
      | SBlank => Some []
      | SWord => Some (emit tok quoted [])
      | SQuote _ | SEscape _ => None
      end
  | String c r =>
      match st with
      | SBlank =>
          if is_ws c then lex r SBlank EmptyString false
          else if is_escape c then lex r (SEscape BWord) EmptyString false
          else if is_quote c then lex r (SQuote c) EmptyString false
          else lex r SWord (String c EmptyString) false
      | SWord =>
          if is_ws c then
            option_map (emit tok quoted) (lex r SBlank EmptyString false)
          else if is_quote c then lex r (SQuote c) tok quoted
          else if is_escape c then lex r (SEscape BWord) tok quoted
          else lex r SWord (snoc tok c) quoted
      | SQuote q =>
          if Ascii.eqb c q then lex r SWord tok true
          else if is_escape c && Ascii.eqb q "034"%char
               then lex r (SEscape (BQuote q)) tok true
          else lex r (SQuote q) (snoc tok c) true
      | SEscape b =>
          let tok' :=
            match b with
            | BQuote q =>
                if negb (is_escape c) && negb (Ascii.eqb c q)
                then snoc tok "\"%char else tok
            | BWord => tok
            end in
          lex r (state_of b) (snoc tok' c) quoted
      end
  end.

Definition split (text : string) : option (list string) :=
  lex text SBlank EmptyString false.

End Shlex.

(** ** The worksheets *)

Abbreviation row := (list string).
Abbreviation sheet := (list (list string)).

(** The two worksheets [ws_items] and [ws_tx] of the module. *)
Record sheets := { ws_items : sheet; ws_tx : sheet }.

(** The headers that [_get_ws] installs in row 1. *)
Definition items_header : row := ["item"; "total"; "note"].
Definition tx_header : row :=
  ["ts"; "group_id"; "user_id"; "user_name"; "item"; "delta"; "note"].

(** A value of a record of [get_all_records()]. *)
Inductive pyval := PNone | PInt (n : Z) | PStr (s : string).

(** A list of cells without its trailing empty cells, as gspread returns
    the values of one row or one column. *)
Fixpoint rstrip_empty (r : row) : row :=
  match r with
  | [] => []
  | c :: r' =>
      match rstrip_empty r' with
      | [] => if String.eqb c EmptyString then [] else [c]
      | t => c :: t
      end
  end.

Module Gspread.

Fixpoint has_underscore (s : string) : bool :=
  match s with
  | String c r => Ascii.eqb c "_"%char || has_underscore r
  | EmptyString => false
  end.

(** gspread's [numericise]: a cell that reads as an integer becomes that
    integer, unless it holds an underscore; any other cell stays text.
    (gspread tries [float] after [int], and its later versions drop the
    commas of the cell first; a cell that [float] reads, with or without
    its commas, is outside this model and is kept as text here.) *)
Definition numericise (s : string) : pyval :=
  if has_underscore s then PStr s
  else match Py.int s with Some n => PInt n | None => PStr s end.

(** [ws.get_all_values()] *)
Definition get_all_values (ws : sheet) : sheet := ws.

(** [ws.col_values(1)]: column A of the rows, header included, up to
    the last row whose cell A is not empty. *)
Definition col_values_1 (ws : sheet) : list string :=
  rstrip_empty (map (fun r : row => nth 0 r EmptyString) ws).

(** [ws.append_row(r)] *)
Definition append_row (ws : sheet) (r : row) : sheet := ws ++ [r].

(** [ws.update(f"B{idx}:C{idx}", [[b, c]])] for the 1-based row [idx]:
    cells B and C of that row are replaced. *)
Definition update_B_C (ws : sheet) (idx : nat) (b c : string) : sheet :=
  alter (fun r : row => nth 0 r EmptyString :: b :: c :: drop 3 r)
        (idx - 1)%nat ws.

(** The records of [ws.get_all_records()]: one dictionary per row below
    the header, [dict(zip(header, numericised row))], as an association
    list. *)
Definition get_all_records (ws : sheet) : list (list (string * pyval)) :=
  match ws with
  | [] => []
  | keys :: rows => map (fun r : row => combine keys (map numericise r)) rows
  end.

Fixpoint distinct (l : list string) : bool :=
  match l with
  | [] => true
  | x :: l' => negb (existsb (String.eqb x) l') && distinct l'
  end.

(** The test [get_all_records()] makes before it builds the records: no
    two cells of the header row are equal. *)
Definition header_unique (ws : sheet) : bool := distinct (hd [] ws).

End Gspread.

(** [d.get(k)] on a dictionary built by [dict(zip(keys, row))]: the last binding
    of [k] is the one the dictionary holds; [PNone] when there is none. *)
Fixpoint dict_find (d : list (string * pyval)) (k : string) : option pyval :=
  match d with
  | [] => None
  | (k', v) :: d' =>
      match dict_find d' k with
      | Some x => Some x
      | None => if String.eqb k' k then Some v else None
      end
  end.

Definition dict_get (d : list (string * pyval)) (k : string) : pyval :=
  match dict_find d k with Some v => v | None => PNone end.

(** [d.get(k, dflt)] *)
Definition dict_get_default (d : list (string * pyval)) (k : string)
  (dflt : pyval) : pyval :=
  match dict_find d k with Some v => v | None => dflt end.

(** [str(v)] *)
Definition str_val (v : pyval) : string :=
  match v with PNone => "None" | PInt n => Py.str n | PStr s => s end.

(** [int(v)]; [None] is the [ValueError] or [TypeError]. *)
Definition int_val (v : pyval) : option Z :=
  match v with PNone => None | PInt n => Some n | PStr s => Py.int s end.

(** [items.index(x)]; [None] is the [ValueError]. *)
Fixpoint index (x : string) (l : list string) : option nat :=
  match l with
  | [] => None
  | y :: l' => if String.eqb y x then Some 0%nat else option_map S (index x l')
  end.

(** ** The ledger store of [app.py] *)

Definition upsert_item (ws : sheet) (item : string) (total : Z) (note : string)
  : sheet :=
  let items := Gspread.col_values_1 ws in
  match index item items with
  | Some i =>
      let idx := (i + 1)%nat in
      Gspread.update_B_C ws idx (Py.str total) note
  | None => Gspread.append_row ws [item; Py.str total; note]
  end.

(** The cell a group id is written to; [None] leaves the cell empty. *)
Definition gid_cell (gid : option string) : string :=
  match gid with Some g => g | None => EmptyString end.

(** [ts] is the time stamp that [add_tx] takes from the clock. *)
Definition add_tx (ws : sheet) (ts : string) (group_id : option string)
  (user_id user_name item : string) (delta : Z) (note : string) : sheet :=
  Gspread.append_row ws
    [ts; gid_cell group_id; user_id; user_name; item; Py.str delta; note].

(** The body of [try: s += int(r[5]) / except: pass]. *)
Definition add_delta (s : Z) (cell : string) : Z :=
  match Py.int cell with Some d => s + d | None => s end.

Definition cell (r : row) (i : nat) : string := nth i r EmptyString.

Definition sum_borrowed (ws : sheet) (item : string) : Z :=
  let rows := Gspread.get_all_values ws in
  fold_left
    (fun s (r : row) =>
       if (6 <=? length r)%nat && String.eqb (cell r 4) item
       then add_delta s (cell r 5) else s)
    (tail rows) 0.

Definition user_borrowed (ws : sheet) (user_id item : string) : Z :=
  let rows := Gspread.get_all_values ws in
  fold_left
    (fun s (r : row) =>
       if (6 <=? length r)%nat && String.eqb (cell r 2) user_id
          && String.eqb (cell r 4) item
       then add_delta s (cell r 5) else s)
    (tail rows) 0.

(** The dictionary [get_item] returns. *)
Record item_info := { i_item : string; i_total : Z; i_note : pyval }.

(** A computation that may raise. *)
Inductive exc (A : Type) := Ret (a : A) | Raise.
Arguments Ret {A} a.
Arguments Raise {A}.

#[global] Instance exc_ret : MRet exc := fun A a => Ret a.
#[global] Instance exc_bind : MBind exc := fun A B k m =>
  match m with Ret a => k a | Raise => Raise end.

Definition of_option {A} (o : option A) : exc A :=
  match o with Some a => Ret a | None => Raise end.

Fixpoint get_item_in (rows : list (list (string * pyval))) (item : string)
  : exc (option item_info) :=
  match rows with
  | [] => Ret None
  | r :: rows' =>
      if String.eqb (str_val (dict_get r "item")) item then
        total ← of_option (int_val (dict_get_default r "total" (PInt 0)));
        Ret (Some {| i_item := item; i_total := total;
                     i_note := dict_get r "note" |})
      else get_item_in rows' item
  end.

(** The call [ws.get_all_records()]: it raises on a header row with
    repeated cells. *)
Definition all_records (ws : sheet) : exc (list (list (string * pyval))) :=
  if Gspread.header_unique ws then Ret (Gspread.get_all_records ws)
  else Raise.

Definition get_item (ws : sheet) (item : string) : exc (option item_info) :=
  rows ← all_records ws;
  get_item_in rows item.

Fixpoint status_rows (tx : sheet) (rows : list (list (string * pyval)))
  : exc (list (string * Z * Z * Z)) :=
  match rows with
  | [] => Ret []
  | r :: rows' =>
      let item := str_val (dict_get r "item") in
      total ← of_option (int_val (dict_get_default r "total" (PInt 0)));
      let borrowed := sum_borrowed tx item in
      let avail := total - borrowed in
      info ← status_rows tx rows';
      Ret ((item, total, borrowed, avail) :: info)
  end.

Definition status_all (st : sheets) : exc (list (string * Z * Z * Z)) :=
  rows ← all_records (ws_items st);
  status_rows (ws_tx st) rows.

(** ** The command handler *)

(** What the messaging channel hands over with an inbound text. *)
Record event := {
  text_of : option string;       (* event.message.text *)
  group_id_of : option string;   (* getattr(event.source, "group_id", None) *)
  user_id_of : string;           (* getattr(event.source, "user_id", "unknown") *)
  profile_name : option string   (* what _display_name(event) returns *)
}.

(** What the handler reads from its surroundings: the configured white
    list, the clock of [add_tx] and the draw of [random.choice]. *)
Record env := {
  ALLOWED_GROUPS : list string;
  now : string;
  draw : nat
}.

(** The replies of [handle_text], one constructor per message of the
    source, holding the values its text is built from ([render] below
    builds the text). *)
Inductive reply :=
  | Chosen (s : string)
  | UsagePick
  | HelpMsg
  | GroupId (gid : option string)
  | UserId (uid : string)
  | UsageAddItem
  | DefineOk (item : string) (total : Z)
  | StatusItemNotFound (item : string)
  | StatusOne (item : string) (total borrowed avail : Z)
  | StatusAll (lines : list (string * Z * Z * Z))
  | UsageBorrowReturn
  | ItemNotFound (item : string)
  | InvalidQuantity
  | InsufficientStock (item : string) (avail qty : Z)
  | BorrowOk (item : string) (qty : Z) (name : string)
  | NothingToReturn (item : string)
  | ReturnOk (item : string) (real : Z) (name : string) (adjusted : option Z)
  | MineReport (lines : list (string * Z)).

(** How a call of [handle_text] ends. *)
Inductive outcome :=
  | Reply (r : reply)   (* [line_bot_api.reply_message] is called with [r] *)
  | NoReply             (* a plain [return] *)
  | Logged              (* an exception raised before any reply, caught and
                           logged by the [try] *)
  | Raised.             (* an exception raised before any reply, which
                           leaves [handle_text] *)

Definition nl : string := String "010"%char EmptyString.

Definition HELP_MSG : string :=
  "器材租借指令：" +:+ nl +:+
  "!additem 物品 總數量 [備註]" +:+ nl +:+
  "!borrow  物品 數量   [備註]" +:+ nl +:+
  "!return  物品 數量   [備註]" +:+ nl +:+
  "!status [物品]  → 顯示庫存" +:+ nl +:+
  "!mine       → 看自己未歸還" +:+ nl +:+
  "其他：!help".

(** [x or dflt] for an optional string [x]. *)
Definition or_else (x : option string) (dflt : string) : string :=
  match x with
  | Some (String c r) => String c r
  | _ => dflt
  end.

Definition status_line (l : string * Z * Z * Z) : string :=
  let '(i, t, b, a) := l in
  i +:+ "：" +:+ Py.str t +:+ " / 借" +:+ Py.str b +:+ " / 可" +:+ Py.str a.

Definition mine_line (l : string * Z) : string :=
  let '(k, v) := l in k +:+ " x " +:+ Py.str v.

(** The text of a reply. *)
Definition render (r : reply) : string :=
  match r with
  | Chosen s => s
  | UsagePick => "用法：!trun 選項1 選項2 ..."
  | HelpMsg => HELP_MSG
  | GroupId gid => "groupId: " +:+ or_else gid "（非群組）"
  | UserId uid => "userId: " +:+ uid
  | UsageAddItem => "用法：!additem 物品 總數量 [備註]"
  | DefineOk item total =>
      "設定完成：" +:+ item +:+ " 總數量 = " +:+ Py.str total
  | StatusItemNotFound item =>
      "尚未建立物品：" +:+ item +:+ "（用 !additem 建立）"
  | StatusOne item total borrowed avail =>
      item +:+ "：總量 " +:+ Py.str total +:+ "、已借 " +:+ Py.str borrowed
      +:+ "、可借 " +:+ Py.str avail
  | StatusAll lines =>
      "目前庫存：" +:+ nl +:+
      match lines with
      | [] => "（尚無物品）"
      | _ => Py.join nl (map status_line lines)
      end
  | UsageBorrowReturn => "用法：!borrow 物品 數量 [備註]；!return 同上"
  | ItemNotFound item => "尚未建立物品：" +:+ item +:+ "（先用 !additem）"
  | InvalidQuantity => "數量需為正整數。"
  | InsufficientStock item avail qty =>
      "可借不足：" +:+ item +:+ " 剩 " +:+ Py.str avail +:+ "，你要 "
      +:+ Py.str qty
  | BorrowOk item qty name =>
      "借出成功：" +:+ item +:+ " x " +:+ Py.str qty +:+ "（" +:+ name +:+ "）"
  | NothingToReturn item => "你目前沒有借 " +:+ item +:+ "。"
  | ReturnOk item real name adjusted =>
      "歸還成功：" +:+ item +:+ " x " +:+ Py.str real +:+ "（" +:+ name +:+ "）"
      +:+ match adjusted with
          | None => EmptyString
          | Some have => "（你手上只有 " +:+ Py.str have +:+ "，已自動調整）"
          end
  | MineReport lines =>
      "你未歸還：" +:+ nl +:+
      match lines with
      | [] => "（無）"
      | _ => Py.join nl (map mine_line lines)
      end
  end.

(** [random.choice(l)] for a non-empty [l], the draw being [n]. *)
Definition random_choice (n : nat) (l : list string) : string :=
  nth (n mod length l) l EmptyString.

(** The gate [ALLOWED_GROUPS and gid not in ALLOWED_GROUPS]. *)
Definition gate_closed (e : env) (gid : option string) : bool :=
  match ALLOWED_GROUPS e with
  | [] => false
  | allowed =>
      match gid with
      | Some g => negb (existsb (String.eqb g) allowed)
      | None => true
      end
  end.

(** [tokens[2].lstrip("-").isdigit()] *)
Definition numeral_ok (tok : string) : bool :=
  Py.isdigit (Py.lstrip Py.is_dash tok).

(** The note: the tokens from the fourth on, joined by single blanks, and
    the empty string when there is none. *)
Definition note_of (tokens : list string) : string :=
  if (3 <? length tokens)%nat then Py.join " " (drop 3 tokens)
  else EmptyString.

(** The dictionary [tally] of the [!mine] branch, in insertion order:
    [tally[k] = tally.get(k, 0) + delta]. *)
Fixpoint tally_add (k : string) (delta : Z) (tally : list (string * Z))
  : list (string * Z) :=
  match tally with
  | [] => [(k, 0 + delta)]
  | (k', v) :: tally' =>
      if String.eqb k' k then (k', v + delta) :: tally'
      else (k', v) :: tally_add k delta tally'
  end.

Definition delta_or_0 (c : string) : Z :=
  match Py.int c with Some d => d | None => 0 end.

(** One turn of the loop of the [!mine] branch. *)
Definition tally_step (uid : string) (tally : list (string * Z)) (r : row)
  : list (string * Z) :=
  if (6 <=? length r)%nat && String.eqb (cell r 2) uid
  then tally_add (cell r 4) (delta_or_0 (cell r 5)) tally
  else tally.

Definition mine_tally (ws : sheet) (uid : string) : list (string * Z) :=
  let rows := Gspread.get_all_values ws in
  fold_left (tally_step uid) (tail rows) [].

(** The pairs [(k, v)] that the [!mine] reply lists. *)
Definition mine_lines (ws : sheet) (uid : string) : list (string * Z) :=
  List.filter (fun kv : string * Z => 0 <? snd kv) (mine_tally ws uid).

(** The [!additem] branch. *)
Definition do_additem (text : string) (st : sheets) : sheets * outcome :=
  match Shlex.split text with
  | None => (st, Logged)
  | Some tokens =>
      if (length tokens <? 3)%nat || negb (numeral_ok (cell tokens 2))
      then (st, Reply UsageAddItem)
      else
        let item := cell tokens 1 in
        match Py.int (cell tokens 2) with
        | None => (st, Logged)
        | Some total =>
            let note := note_of tokens in
            ({| ws_items := upsert_item (ws_items st) item total note;
                ws_tx := ws_tx st |},
             Reply (DefineOk item total))
        end
  end.

(** The [!status] branch. *)
Definition do_status (text : string) (st : sheets) : sheets * outcome :=
  match Shlex.split text with
  | None => (st, Logged)
  | Some tokens =>
      if (2 <=? length tokens)%nat then
        let item := cell tokens 1 in
        match get_item (ws_items st) item with
        | Raise => (st, Logged)
        | Ret None => (st, Reply (StatusItemNotFound item))
        | Ret (Some r) =>
            let borrowed := sum_borrowed (ws_tx st) item in
            let avail := i_total r - borrowed in
            (st, Reply (StatusOne item (i_total r) borrowed avail))
        end
      else
        match status_all st with
        | Raise => (st, Logged)
        | Ret lines => (st, Reply (StatusAll lines))
        end
  end.

(** The [!borrow] / [!return] branch. *)
Definition do_borrow_return (e : env) (ev : event) (text lower : string)
  (st : sheets) : sheets * outcome :=
  let gid := group_id_of ev in
  match Shlex.split text with
  | None => (st, Logged)
  | Some tokens =>
      if (length tokens <? 3)%nat || negb (numeral_ok (cell tokens 2))
      then (st, Reply UsageBorrowReturn)
      else
        let item := cell tokens 1 in
        match Py.int (cell tokens 2) with
        | None => (st, Logged)
        | Some qty =>
            let note := note_of tokens in
            match get_item (ws_items st) item with
            | Raise => (st, Logged)
            | Ret None => (st, Reply (ItemNotFound item))
            | Ret (Some r) =>
                let uid := user_id_of ev in
                let name := or_else (profile_name ev) uid in
                if Py.startswith lower "!borrow" then
                  let borrowed := sum_borrowed (ws_tx st) item in
                  let avail := i_total r - borrowed in
                  if qty <=? 0 then (st, Reply InvalidQuantity)
                  else if avail <? qty
                  then (st, Reply (InsufficientStock item avail qty))
                  else
                    ({| ws_items := ws_items st;
                        ws_tx := add_tx (ws_tx st) (now e) gid uid name item
                                   qty note |},
                     Reply (BorrowOk item qty name))
                else
                  let have := user_borrowed (ws_tx st) uid item in
                  if qty <=? 0 then (st, Reply InvalidQuantity)
                  else if have <=? 0 then (st, Reply (NothingToReturn item))
                  else
                    let real := Z.min qty have in
                    ({| ws_items := ws_items st;
                        ws_tx := add_tx (ws_tx st) (now e) gid uid name item
                                   (- real) note |},
                     Reply (ReturnOk item real name
                              (if real =? qty then None else Some have)))
            end
        end
  end.

(** The text of the message, or the empty string, stripped. *)
Definition message_text (ev : event) : string :=
  Py.strip (or_else (text_of ev) EmptyString).

Definition handle_text (e : env) (ev : event) (st : sheets)
  : sheets * outcome :=
  let text := message_text ev in
  let lower := Py.lower text in
  let gid := group_id_of ev in
  if gate_closed e gid then (st, NoReply)
  else if Py.startswith lower "!yesno"
  then (st, Reply (Chosen (random_choice (draw e) ["Yes"; "No"])))
  else if Py.startswith lower "!trun" || Py.startswith lower "!pick" then
    match Shlex.split text with
    | None => (st, Raised)
    | Some tokens =>
        let opts := tail tokens in
        (st, Reply (match opts with
                    | [] => UsagePick
                    | _ => Chosen (random_choice (draw e) opts)
                    end))
    end
  else if Py.startswith lower "!help" then (st, Reply HelpMsg)
  else if Py.startswith lower "!gid" then (st, Reply (GroupId gid))
  else if Py.startswith lower "!uid" then (st, Reply (UserId (user_id_of ev)))
  else if Py.startswith lower "!additem" then do_additem text st
  else if Py.startswith lower "!status" then do_status text st
  else if Py.startswith lower "!borrow" || Py.startswith lower "!return"
  then do_borrow_return e ev text lower st
  else if Py.startswith lower "!mine"
  then (st, Reply (MineReport (mine_lines (ws_tx st) (user_id_of ev))))
  else (st, NoReply).

(** ** Start-up: [_get_ws] *)

(** [ws.row_values(1)]: the cells of row 1 up to the last one that is not
    empty; the empty list when the worksheet has no row or row 1 is
    blank. *)
Definition row_values_1 (ws : sheet) : row := rstrip_empty (hd [] ws).

(** [ws.update(f"A1:{chr(64+len(header))}1", [header])]: the first
    [len(header)] cells of row 1 are replaced by [header]. *)
Definition update_row_1 (ws : sheet) (header : row) : sheet :=
  (header ++ drop (length header) (hd [] ws)) :: tail ws.

(** [found] is what [sh.worksheet(name)] finds: [None] stands for
    [WorksheetNotFound], after which the worksheet is created empty. *)
Definition _get_ws (found : option sheet) (header : row) : sheet :=
  match found with
  | None => Gspread.append_row [] header
  | Some ws =>
      let vals := row_values_1 ws in
      if bool_decide (vals = header) then ws
      else if (length vals =? 0)%nat then Gspread.append_row ws header
      else update_row_1 ws header
  end.

(** The two worksheets as the module opens them. *)
Definition startup (items tx : option sheet) : sheets :=
  {| ws_items := _get_ws items items_header;
     ws_tx := _get_ws tx tx_header |}.

(** ** Counting over a run *)

(** The outcomes that come with a row appended to the ledger. *)
Definition appends_tx (o : outcome) : bool :=
  match o with
  | Reply (BorrowOk _ _ _) | Reply (ReturnOk _ _ _ _) => true
  | _ => false
  end.

(** No user holds a negative quantity of any item. *)
Definition holdings_nonneg (ws : sheet) : Prop :=
  forall uid item, 0 <= user_borrowed ws uid item.

(** ** Reading the registry *)

(** The name and the total that [get_item] and [status_all] read in a
    record. *)
Definition rec_name (rec : list (string * pyval)) : string :=
  str_val (dict_get rec "item").

Definition rec_total (rec : list (string * pyval)) : option Z :=
  int_val (dict_get_default rec "total" (PInt 0)).

(** The line of [status_all] for an item of total [t]. *)
Definition status_of (tx : sheet) (item : string) (t : Z)
  : string * Z * Z * Z :=
  (item, t, sum_borrowed tx item, t - sum_borrowed tx item).

(** ** The derived views, as the specification words them *)

Definition sumZ (l : list Z) : Z := fold_right Z.add 0 l.

(** The ledger of a transactions worksheet: the rows below the header. *)
Definition ledger (ws : sheet) : list row := tail ws.

(** The fields of a transaction, when the row has them. *)
Definition tx_user (r : row) : option string := r !! 2%nat.
Definition tx_item (r : row) : option string := r !! 4%nat.

(** The delta of a transaction: the integer its delta field holds, and 0
    when the field is missing or does not read as an integer. *)
Definition tx_delta (r : row) : Z :=
  match r !! 5%nat with
  | Some c => match Py.int c with Some d => d | None => 0 end
  | None => 0
  end.

Definition item_matches (item : string) (r : row) : bool :=
  bool_decide (tx_item r = Some item).

Definition user_matches (user_id : string) (r : row) : bool :=
  bool_decide (tx_user r = Some user_id).

(** A row whose delta is missing or does not read as an integer. *)
Definition tx_unreadable (r : row) : bool :=
  match r !! 5%nat with
  | Some c => match Py.int c with Some _ => false | None => true end
  | None => true
  end.

(** [borrowedQuantity] as the specification words it: the sum of the
    deltas of the transactions on the item. *)
Definition borrowedQuantity (l : list row) (item : string) : Z :=
  sumZ (map tx_delta (List.filter (item_matches item) l)).

(** [userOutstanding] as the specification words it. *)
Definition userOutstanding (l : list row) (user_id item : string) : Z :=
  sumZ (map tx_delta
          (List.filter
             (fun r => user_matches user_id r && item_matches item r) l)).

(** The group id of every row replaced: row [i] gets [g i]. *)
Definition regroup (g : nat -> string) (ws : sheet) : sheet :=
  imap (fun i (r : row) => <[1%nat := g i]> r) ws.

(** The row that a borrow or a return of [delta] units appends. *)
Definition tx_row (e : env) (ev : event) (item : string) (delta : Z)
  (note : string) : row :=
  [now e; gid_cell (group_id_of ev); user_id_of ev;
   or_else (profile_name ev) (user_id_of ev); item; Py.str delta; note].

(** ** Error kinds and command prefixes *)

(** The error kinds of the specification. *)
Inductive error_kind :=
  | MalformedArgs_kind | ItemNotFound_kind | InvalidQuantity_kind
  | InsufficientStock_kind | NothingToReturn_kind.

(** The error kind that a reply of the source stands for. *)
Definition kind_of (r : reply) : option error_kind :=
  match r with
  | UsagePick | UsageAddItem | UsageBorrowReturn => Some MalformedArgs_kind
  | StatusItemNotFound _ | ItemNotFound _ => Some ItemNotFound_kind
  | InvalidQuantity => Some InvalidQuantity_kind
  | InsufficientStock _ _ _ => Some InsufficientStock_kind
  | NothingToReturn _ => Some NothingToReturn_kind
  | _ => None
  end.

(** The outcomes that come with a write to a worksheet. *)
Definition writes (o : outcome) : bool :=
  match o with
  | Reply (DefineOk _ _) | Reply (BorrowOk _ _ _) | Reply (ReturnOk _ _ _ _) =>
      true
  | _ => false
  end.

(** The six command prefixes of the specification. *)
Definition ledger_prefixes : list string :=
  ["!additem"; "!borrow"; "!return"; "!status"; "!mine"; "!help"].

(** The prefixes that [handle_text] tests, in its order. *)
Definition command_prefixes : list string :=
  ["!yesno"; "!trun"; "!pick"; "!help"; "!gid"; "!uid"; "!additem";
   "!status"; "!borrow"; "!return"; "!mine"].

Definition starts_none (s : string) (prefixes : list string) : bool :=
  forallb (fun p => negb (Py.startswith s p)) prefixes.

(** ** Auxiliary notions *)

(** The value of a decimal number read digit by digit from [acc]. *)
Fixpoint uint_val (acc : Z) (d : Decimal.uint) : Z :=
  match d with
  | Decimal.Nil => acc
  | Decimal.D0 l => uint_val (10 * acc + 0) l
  | Decimal.D1 l => uint_val (10 * acc + 1) l
  | Decimal.D2 l => uint_val (10 * acc + 2) l
  | Decimal.D3 l => uint_val (10 * acc + 3) l
  | Decimal.D4 l => uint_val (10 * acc + 4) l
  | Decimal.D5 l => uint_val (10 * acc + 5) l
  | Decimal.D6 l => uint_val (10 * acc + 6) l
  | Decimal.D7 l => uint_val (10 * acc + 7) l
  | Decimal.D8 l => uint_val (10 * acc + 8) l
  | Decimal.D9 l => uint_val (10 * acc + 9) l
  end.

(** [tally.get(k, 0)] *)
Fixpoint tally_get (tally : list (string * Z)) (k : string) : Z :=
  match tally with
  | [] => 0
  | (k', v) :: tally' => if String.eqb k' k then v else tally_get tally' k
  end.

(** The characters that the command prefixes are made of. *)
Definition is_cmd_char (c : ascii) : bool :=
  Ascii.eqb c "!"%char
  || ((97 <=? nat_of_ascii c) && (nat_of_ascii c <=? 122))%nat.

(** The characters that [shlex] gives no meaning to. *)
Definition plain (c : ascii) : bool :=
  negb (Shlex.is_ws c || Shlex.is_quote c || Shlex.is_escape c).

(** The record that [get_all_records] makes of a row below the intact
    header. *)
Definition record_of (r : row) : list (string * pyval) :=
  combine items_header (map Gspread.numericise r).

(** A name that [get_all_records], with [numericise] as it is modelled
    here, gives back as it is written. *)
Definition canonical (a : string) : bool :=
  String.eqb (str_val (Gspread.numericise a)) a.

(** Rows of a registry that hold a name, which reads back as written. *)
Definition registry_rows (rows : list row) : Prop :=
  Forall (fun r : row => r <> [] /\ canonical (cell r 0) = true) rows.

(** The letters that no numeral is written with: the ASCII letters but
    those of [inf], [infinity] and [nan] and the exponent mark. *)
Definition word_letter (c : ascii) : bool :=
  let n := nat_of_ascii (Py.lower_char c) in
  ((97 <=? n) && (n <=? 122))%nat
  && negb (existsb (Nat.eqb n) [97; 101; 102; 105; 110; 116; 121]%nat).

(** A text that holds such a letter: neither [int] nor [float] reads it,
    with or without its commas, so that [numericise] gives it back as it
    is. *)
Fixpoint wordy (s : string) : bool :=
  match s with
  | String c r => word_letter c || wordy r
  | EmptyString => false
  end.

(** Rows of a registry whose names hold such a letter. *)
Definition named_rows (rows : list row) : Prop :=
  Forall (fun r : row => wordy (cell r 0) = true) rows.

(** The row that [update_B_C] leaves in the place of [r]. *)
Definition new_cells (total : Z) (note : string) (r : row) : row :=
  cell r 0 :: Py.str total :: note :: drop 3 r.

(** The handler called on one event after the other. *)
Fixpoint run (e : env) (evs : list event) (st : sheets)
  : sheets * list outcome :=
  match evs with
  | [] => (st, [])
  | ev :: evs' =>
      let '(st1, o) := handle_text e ev st in
      let '(st2, os) := run e evs' st1 in
      (st2, o :: os)
  end.

(** ** Sample data *)

(** A first run: no white list, both worksheets holding their header. *)
Definition env0 : env :=
  {| ALLOWED_GROUPS := []; now := "2024-05-01T09:00:00+08:00"; draw := 0 |}.

Definition fresh : sheets :=
  {| ws_items := [items_header]; ws_tx := [tx_header] |}.

(** The text [text] sent by user [uid], shown as [name], in group [gid]. *)
Definition says (gid uid name text : string) : event :=
  {| text_of := Some text; group_id_of := Some gid; user_id_of := uid;
     profile_name := Some name |}.

(** A registry with one item. *)
Definition one_item : sheet := [items_header; ["cable"; "3"; "spare"]].

(** The ledger of scenario C: +3 tripod, -3 tripod, +1 cable, by U1. *)
Definition ledger_C : sheet :=
  [tx_header;
   ["t1"; "G1"; "U1"; "Ann"; "tripod"; "3"; EmptyString];
   ["t2"; "G1"; "U1"; "Ann"; "tripod"; "-3"; EmptyString];
   ["t3"; "G1"; "U1"; "Ann"; "cable"; "1"; EmptyString]].

(** The registry and the ledger of scenarios A and B: a projector owned
    twice, both lent to U1. *)
Definition projector_lent : sheets :=
  {| ws_items := [items_header; ["projector"; "2"; EmptyString]];
     ws_tx := [tx_header;
               ["t1"; "G1"; "U1"; "Ann"; "projector"; "2"; EmptyString]] |}.

Definition projector_new : sheets :=
  {| ws_items := [items_header; ["projector"; "2"; EmptyString]];
     ws_tx := [tx_header] |}.

(** * Properties *)

(** ** Characters and numerals *)

Example int_blank_sign_underscore : Py.int " -1_000 " = Some (-1000).
Proof. reflexivity. Qed.

Example int_two_dashes : Py.int "--5" = None.
Proof. reflexivity. Qed.

Example int_plus : Py.int "+7" = Some 7.
Proof. reflexivity. Qed.

Example int_leading_zeros : Py.int "007" = Some 7.
Proof. reflexivity. Qed.

Example int_not_a_number :
  Py.int EmptyString = None /\ Py.int "2.5" = None /\ Py.int "1__0" = None
  /\ Py.int "- 5" = None /\ Py.int "abc" = None.
Proof. repeat split. Qed.

Example str_negative : Py.str (-120) = "-120".
Proof. reflexivity. Qed.

Example str_zero : Py.str 0 = "0".
Proof. reflexivity. Qed.

Example strip_lower : Py.lower (Py.strip "  !BoRRow X 2 ") = "!borrow x 2".
Proof. reflexivity. Qed.

(** White space outside ASCII is stripped as well: here U+3000 before the
    text and U+00A0 after it. *)
Example strip_wide_space :
  Py.strip (String "227" (String "128" (String "128" "!help"))
            +:+ String "194" (String "160" EmptyString))
  = "!help".
Proof. reflexivity. Qed.

(** U+212A, the Kelvin sign, is lowered to the letter k. *)
Example lower_kelvin :
  Py.lower ("!PIC" +:+ String "226" (String "132" (String "170" " tea")))
  = "!pick tea".
Proof. reflexivity. Qed.

Example numeral_ok_examples :
  numeral_ok "12" = true /\ numeral_ok "-12" = true /\ numeral_ok "--12" = true
  /\ numeral_ok "+12" = false /\ numeral_ok "-" = false
  /\ numeral_ok "1_2" = false /\ numeral_ok " 12" = false.
Proof. repeat split. Qed.

Example split_words :
  Shlex.split "!borrow cable 2 for   the hall"
  = Some ["!borrow"; "cable"; "2"; "for"; "the"; "hall"].
Proof. reflexivity. Qed.

Example split_quoted :
  Shlex.split "!additem 'big tripod' 3 it''s"
  = Some ["!additem"; "big tripod"; "3"; "its"].
Proof. reflexivity. Qed.

Example split_escaped : Shlex.split "a\ b c\\d" = Some ["a b"; "c\d"].
Proof. reflexivity. Qed.

Example split_unclosed : Shlex.split "!borrow 'cable 2" = None.
Proof. reflexivity. Qed.

Lemma digit_not_special c :
  Py.is_digit c = true ->
  Py.c_isspace c = false /\ Ascii.eqb c "_"%char = false
  /\ Ascii.eqb c "+"%char = false /\ Ascii.eqb c "-"%char = false.
Proof.
  destruct c as [[] [] [] [] [] [] [] []]; vm_compute; intuition congruence.
Qed.

Lemma digit_val_range c d : Py.digit_val c = Some d -> 0 <= d <= 9.
Proof.
  unfold Py.digit_val.
  destruct c as [[] [] [] [] [] [] [] []]; vm_compute; intros H;
    try discriminate; injection H as <-; split; discriminate.
Qed.

Lemma scan_digits_uint d : forall acc,
  Py.scan_digits acc false (NilEmpty.string_of_uint d)
  = Some (uint_val acc d, EmptyString).
Proof.
  induction d; intros acc; simpl; try reflexivity; apply IHd.
Qed.

Lemma of_uint_acc_val d : forall p,
  Z.pos (Pos.of_uint_acc d p) = uint_val (Z.pos p) d.
Proof.
  induction d; intros p; simpl; try reflexivity; rewrite IHd; f_equal;
    try lia.
Qed.

Lemma of_uint_val d : Z.of_N (Pos.of_uint d) = uint_val 0 d.
Proof.
  induction d; simpl; try reflexivity; try assumption;
    apply of_uint_acc_val.
Qed.

Lemma string_of_uint_head d :
  d <> Decimal.Nil ->
  exists c r, NilEmpty.string_of_uint d = String c r /\ Py.is_digit c = true.
Proof.
  destruct d; intros H; try congruence; simpl; eauto.
Qed.

Lemma int_of_numeral d :
  d <> Decimal.Nil ->
  Py.int (NilEmpty.string_of_uint d) = Some (Z.of_N (Pos.of_uint d))
  /\ Py.int (String "-"%char (NilEmpty.string_of_uint d))
     = Some (- Z.of_N (Pos.of_uint d)).
Proof.
  intros Hd. destruct (string_of_uint_head d Hd) as (c & r & E & Hc).
  destruct (digit_not_special c Hc) as (Hs & _ & Hp & Hm).
  pose proof (scan_digits_uint d 0) as Hscan. rewrite of_uint_val.
  unfold Py.int. rewrite E in *. simpl Py.lstrip. rewrite Hs.
  split.
  - destruct c as [[] [] [] [] [] [] [] []]; try discriminate Hc;
      try discriminate Hp; try discriminate Hm;
      rewrite Hscan; reflexivity.
  - change (Py.c_isspace "-"%char) with false. cbv iota beta.
    rewrite Hc, Hscan. reflexivity.
Qed.

(** [int(str(n)) == n]: an integer written to a cell reads back. *)
Lemma int_str n : Py.int (Py.str n) = Some n.
Proof.
  unfold Py.str. destruct n as [|p|p]; try reflexivity.
  - simpl. destruct (int_of_numeral (Pos.to_uint p)) as [H _].
    { apply Unsigned.to_uint_nonnil. }
    rewrite H, Unsigned.of_to. reflexivity.
  - simpl. destruct (int_of_numeral (Pos.to_uint p)) as [_ H].
    { apply Unsigned.to_uint_nonnil. }
    rewrite H, Unsigned.of_to. reflexivity.
Qed.

(** ** Dispatch on the command prefix *)

Lemma prefix_comparable p1 : forall p2 l,
  String.prefix p1 l = true -> String.prefix p2 l = true ->
  String.prefix p1 p2 = true \/ String.prefix p2 p1 = true.
Proof.
  induction p1 as [|a p1 IH]; intros p2 l H1 H2.
  - left. destruct p2; reflexivity.
  - destruct p2 as [|b p2]; [right; reflexivity|].
    destruct l as [|c l]; [discriminate|]. simpl in *.
    destruct (ascii_dec a c) as [->|]; [|discriminate].
    destruct (ascii_dec b c) as [->|]; [|discriminate].
    destruct (ascii_dec c c); [|congruence]. eauto.
Qed.

Lemma startswith_excl l p q :
  Py.startswith l p = true ->
  String.prefix p q = false -> String.prefix q p = false ->
  Py.startswith l q = false.
Proof.
  unfold Py.startswith. intros Hp H1 H2.
  destruct (String.prefix q l) eqn:E; [|reflexivity].
  destruct (prefix_comparable p q l Hp E); congruence.
Qed.

(** Rewrites away the tests of the other prefixes once one is known. *)
Ltac dispatch H :=
  repeat match goal with
    | |- context [Py.startswith ?l ?q] =>
        first [ rewrite H
              | rewrite (startswith_excl l _ q H eq_refl eq_refl) ]
    end; cbv beta iota; simpl orb.

Section Dispatch.
Variables (e : env) (ev : event) (st : sheets).

Hypothesis gate : gate_closed e (group_id_of ev) = false.

Lemma handle_additem :
  Py.startswith (Py.lower (message_text ev)) "!additem" = true ->
  handle_text e ev st = do_additem (message_text ev) st.
Proof.
  intros H. unfold handle_text. rewrite gate.
  dispatch H. reflexivity.
Qed.

Lemma handle_borrow :
  Py.startswith (Py.lower (message_text ev)) "!borrow" = true ->
  handle_text e ev st
  = do_borrow_return e ev (message_text ev) (Py.lower (message_text ev)) st.
Proof.
  intros H. unfold handle_text. rewrite gate.
  dispatch H. reflexivity.
Qed.

Lemma handle_return :
  Py.startswith (Py.lower (message_text ev)) "!return" = true ->
  handle_text e ev st
  = do_borrow_return e ev (message_text ev) (Py.lower (message_text ev)) st.
Proof.
  intros H. unfold handle_text. rewrite gate.
  dispatch H. reflexivity.
Qed.

Lemma handle_mine :
  Py.startswith (Py.lower (message_text ev)) "!mine" = true ->
  handle_text e ev st
  = (st, Reply (MineReport (mine_lines (ws_tx st) (user_id_of ev)))).
Proof.
  intros H. unfold handle_text. rewrite gate.
  dispatch H. reflexivity.
Qed.
End Dispatch.

(** ** The inventory calculator *)

Lemma sumZ_cons x l : sumZ (x :: l) = x + sumZ l.
Proof. reflexivity. Qed.

Lemma cell_lookup (r : row) i :
  cell r i = match r !! i with Some c => c | None => EmptyString end.
Proof. unfold cell. rewrite nth_lookup. destruct (r !! i); reflexivity. Qed.

Lemma add_delta_eq s c : add_delta s c = s + delta_or_0 c.
Proof. unfold add_delta, delta_or_0. destruct (Py.int c); lia. Qed.

Lemma tx_delta_cell (r : row) :
  (6 <= length r)%nat -> tx_delta r = delta_or_0 (cell r 5).
Proof.
  intros H. unfold tx_delta, delta_or_0. rewrite cell_lookup.
  destruct (r !! 5%nat) eqn:E; [reflexivity|].
  apply lookup_ge_None in E. lia.
Qed.

Lemma tx_delta_short (r : row) : (length r < 6)%nat -> tx_delta r = 0.
Proof.
  intros H. unfold tx_delta.
  destruct (r !! 5%nat) eqn:E; [|reflexivity].
  apply lookup_lt_Some in E. lia.
Qed.

Lemma item_matches_cell (r : row) item :
  (6 <= length r)%nat -> item_matches item r = String.eqb (cell r 4) item.
Proof.
  intros H. unfold item_matches, tx_item. rewrite cell_lookup.
  destruct (r !! 4%nat) as [c|] eqn:E.
  - destruct (String.eqb_spec c item) as [->|Hne].
    + apply bool_decide_eq_true_2. reflexivity.
    + apply bool_decide_eq_false_2. congruence.
  - apply lookup_ge_None in E. lia.
Qed.

Lemma user_matches_cell (r : row) uid :
  (6 <= length r)%nat -> user_matches uid r = String.eqb (cell r 2) uid.
Proof.
  intros H. unfold user_matches, tx_user. rewrite cell_lookup.
  destruct (r !! 2%nat) as [c|] eqn:E.
  - destruct (String.eqb_spec c uid) as [->|Hne].
    + apply bool_decide_eq_true_2. reflexivity.
    + apply bool_decide_eq_false_2. congruence.
  - apply lookup_ge_None in E. lia.
Qed.

(** The loop of [sum_borrowed] and [user_borrowed], for any row test
    that agrees with [sel] on the rows of six fields or more. *)
Lemma fold_rows_sum (test sel : row -> bool) :
  (forall r, (6 <= length r)%nat -> test r = sel r) ->
  forall l s,
    fold_left
      (fun s (r : row) =>
         if (6 <=? length r)%nat && test r then add_delta s (cell r 5) else s)
      l s
    = s + sumZ (map tx_delta (List.filter sel l)).
Proof.
  intros Hts. induction l as [|r l IH]; intros s; [simpl; lia|].
  cbn [fold_left List.filter]. rewrite IH.
  destruct (Nat.leb_spec 6 (length r)) as [Hlen|Hlen].
  - rewrite andb_true_l, Hts by assumption.
    destruct (sel r); cbn [map]; [|reflexivity].
    rewrite sumZ_cons, add_delta_eq, tx_delta_cell by assumption. lia.
  - rewrite andb_false_l.
    destruct (sel r); cbn [map]; [|reflexivity].
    rewrite sumZ_cons, tx_delta_short by assumption. reflexivity.
Qed.

Lemma sum_borrowed_spec ws item :
  sum_borrowed ws item = borrowedQuantity (ledger ws) item.
Proof.
  unfold sum_borrowed, borrowedQuantity, ledger, Gspread.get_all_values.
  rewrite (fold_rows_sum (fun r => String.eqb (cell r 4) item)
             (item_matches item)).
  - lia.
  - intros r H. symmetry. apply item_matches_cell, H.
Qed.

Lemma user_borrowed_spec ws uid item :
  user_borrowed ws uid item = userOutstanding (ledger ws) uid item.
Proof.
  unfold user_borrowed, userOutstanding, ledger, Gspread.get_all_values.
  rewrite <- (Z.add_0_l (sumZ _)).
  rewrite <- (fold_rows_sum
                (fun r => String.eqb (cell r 2) uid
                          && String.eqb (cell r 4) item)).
  - generalize 0. induction (tail ws) as [|r l IH]; intros s;
      [reflexivity|].
    cbn [fold_left]. rewrite IH, andb_assoc. reflexivity.
  - intros r H. rewrite user_matches_cell, item_matches_cell by assumption.
    reflexivity.
Qed.

(** The group id of a row is a field no fold reads. *)
Lemma cell_regroup (r : row) g i : i <> 1%nat -> cell (<[1%nat := g]> r) i = cell r i.
Proof.
  intros H. rewrite !cell_lookup, list_lookup_insert_ne by congruence.
  reflexivity.
Qed.

Lemma fold_regroup {A} (step : A -> row -> A) :
  (forall a r g, step a (<[1%nat := g]> r) = step a r) ->
  forall l (f : nat -> string) a,
    fold_left step (imap (fun i (r : row) => <[1%nat := f i]> r) l) a
    = fold_left step l a.
Proof.
  intros Hstep. induction l as [|r l IH]; intros f a; [reflexivity|].
  cbn [imap fold_left]. rewrite Hstep. apply (IH (f ∘ S)).
Qed.

Lemma tail_regroup g (ws : sheet) :
  tail (regroup g ws) = imap (fun i (r : row) => <[1%nat := (g ∘ S) i]> r) (tail ws).
Proof. destruct ws; reflexivity. Qed.

Lemma sum_borrowed_regroup g ws item :
  sum_borrowed (regroup g ws) item = sum_borrowed ws item.
Proof.
  unfold sum_borrowed, Gspread.get_all_values. rewrite tail_regroup.
  apply fold_regroup. intros s r x.
  rewrite length_insert, !cell_regroup by congruence. reflexivity.
Qed.

Lemma user_borrowed_regroup g ws uid item :
  user_borrowed (regroup g ws) uid item = user_borrowed ws uid item.
Proof.
  unfold user_borrowed, Gspread.get_all_values. rewrite tail_regroup.
  apply fold_regroup. intros s r x.
  rewrite length_insert, !cell_regroup by congruence. reflexivity.
Qed.

Lemma mine_lines_regroup g ws uid :
  mine_lines (regroup g ws) uid = mine_lines ws uid.
Proof.
  unfold mine_lines, mine_tally, Gspread.get_all_values. f_equal.
  rewrite tail_regroup.
  apply fold_regroup. intros s r x. unfold tally_step.
  rewrite length_insert, !cell_regroup by congruence. reflexivity.
Qed.

(** ** Appending a transaction *)

Lemma tail_append_row (ws : sheet) r :
  ws <> [] -> tail (Gspread.append_row ws r) = tail ws ++ [r].
Proof. destruct ws; [congruence|reflexivity]. Qed.

Lemma sum_borrowed_add_tx ws ts gid uid name item delta note item' :
  ws <> [] ->
  sum_borrowed (add_tx ws ts gid uid name item delta note) item'
  = sum_borrowed ws item' + (if String.eqb item item' then delta else 0).
Proof.
  intros H. unfold sum_borrowed, add_tx, Gspread.get_all_values.
  rewrite tail_append_row, fold_left_app by assumption. cbn [fold_left].
  set (r := [ts; _; _; _; _; _; _]).
  change (cell r 4) with item. change (cell r 5) with (Py.str delta).
  change (6 <=? length r)%nat with true. cbn [andb].
  destruct (String.eqb item item'); [|lia].
  unfold add_delta. rewrite int_str. reflexivity.
Qed.

Lemma user_borrowed_add_tx ws ts gid uid name item delta note uid' item' :
  ws <> [] ->
  user_borrowed (add_tx ws ts gid uid name item delta note) uid' item'
  = user_borrowed ws uid' item'
    + (if String.eqb uid uid' && String.eqb item item' then delta else 0).
Proof.
  intros H. unfold user_borrowed, add_tx, Gspread.get_all_values.
  rewrite tail_append_row, fold_left_app by assumption. cbn [fold_left].
  set (r := [ts; _; _; _; _; _; _]).
  change (cell r 4) with item. change (cell r 5) with (Py.str delta).
  change (cell r 2) with uid.
  change (6 <=? length r)%nat with true. cbn [andb].
  destruct (String.eqb uid uid' && String.eqb item item'); [|lia].
  unfold add_delta. rewrite int_str. reflexivity.
Qed.

(** ** The tally of [!mine] *)

Lemma tally_get_add k d t k' :
  tally_get (tally_add k d t) k'
  = tally_get t k' + (if String.eqb k k' then d else 0).
Proof.
  induction t as [|[k0 v] t IH]; cbn [tally_add tally_get].
  - destruct (String.eqb k k'); lia.
  - destruct (String.eqb_spec k0 k) as [->|Hne]; cbn [tally_get].
    + destruct (String.eqb k k'); lia.
    + destruct (String.eqb_spec k0 k') as [->|Hne'].
      * destruct (String.eqb_spec k k'); [congruence|lia].
      * apply IH.
Qed.

Lemma tally_add_keys k d t :
  map fst (tally_add k d t)
  = if bool_decide (k ∈ map fst t) then map fst t else map fst t ++ [k].
Proof.
  induction t as [|[k0 v] t IH]; cbn [tally_add map fst].
  - reflexivity.
  - destruct (String.eqb_spec k0 k) as [->|Hne]; cbn [map fst].
    + rewrite bool_decide_eq_true_2 by apply list_elem_of_here. reflexivity.
    + rewrite IH. destruct (bool_decide (k ∈ map fst t)) eqn:E.
      * apply bool_decide_eq_true_1 in E.
        rewrite bool_decide_eq_true_2 by (apply list_elem_of_further, E).
        reflexivity.
      * apply bool_decide_eq_false_1 in E.
        rewrite bool_decide_eq_false_2; [reflexivity|].
        intros [?|?]%elem_of_cons; congruence.
Qed.

Lemma tally_add_NoDup k d t :
  NoDup (map fst t) -> NoDup (map fst (tally_add k d t)).
Proof.
  intros H. rewrite tally_add_keys.
  destruct (bool_decide (k ∈ map fst t)) eqn:E; [assumption|].
  apply bool_decide_eq_false_1 in E.
  apply NoDup_app. split; [assumption|]. split.
  - intros x Hx ->%list_elem_of_singleton. contradiction.
  - apply NoDup_singleton.
Qed.

Lemma tally_get_in k v t :
  NoDup (map fst t) -> (k, v) ∈ t -> tally_get t k = v.
Proof.
  induction t as [|[k0 v0] t IH]; intros Hnd Hin.
  - inversion Hin.
  - cbn [map fst] in Hnd. apply NoDup_cons in Hnd as [Hk0 Hnd].
    cbn [tally_get]. apply elem_of_cons in Hin as [Heq|Hin].
    + injection Heq as -> ->. rewrite String.eqb_refl. reflexivity.
    + destruct (String.eqb_spec k0 k) as [->|Hne]; [|auto].
      exfalso. apply Hk0. apply list_elem_of_fmap. exists (k, v). auto.
Qed.

Lemma tally_get_nonzero k t : tally_get t k <> 0 -> (k, tally_get t k) ∈ t.
Proof.
  induction t as [|[k0 v0] t IH]; cbn [tally_get]; intros H.
  - congruence.
  - destruct (String.eqb_spec k0 k) as [->|Hne].
    + apply list_elem_of_here.
    + apply list_elem_of_further, IH, H.
Qed.

Section Tally.
Variable uid : string.

Lemma tally_fold_NoDup l : forall t,
  NoDup (map fst t) -> NoDup (map fst (fold_left (tally_step uid) l t)).
Proof.
  induction l as [|r l IH]; intros t H; [assumption|].
  cbn [fold_left]. apply IH. unfold tally_step.
  destruct (_ && _); [apply tally_add_NoDup|]; assumption.
Qed.

Lemma tally_step_get t r k :
  tally_get (tally_step uid t r) k
  = tally_get t k
    + (if user_matches uid r && item_matches k r then tx_delta r else 0).
Proof.
  unfold tally_step. destruct (Nat.leb_spec 6 (length r)) as [Hlen|Hlen].
  - rewrite andb_true_l, user_matches_cell, item_matches_cell,
      tx_delta_cell by assumption.
    destruct (String.eqb (cell r 2) uid); cbn [andb]; [|lia].
    apply tally_get_add.
  - rewrite andb_false_l, tx_delta_short by assumption.
    destruct (_ && _); lia.
Qed.

Lemma tally_fold_get k l : forall t,
  tally_get (fold_left (tally_step uid) l t) k
  = tally_get t k + userOutstanding l uid k.
Proof.
  induction l as [|r l IH]; intros t; cbn [fold_left].
  - unfold userOutstanding. simpl. lia.
  - rewrite IH, tally_step_get. unfold userOutstanding.
    cbn [List.filter].
    destruct (user_matches uid r && item_matches k r); cbn [map];
      rewrite ?sumZ_cons; lia.
Qed.

Lemma mine_tally_get ws k :
  tally_get (mine_tally ws uid) k = user_borrowed ws uid k.
Proof.
  rewrite user_borrowed_spec. unfold mine_tally, Gspread.get_all_values.
  apply (tally_fold_get k (tail ws) []).
Qed.

Lemma mine_tally_NoDup ws : NoDup (map fst (mine_tally ws uid)).
Proof. apply tally_fold_NoDup. constructor. Qed.

Lemma mine_lines_spec ws k v :
  (k, v) ∈ mine_lines ws uid <-> v = user_borrowed ws uid k /\ 0 < v.
Proof.
  unfold mine_lines. rewrite list_elem_of_In, filter_In, <- list_elem_of_In.
  cbn [snd]. rewrite Z.ltb_lt. split.
  - intros [Hin Hv]. split; [|assumption].
    rewrite <- mine_tally_get. symmetry.
    apply tally_get_in; [apply mine_tally_NoDup|assumption].
  - intros [-> Hv]. split; [|assumption].
    rewrite <- mine_tally_get in *. apply tally_get_nonzero. lia.
Qed.

Lemma mine_lines_NoDup ws : NoDup (map fst (mine_lines ws uid)).
Proof.
  unfold mine_lines. generalize (mine_tally_NoDup ws).
  induction (mine_tally ws uid) as [|[k v] t IH]; intros H;
    cbn [List.filter]; [constructor|].
  cbn [map fst] in H. apply NoDup_cons in H as [Hk H].
  destruct (0 <? snd (k, v)); [|auto].
  cbn [map fst]. apply NoDup_cons. split; [|auto].
  intros Hin. apply Hk. apply list_elem_of_fmap in Hin as [[k' v'] [-> Hin]].
  apply list_elem_of_fmap. exists (k', v'). split; [reflexivity|].
  apply list_elem_of_In. apply list_elem_of_In, filter_In in Hin.
  apply Hin.
Qed.
End Tally.

(** ** The ledger engine *)

Lemma tx_row_delta e ev item delta note :
  tx_delta (tx_row e ev item delta note) = delta.
Proof. unfold tx_delta, tx_row. cbn [lookup list_lookup]. rewrite int_str. reflexivity. Qed.

Lemma user_borrowed_nonempty ws uid item :
  user_borrowed ws uid item <> 0 -> ws <> [].
Proof. intros H ->. apply H. reflexivity. Qed.

(** C1 (Return clamp): a [!return] of [qty > 0] units by an actor who
    holds [have > 0] units of an existing item appends exactly one
    transaction, whose delta is [- min qty have]; the reply notes the
    adjustment if and only if [min qty have < qty]; the actor's holding
    drops by that amount, which is [have] when [qty > have] and [qty]
    when [qty <= have]. *)
Theorem C1_return_clamp
  (e : env) (ev : event) (st : sheets) (cmd item q : string)
  (rest : list string) (qty : Z) (r : item_info) :
  gate_closed e (group_id_of ev) = false ->
  Py.startswith (Py.lower (message_text ev)) "!return" = true ->
  Shlex.split (message_text ev) = Some (cmd :: item :: q :: rest) ->
  numeral_ok q = true ->
  Py.int q = Some qty ->
  get_item (ws_items st) item = Ret (Some r) ->
  0 < qty ->
  0 < user_borrowed (ws_tx st) (user_id_of ev) item ->
  let uid := user_id_of ev in
  let name := or_else (profile_name ev) uid in
  let have := user_borrowed (ws_tx st) uid item in
  let real := Z.min qty have in
  let new_row := tx_row e ev item (- real) (note_of (cmd :: item :: q :: rest)) in
  let st' := {| ws_items := ws_items st; ws_tx := ws_tx st ++ [new_row] |} in
  let adjusted := if real =? qty then None else Some have in
  handle_text e ev st = (st', Reply (ReturnOk item real name adjusted))
  /\ tx_delta new_row = - real
  /\ user_borrowed (ws_tx st') uid item = have - real
  /\ (adjusted <> None <-> real < qty)
  /\ (have < qty -> real = have)
  /\ (qty <= have -> real = qty).
Proof.
  intros Hgate Hret Hsplit Hok Hint Hitem Hqty Hhave uid name have real
    new_row st' adjusted.
  split; [|split; [|split; [|split; [|split]]]].
  - rewrite handle_return by assumption. unfold do_borrow_return.
    rewrite Hsplit. change (cell (cmd :: item :: q :: rest) 2) with q.
    change (cell (cmd :: item :: q :: rest) 1) with item.
    rewrite Hok, Hint, Hitem. cbn [length Nat.ltb Nat.leb orb negb].
    rewrite (startswith_excl _ _ "!borrow" Hret eq_refl eq_refl).
    fold uid have real.
    destruct (Z.leb_spec qty 0); [lia|].
    destruct (Z.leb_spec have 0); [unfold have, uid in *; lia|].
    reflexivity.
  - apply tx_row_delta.
  - unfold st', new_row, tx_row. cbn [ws_tx].
    pose proof (user_borrowed_add_tx (ws_tx st) (now e) (group_id_of ev) uid
                  name item (- real)
                  (note_of (cmd :: item :: q :: rest)) uid item) as H.
    unfold add_tx, Gspread.append_row in H. fold uid name. rewrite H.
    + rewrite !String.eqb_refl. cbn [andb]. fold have. lia.
    + apply (user_borrowed_nonempty _ uid item). unfold uid. lia.
  - unfold adjusted. destruct (Z.eqb_spec real qty) as [E|E].
    + split; [congruence|lia].
    + split; [|congruence]. intros _. unfold real in *. lia.
  - unfold real. lia.
  - unfold real. lia.
Qed.

(** C2 (Borrow): for a [!borrow] of [qty] units of [item], an item that
    is not in the registry gives [ItemNotFound] and no write; an item that
    is there gives [InvalidQuantity] and no write when [qty <= 0],
    [InsufficientStock] with the available and the requested quantity and
    no write when [total - sum_borrowed item < qty], and otherwise exactly
    one appended transaction of delta [+qty] and a success reply with the
    quantity and the actor's display name. *)
Theorem C2_borrow
  (e : env) (ev : event) (st : sheets) (cmd item q : string)
  (rest : list string) (qty : Z) :
  gate_closed e (group_id_of ev) = false ->
  Py.startswith (Py.lower (message_text ev)) "!borrow" = true ->
  Shlex.split (message_text ev) = Some (cmd :: item :: q :: rest) ->
  numeral_ok q = true ->
  Py.int q = Some qty ->
  let name := or_else (profile_name ev) (user_id_of ev) in
  let new_row := tx_row e ev item qty (note_of (cmd :: item :: q :: rest)) in
  let st' := {| ws_items := ws_items st; ws_tx := ws_tx st ++ [new_row] |} in
  (get_item (ws_items st) item = Ret None ->
   handle_text e ev st = (st, Reply (ItemNotFound item)))
  /\ (forall r, get_item (ws_items st) item = Ret (Some r) ->
      let avail := i_total r - sum_borrowed (ws_tx st) item in
      (qty <= 0 -> handle_text e ev st = (st, Reply InvalidQuantity))
      /\ (0 < qty -> avail < qty ->
          handle_text e ev st = (st, Reply (InsufficientStock item avail qty)))
      /\ (0 < qty -> qty <= avail ->
          handle_text e ev st = (st', Reply (BorrowOk item qty name))
          /\ tx_delta new_row = qty)).
Proof.
  intros Hgate Hbor Hsplit Hok Hint name new_row st'.
  assert (Hrun : handle_text e ev st
    = match get_item (ws_items st) item with
      | Raise => (st, Logged)
      | Ret None => (st, Reply (ItemNotFound item))
      | Ret (Some r) =>
          let avail := i_total r - sum_borrowed (ws_tx st) item in
          if qty <=? 0 then (st, Reply InvalidQuantity)
          else if avail <? qty
          then (st, Reply (InsufficientStock item avail qty))
          else (st', Reply (BorrowOk item qty name))
      end).
  { rewrite handle_borrow by assumption. unfold do_borrow_return.
    rewrite Hsplit. change (cell (cmd :: item :: q :: rest) 2) with q.
    change (cell (cmd :: item :: q :: rest) 1) with item.
    rewrite Hok, Hint, Hbor. reflexivity. }
  rewrite Hrun. split.
  - intros ->. reflexivity.
  - intros r ->. cbv zeta. repeat split.
    + intros H. destruct (Z.leb_spec qty 0); [reflexivity|lia].
    + destruct (Z.leb_spec qty 0); [lia|].
      destruct (Z.ltb_spec (i_total r - sum_borrowed (ws_tx st) item) qty);
        [reflexivity|lia].
    + destruct (Z.leb_spec qty 0); [lia|].
      destruct (Z.ltb_spec (i_total r - sum_borrowed (ws_tx st) item) qty);
        [lia|reflexivity].
    + apply tx_row_delta.
Qed.

Ltac break_match :=
  match goal with
  | |- context [match ?x with _ => _ end] => destruct x eqn:?
  end.

Lemma do_additem_frame text st st' o :
  do_additem text st = (st', o) -> writes o = false -> st' = st.
Proof.
  unfold do_additem. repeat break_match; intros [= <- <-]; auto;
    discriminate.
Qed.

Lemma do_status_frame text st st' o : do_status text st = (st', o) -> st' = st.
Proof.
  unfold do_status. repeat break_match; intros [= <- <-]; reflexivity.
Qed.

Lemma do_borrow_return_frame e ev text lower st st' o :
  do_borrow_return e ev text lower st = (st', o) ->
  writes o = false -> st' = st.
Proof.
  unfold do_borrow_return. repeat break_match; intros [= <- <-]; auto;
    discriminate.
Qed.

(** Only the three success replies come with a write. *)
Lemma handle_text_frame e ev st st' o :
  handle_text e ev st = (st', o) -> writes o = false -> st' = st.
Proof.
  unfold handle_text.
  repeat match goal with
    | |- context [if ?b then _ else _] => destruct b
    end;
    eauto using do_additem_frame, do_status_frame, do_borrow_return_frame;
    try (intros [= <- <-]; reflexivity);
    try (break_match; intros [= <- <-]; reflexivity).
Qed.

(** C3 (Rejection leaves no trace): a command answered with a reply of
    kind MalformedArgs, ItemNotFound, InvalidQuantity, InsufficientStock or
    NothingToReturn leaves both worksheets as they were: no transaction is
    appended and no item is changed. *)
Theorem C3_rejection_leaves_no_trace
  (e : env) (ev : event) (st st' : sheets) (r : reply) (k : error_kind) :
  handle_text e ev st = (st', Reply r) ->
  kind_of r = Some k ->
  st' = st.
Proof.
  intros Hrun Hk. apply (handle_text_frame e ev st st' (Reply r) Hrun).
  destruct r; try discriminate Hk; reflexivity.
Qed.

(** ** The quantity token *)

Lemma scan_digits_nonneg s : forall acc b n rest,
  0 <= acc -> Py.scan_digits acc b s = Some (n, rest) -> 0 <= n.
Proof.
  induction s as [|c s IH]; intros acc b n rest Hacc; cbn [Py.scan_digits].
  - destruct b; intros [= <- <-]; assumption.
  - destruct (Py.digit_val c) as [d|] eqn:E.
    + apply IH. apply digit_val_range in E. lia.
    + destruct (Ascii.eqb c "_"%char), b; try discriminate.
      * apply IH, Hacc.
      * intros [= <- <-]. assumption.
Qed.

Lemma scan_digits_all s : forall acc,
  Py.all_chars Py.is_digit s = true ->
  exists n, Py.scan_digits acc false s = Some (n, EmptyString).
Proof.
  induction s as [|c s IH]; intros acc; cbn [Py.all_chars Py.scan_digits].
  - eauto.
  - intros [Hc Hs]%andb_prop. unfold Py.digit_val. rewrite Hc. apply IH, Hs.
Qed.

(** A string that [isdigit()] accepts reads as a non-negative integer, and
    as its opposite behind one minus sign. *)
Lemma int_digits s :
  Py.isdigit s = true ->
  exists n, 0 <= n /\ Py.int s = Some n
            /\ Py.int (String "-"%char s) = Some (- n).
Proof.
  destruct s as [|c s]; [discriminate|]. cbn [Py.isdigit]. intros Hall.
  pose proof Hall as [Hc Hs]%andb_prop.
  destruct (scan_digits_all (String c s) 0 Hall) as [n Hn].
  pose proof (scan_digits_nonneg _ _ _ _ _ (Z.le_refl 0) Hn) as Hpos.
  destruct (digit_not_special c Hc) as (Hsp & _ & Hplus & Hminus).
  exists n. split; [assumption|]. unfold Py.int. split.
  - cbn [Py.lstrip]. rewrite Hsp.
    assert (Hsign : (match String c s with
                     | String "+"%char r => (false, r)
                     | String "-"%char r => (true, r)
                     | _ => (false, String c s)
                     end) = (false, String c s)).
    { destruct c as [[] [] [] [] [] [] [] []]; try reflexivity;
        discriminate. }
    rewrite Hsign, Hc, Hn. reflexivity.
  - cbn [Py.lstrip]. change (Py.c_isspace "-"%char) with false. cbv iota.
    rewrite Hc, Hn. reflexivity.
Qed.

Lemma startswith_dash q :
  Py.startswith q "-" = true -> exists q', q = String "-"%char q'.
Proof.
  unfold Py.startswith. destruct q as [|c q']; [discriminate|].
  cbn [String.prefix].
  destruct (ascii_dec "-"%char c) as [<-|]; [eauto|discriminate].
Qed.

Lemma int_dash_nonpos q n :
  Py.startswith q "-" = true -> Py.int q = Some n -> n <= 0.
Proof.
  intros [q' ->]%startswith_dash. unfold Py.int. cbn [Py.lstrip].
  change (Py.c_isspace "-"%char) with false. cbv iota.
  destruct q' as [|c s]; [discriminate|].
  destruct (Py.is_digit c); [|discriminate].
  destruct (Py.scan_digits 0 false (String c s)) as [[m rest]|] eqn:E;
    [|discriminate].
  apply scan_digits_nonneg in E; [|lia].
  destruct (Py.all_chars Py.c_isspace rest); [|discriminate].
  intros [= <-]. lia.
Qed.

Lemma lstrip_no_dash q :
  Py.startswith q "-" = false -> Py.lstrip Py.is_dash q = q.
Proof.
  unfold Py.startswith. destruct q as [|c q']; [reflexivity|].
  cbn [String.prefix Py.lstrip]. unfold Py.is_dash.
  destruct (ascii_dec "-"%char c) as [<-|Hne].
  - destruct q'; discriminate.
  - intros _. destruct (Ascii.eqb_spec c "-"%char); [congruence|reflexivity].
Qed.

Lemma numeral_ok_nonneg q n :
  numeral_ok q = true -> Py.startswith q "-" = false ->
  Py.int q = Some n -> 0 <= n.
Proof.
  unfold numeral_ok. intros Hok Hdash Hint.
  rewrite lstrip_no_dash in Hok by assumption.
  destruct (int_digits q Hok) as (m & Hm & E & _). congruence.
Qed.

Lemma numeral_ok_signed (neg : bool) ds :
  Py.isdigit ds = true ->
  numeral_ok (if neg then String "-"%char ds else ds) = true.
Proof.
  intros H. unfold numeral_ok.
  assert (Hds : Py.lstrip Py.is_dash ds = ds).
  { destruct ds as [|c s]; [reflexivity|]. cbn [Py.isdigit Py.all_chars] in H.
    apply andb_prop in H as [Hc _].
    apply digit_not_special in Hc as (_ & _ & _ & Hc).
    cbn [Py.lstrip]. unfold Py.is_dash. rewrite Hc. reflexivity. }
  destruct neg; cbn [Py.lstrip]; [change (Py.is_dash "-"%char) with true;
    cbv iota|]; rewrite Hds; assumption.
Qed.

(** ** Recognition of commands *)

(** ** The first token of a command *)

Lemma prefix_iff_app a : forall b,
  String.prefix a b = true <-> exists x, b = a +:+ x.
Proof.
  induction a as [|c a IH]; intros b.
  - split; [intros _; exists b; reflexivity|]. intros _. destruct b; reflexivity.
  - destruct b as [|d b]; cbn [String.prefix].
    + split; [discriminate|]. intros [x Hx]. discriminate Hx.
    + destruct (ascii_dec c d) as [->|Hne].
      * rewrite IH. split; intros [x Hx]; exists x.
        -- rewrite Hx. reflexivity.
        -- injection Hx as ->. reflexivity.
      * split; [discriminate|]. intros [x Hx]. injection Hx as -> _.
        congruence.
Qed.

Lemma append_cons x (a b : string) : String x a +:+ b = String x (a +:+ b).
Proof. reflexivity. Qed.

Lemma append_assoc (a b c : string) : (a +:+ b) +:+ c = a +:+ (b +:+ c).
Proof.
  induction a as [|x a IH]; [reflexivity|].
  rewrite !append_cons, IH. reflexivity.
Qed.

Lemma append_empty_r (a : string) : a +:+ EmptyString = a.
Proof.
  induction a as [|x a IH]; [reflexivity|]. rewrite append_cons, IH.
  reflexivity.
Qed.

Lemma prefix_snoc a c t :
  String.prefix (Shlex.snoc a c) t = true -> String.prefix a t = true.
Proof.
  rewrite !prefix_iff_app. intros [x ->]. unfold Shlex.snoc.
  rewrite append_assoc. eauto.
Qed.

Lemma prefix_refl a : String.prefix a a = true.
Proof.
  apply prefix_iff_app. exists EmptyString. symmetry. apply append_empty_r.
Qed.

Lemma snoc_nonempty tok c : Shlex.snoc tok c <> EmptyString.
Proof. destruct tok; discriminate. Qed.

Lemma emit_nonempty tok quoted rest :
  tok <> EmptyString -> Shlex.emit tok quoted rest = tok :: rest.
Proof. destruct tok; [congruence|reflexivity]. Qed.

(** Once a token has begun, it is the first token of the result, however
    it goes on. *)
Lemma lex_first r : forall st tok quoted toks,
  st <> Shlex.SBlank -> tok <> EmptyString ->
  Shlex.lex r st tok quoted = Some toks ->
  exists t rest, toks = t :: rest /\ String.prefix tok t = true.
Proof.
  induction r as [|c r IH]; intros st tok quoted toks Hst Htok;
    cbn [Shlex.lex].
  - destruct st; try congruence; try discriminate.
    rewrite emit_nonempty by assumption. intros [= <-].
    eauto using prefix_refl.
  - destruct st as [| |q|b]; [congruence| | |].
    + destruct (Shlex.is_ws c).
      * destruct (Shlex.lex r _ _ _); [|discriminate]. cbn [option_map].
        rewrite emit_nonempty by assumption. intros [= <-].
        eauto using prefix_refl.
      * destruct (Shlex.is_quote c); [apply IH; congruence|].
        destruct (Shlex.is_escape c); [apply IH; congruence|].
        intros H. apply IH in H as (t & rest & -> & H);
          [|congruence|apply snoc_nonempty].
        eauto using prefix_snoc.
    + destruct (Ascii.eqb c q); [apply IH; congruence|].
      destruct (_ && _); [apply IH; congruence|].
      intros H. apply IH in H as (t & rest & -> & H);
        [|congruence|apply snoc_nonempty].
      eauto using prefix_snoc.
    + intros H. apply IH in H as (t & rest & -> & H);
        [|destruct b; discriminate|apply snoc_nonempty].
      apply prefix_snoc in H. exists t, rest. split; [reflexivity|].
      destruct b as [|q]; [assumption|].
      destruct (_ && _); [eapply prefix_snoc; eassumption|assumption].
Qed.

Lemma lower_char_plain c : is_cmd_char (Py.lower_char c) = true -> plain c = true.
Proof.
  destruct c as [[] [] [] [] [] [] [] []]; vm_compute; congruence.
Qed.

Lemma lex_plain_word w : forall r tok quoted,
  Py.all_chars plain w = true ->
  Shlex.lex (w +:+ r) Shlex.SWord tok quoted
  = Shlex.lex r Shlex.SWord (tok +:+ w) quoted.
Proof.
  induction w as [|c w IH]; intros r tok quoted; cbn [Py.all_chars].
  - intros _. rewrite append_empty_r. reflexivity.
  - intros [Hc Hw]%andb_prop. rewrite append_cons. cbn [Shlex.lex].
    unfold plain in Hc. apply negb_true_iff in Hc.
    apply orb_false_elim in Hc as [Hc He].
    apply orb_false_elim in Hc as [Hs Hq].
    rewrite Hs, Hq, He, IH by assumption. unfold Shlex.snoc.
    rewrite append_assoc. reflexivity.
Qed.

Lemma split_plain_word w r toks :
  w <> EmptyString -> Py.all_chars plain w = true ->
  Shlex.split (w +:+ r) = Some toks ->
  exists t rest, toks = t :: rest /\ String.prefix w t = true.
Proof.
  destruct w as [|c w]; [congruence|]. intros _. cbn [Py.all_chars].
  intros [Hc Hw]%andb_prop. unfold Shlex.split.
  rewrite append_cons. cbn [Shlex.lex].
  unfold plain in Hc. apply negb_true_iff in Hc.
  apply orb_false_elim in Hc as [Hc He].
  apply orb_false_elim in Hc as [Hs Hq].
  rewrite Hs, Hq, He, lex_plain_word by assumption.
  intros H. apply lex_first in H; [assumption|congruence|discriminate].
Qed.

Lemma lower_cons c1 r1 :
  Py.lower (String c1 r1)
  = match r1 with
    | EmptyString => String (Py.lower_char c1) (Py.lower r1)
    | String c2 r2 =>
        if Py.is_byte 196 c1 && Py.is_byte 176 c2
        then String "i" (String "204" (String "135" (Py.lower r2)))
        else
          match r2 with
          | EmptyString => String (Py.lower_char c1) (Py.lower r1)
          | String c3 r3 =>
              if Py.is_byte 226 c1 && Py.is_byte 132 c2 && Py.is_byte 170 c3
              then String "k" (Py.lower r3)
              else String (Py.lower_char c1) (Py.lower r1)
          end
    end.
Proof. destruct r1 as [|c2 [|c3 r3]]; reflexivity. Qed.

Lemma is_byte_eq n c : Py.is_byte n c = true -> c = ascii_of_nat n.
Proof.
  unfold Py.is_byte. intros H%Nat.eqb_eq. rewrite <- H.
  symmetry. apply ascii_nat_embedding.
Qed.

Lemma cmd_char_ascii c :
  is_cmd_char (Py.lower_char c) = true -> (nat_of_ascii c < 128)%nat.
Proof.
  destruct c as [[] [] [] [] [] [] [] []]; vm_compute; intros; try lia;
    discriminate.
Qed.

(** An ASCII character is lowered by itself, whatever follows it. *)
Lemma lower_ascii_head c y :
  (nat_of_ascii c < 128)%nat ->
  Py.lower (String c y) = String (Py.lower_char c) (Py.lower y).
Proof.
  intros Hc. rewrite lower_cons.
  assert (H1 : Py.is_byte 196 c = false)
    by (apply Nat.eqb_neq; lia).
  assert (H2 : Py.is_byte 226 c = false)
    by (apply Nat.eqb_neq; lia).
  rewrite H1, H2. destruct y as [|c2 [|c3 r3]]; reflexivity.
Qed.

(** The three ways [lower] treats the head of a text. *)
Lemma lower_head_cases c1 r1 :
  Py.lower (String c1 r1) = String (Py.lower_char c1) (Py.lower r1)
  \/ (exists r2, String c1 r1 = String "196" (String "176" r2)
               /\ Py.lower (String c1 r1)
                  = String "i" (String "204" (String "135" (Py.lower r2))))
  \/ (exists r3, String c1 r1 = String "226" (String "132" (String "170" r3))
               /\ Py.lower (String c1 r1) = String "k" (Py.lower r3)).
Proof.
  rewrite lower_cons. destruct r1 as [|c2 r2]; [left; reflexivity|].
  destruct (Py.is_byte 196 c1 && Py.is_byte 176 c2) eqn:E1.
  { apply andb_prop in E1 as [->%is_byte_eq ->%is_byte_eq].
    right; left. exists r2. split; reflexivity. }
  destruct r2 as [|c3 r3]; [left; reflexivity|].
  destruct (Py.is_byte 226 c1 && Py.is_byte 132 c2 && Py.is_byte 170 c3)
    eqn:E2; [|left; reflexivity].
  apply andb_prop in E2 as [[->%is_byte_eq ->%is_byte_eq]%andb_prop
                              ->%is_byte_eq].
  right; right. exists r3. split; reflexivity.
Qed.

Lemma prefix_nil_r p : String.prefix p EmptyString = true -> p = EmptyString.
Proof. destruct p; [reflexivity|discriminate]. Qed.

Lemma prefix_nil_l s : String.prefix EmptyString s = true.
Proof. destruct s; reflexivity. Qed.

(** A lower-cased text that starts with a word of command characters
    starts with plain characters that make up that word in lower case,
    however the text goes on after them. *)
Lemma startswith_lower_word n : forall p text,
  (String.length text <= n)%nat ->
  Py.all_chars is_cmd_char p = true ->
  Py.startswith (Py.lower text) p = true ->
  exists w r, text = w +:+ r
    /\ (p <> EmptyString -> w <> EmptyString)
    /\ Py.all_chars plain w = true
    /\ forall x, String.prefix p (Py.lower (w +:+ x)) = true.
Proof.
  unfold Py.startswith.
  induction n as [|n IH]; intros p text Hlen Hp Hpre.
  - destruct text; [|cbn [String.length] in Hlen; lia].
    apply prefix_nil_r in Hpre as ->.
    exists EmptyString, EmptyString. repeat split; [congruence|].
    intros x. apply prefix_nil_l.
  - destruct p as [|a p].
    { exists EmptyString, text. repeat split; [congruence|].
      intros x. apply prefix_nil_l. }
    destruct text as [|c1 r1]; [discriminate|].
    cbn [Py.all_chars] in Hp. apply andb_prop in Hp as [Ha Hp].
    cbn [String.length] in Hlen.
    destruct (lower_head_cases c1 r1) as [E|[(r2 & Et & E)|(r3 & Et & E)]];
      rewrite E in Hpre; cbn [String.prefix] in Hpre.
    + destruct (ascii_dec a (Py.lower_char c1)) as [->|]; [|discriminate].
      destruct (IH p r1 ltac:(lia) Hp Hpre) as (w & r & -> & _ & Hw & Hx).
      exists (String c1 w), r. repeat split; [discriminate| |].
      * cbn [Py.all_chars]. rewrite lower_char_plain, Hw by assumption.
        reflexivity.
      * intros x. rewrite append_cons, lower_ascii_head
          by (apply cmd_char_ascii; assumption).
        cbn [String.prefix].
        destruct (ascii_dec _ _); [apply Hx|congruence].
    + destruct (ascii_dec a "i") as [->|]; [|discriminate].
      destruct p as [|b p].
      * injection Et as -> ->.
        exists (String "196" (String "176" EmptyString)), r2.
        split; [reflexivity|]. split; [discriminate|].
        split; [reflexivity|]. intros x. reflexivity.
      * cbn [String.prefix] in Hpre.
        destruct (ascii_dec b "204") as [->|]; [|discriminate].
        discriminate Hp.
    + destruct (ascii_dec a "k") as [->|]; [|discriminate].
      injection Et as -> ->. cbn [String.length] in Hlen.
      destruct (IH p r3 ltac:(lia) Hp Hpre) as (w & r & -> & _ & Hw & Hx).
      exists (String "226" (String "132" (String "170" w))), r.
      split; [reflexivity|]. split; [discriminate|].
      split; [exact Hw|]. intros x.
      change (String.prefix (String "k" p)
                (String "k" (Py.lower (w +:+ x))) = true).
      cbn [String.prefix]. destruct (ascii_dec _ _); [apply Hx|congruence].
Qed.

(** A text that starts with a command prefix has a first token that
    starts with it. *)
Lemma first_token_prefix text tok rest p :
  p <> EmptyString -> Py.all_chars is_cmd_char p = true ->
  Shlex.split text = Some (tok :: rest) ->
  Py.startswith (Py.lower text) p = true ->
  Py.startswith (Py.lower tok) p = true.
Proof.
  intros Hne Hp Hsplit Hstart.
  destruct (startswith_lower_word (String.length text) p text
              ltac:(lia) Hp Hstart) as (w & r & -> & Hw0 & Hw & Hx).
  apply split_plain_word in Hsplit as (t & rest' & [= <- <-] & Hpre);
    [|auto|assumption].
  unfold Py.startswith. apply prefix_iff_app in Hpre as [x ->].
  apply Hx.
Qed.

Lemma starts_none_first_token text tok rest :
  Shlex.split text = Some (tok :: rest) ->
  starts_none (Py.lower tok) command_prefixes = true ->
  starts_none (Py.lower text) command_prefixes = true.
Proof.
  intros Hsplit. unfold starts_none. rewrite !forallb_forall.
  intros H p Hin. specialize (H p Hin). apply negb_true_iff in H.
  apply negb_true_iff. destruct (Py.startswith (Py.lower text) p) eqn:E;
    [|reflexivity].
  rewrite <- H. symmetry. apply (first_token_prefix text tok rest p);
    try assumption;
    unfold command_prefixes in Hin; cbn [In] in Hin;
    repeat (destruct Hin as [<-|Hin]; [first [discriminate|reflexivity]|]);
    contradiction.
Qed.

(** C4, as stated, fails: the first token of the text [!trun] starts with
    none of the six prefixes, yet the handler answers, and with a usage
    message. *)
Lemma C4_counterexample :
  Shlex.split (message_text (says "G1" "U1" "Ann" "!trun")) = Some ["!trun"]
  /\ starts_none (Py.lower "!trun") ledger_prefixes = true
  /\ handle_text env0 (says "G1" "U1" "Ann" "!trun") fresh
     = (fresh, Reply UsagePick)
  /\ kind_of UsagePick = Some MalformedArgs_kind.
Proof. repeat split. Qed.

(** A text behind U+3000 is a command as without it. *)
Example help_behind_wide_space :
  handle_text env0
    (says "G1" "U1" "Ann" (String "227" (String "128" (String "128" "!help"))))
    fresh
  = (fresh, Reply HelpMsg).
Proof. reflexivity. Qed.

(** C4 (amended): a text whose first token starts with none of the eleven
    prefixes that the handler tests, and as well a text whose stripped,
    lower-cased form starts with none of them, gets no reply and changes
    nothing. *)
Theorem C4_no_prefix_no_reply (e : env) (ev : event) (st : sheets) :
  (starts_none (Py.lower (message_text ev)) command_prefixes = true
   \/ exists tok rest,
        Shlex.split (message_text ev) = Some (tok :: rest)
        /\ starts_none (Py.lower tok) command_prefixes = true) ->
  handle_text e ev st = (st, NoReply).
Proof.
  intros H.
  assert (Hnone : starts_none (Py.lower (message_text ev)) command_prefixes
                  = true).
  { destruct H as [H|(tok & rest & Hsplit & H)]; [assumption|].
    eapply starts_none_first_token; eassumption. }
  clear H. unfold starts_none, command_prefixes in Hnone.
  cbn [forallb] in Hnone.
  repeat (apply andb_prop in Hnone as [?%negb_true_iff Hnone]).
  unfold handle_text. destruct (gate_closed e (group_id_of ev));
    [reflexivity|].
  repeat match goal with
    | E : Py.startswith _ _ = false |- _ => rewrite E; clear E
    end.
  reflexivity.
Qed.

Lemma C4_no_prefix_no_reply_witness :
  handle_text env0 (says "G1" "U1" "Ann" "hello !borrow") fresh
  = (fresh, NoReply).
Proof.
  apply (C4_no_prefix_no_reply env0 (says "G1" "U1" "Ann" "hello !borrow")
           fresh).
  right. exists "hello", ["!borrow"]. split; reflexivity.
Defined.

(** ** Defining an item *)

Lemma do_additem_parsed text st cmd item q rest :
  Shlex.split text = Some (cmd :: item :: q :: rest) ->
  do_additem text st
  = if negb (numeral_ok q) then (st, Reply UsageAddItem)
    else match Py.int q with
         | None => (st, Logged)
         | Some total =>
             ({| ws_items := upsert_item (ws_items st) item total
                               (note_of (cmd :: item :: q :: rest));
                 ws_tx := ws_tx st |},
              Reply (DefineOk item total))
         end.
Proof. intros H. unfold do_additem. rewrite H. reflexivity. Qed.

(** C6, as stated, fails: [!additem cable -5] is accepted and the total
    it stores, and that [get_item] reads back, is -5. *)
Lemma C6_counterexample :
  let st' := {| ws_items := [items_header; ["cable"; "-5"; EmptyString]];
                ws_tx := [tx_header] |} in
  handle_text env0 (says "G1" "U1" "Ann" "!additem cable -5") fresh
  = (st', Reply (DefineOk "cable" (-5)))
  /\ get_item (ws_items st') "cable"
     = Ret (Some {| i_item := "cable"; i_total := -5;
                     i_note := PStr EmptyString |})
  /\ -5 < 0.
Proof. repeat split. Qed.

(** C6 (amended): when [!additem] accepts its tokens, the total it stores
    is the integer that the total token reads as; it is non-negative when
    the token has no leading minus sign, and zero or negative when it has
    one. *)
Theorem C6_stored_total
  (e : env) (ev : event) (st st' : sheets) (cmd item q : string)
  (rest : list string) (item' : string) (total : Z) :
  gate_closed e (group_id_of ev) = false ->
  Py.startswith (Py.lower (message_text ev)) "!additem" = true ->
  Shlex.split (message_text ev) = Some (cmd :: item :: q :: rest) ->
  handle_text e ev st = (st', Reply (DefineOk item' total)) ->
  item' = item
  /\ Py.int q = Some total
  /\ ws_items st'
     = upsert_item (ws_items st) item total
         (note_of (cmd :: item :: q :: rest))
  /\ ws_tx st' = ws_tx st
  /\ (Py.startswith q "-" = false -> 0 <= total)
  /\ (Py.startswith q "-" = true -> total <= 0).
Proof.
  intros Hgate Hadd Hsplit. rewrite handle_additem by assumption.
  rewrite (do_additem_parsed _ _ _ _ _ _ Hsplit).
  destruct (numeral_ok q) eqn:Hok; cbn [negb]; [|discriminate].
  destruct (Py.int q) as [t|] eqn:Hint; [|discriminate].
  intros [= <- <- <-]. cbn [ws_items ws_tx]. repeat split.
  - intros Hdash. eapply numeral_ok_nonneg; eassumption.
  - intros Hdash. eapply int_dash_nonpos; eassumption.
Qed.

Lemma C6_stored_total_witness :
  ws_items (fst (handle_text env0 (says "G1" "U1" "Ann" "!additem cable 3 spare")
                   fresh))
  = upsert_item [items_header] "cable" 3 "spare".
Proof.
  destruct (C6_stored_total env0 (says "G1" "U1" "Ann" "!additem cable 3 spare")
              fresh
              {| ws_items := [items_header; ["cable"; "3"; "spare"]];
                 ws_tx := [tx_header] |}
              "!additem" "cable" "3" ["spare"] "cable" 3
              eq_refl eq_refl eq_refl eq_refl) as (_ & _ & H & _).
  exact H.
Defined.

(** C7, as stated, fails: a quantity token with a leading plus sign, which
    [int()] reads as an integer, is answered with the usage string, by
    [!borrow] as by [!additem]. *)
Lemma C7_counterexample :
  Py.int "+5" = Some 5
  /\ handle_text env0 (says "G1" "U1" "Ann" "!borrow cable +5") fresh
     = (fresh, Reply UsageBorrowReturn)
  /\ handle_text env0 (says "G1" "U1" "Ann" "!additem cable +5") fresh
     = (fresh, Reply UsageAddItem).
Proof. repeat split. Qed.

Lemma plus_not_numeral q :
  Py.startswith q "+" = true -> numeral_ok q = false.
Proof.
  unfold Py.startswith, numeral_ok. destruct q as [|c q']; [discriminate|].
  cbn [String.prefix].
  destruct (ascii_dec "+"%char c) as [<-|]; [|discriminate]. reflexivity.
Qed.

(** C7 (amended): for an [!additem], [!borrow] or [!return] whose quantity
    token is a numeral of ASCII digits, alone or behind one minus sign,
    the token passes the test of the handler and the reply is not a usage
    string; when the numeral has at most 4300 digits, the most that
    [int()] converts, the token reads as the integer it writes.  A
    quantity token that begins with a plus sign fails the test, and the
    command is answered with its usage string. *)
Theorem C7_minus_sign_numeral
  (e : env) (ev : event) (st : sheets) (cmd item q : string)
  (rest : list string) :
  gate_closed e (group_id_of ev) = false ->
  existsb (Py.startswith (Py.lower (message_text ev)))
    ["!additem"; "!borrow"; "!return"] = true ->
  Shlex.split (message_text ev) = Some (cmd :: item :: q :: rest) ->
  (forall (ds : string) (neg : bool),
     Py.isdigit ds = true ->
     q = (if neg then String "-"%char ds else ds) ->
     numeral_ok q = true
     /\ ((String.length ds <= 4300)%nat ->
         exists n, 0 <= n /\ Py.int q = Some (if neg then - n else n))
     /\ (forall r, snd (handle_text e ev st) = Reply r ->
         kind_of r <> Some MalformedArgs_kind))
  /\ (Py.startswith q "+" = true ->
      numeral_ok q = false
      /\ handle_text e ev st
         = (st, Reply (if Py.startswith (Py.lower (message_text ev)) "!additem"
                       then UsageAddItem else UsageBorrowReturn))).
Proof.
  intros Hgate Hcmd Hsplit.
  cbn [existsb] in Hcmd. rewrite orb_false_r in Hcmd.
  assert (Hrun : Py.startswith (Py.lower (message_text ev)) "!additem" = false
                 -> handle_text e ev st
                    = do_borrow_return e ev (message_text ev)
                        (Py.lower (message_text ev)) st).
  { intros Hna. rewrite Hna in Hcmd. cbn [orb] in Hcmd.
    apply orb_prop in Hcmd as [H|H];
      [apply handle_borrow|apply handle_return]; assumption. }
  split.
  - intros ds neg Hds Hq.
    assert (Hok : numeral_ok q = true)
      by (rewrite Hq; apply numeral_ok_signed, Hds).
    destruct (int_digits ds Hds) as (n & Hn & Hpos & Hneg).
    assert (Hint : Py.int q = Some (if neg then - n else n))
      by (rewrite Hq; destruct neg; assumption).
    split; [assumption|]. split; [eauto|].
    destruct (Py.startswith (Py.lower (message_text ev)) "!additem") eqn:Hadd.
    + rewrite handle_additem by assumption.
      rewrite (do_additem_parsed _ _ _ _ _ _ Hsplit), Hok, Hint.
      cbn [negb snd]. intros r [= <-]. discriminate.
    + rewrite (Hrun eq_refl). unfold do_borrow_return. rewrite Hsplit.
      change (cell (cmd :: item :: q :: rest) 2) with q. rewrite Hok, Hint.
      cbn [length Nat.ltb Nat.leb orb negb].
      repeat break_match; cbn [snd]; intros r' [= <-]; discriminate.
  - intros Hplus. pose proof (plus_not_numeral q Hplus) as Hno.
    split; [assumption|].
    destruct (Py.startswith (Py.lower (message_text ev)) "!additem") eqn:Hadd.
    + rewrite handle_additem by assumption.
      rewrite (do_additem_parsed _ _ _ _ _ _ Hsplit), Hno. reflexivity.
    + rewrite (Hrun eq_refl). unfold do_borrow_return. rewrite Hsplit.
      change (cell (cmd :: item :: q :: rest) 2) with q. rewrite Hno.
      reflexivity.
Qed.

Lemma C7_minus_sign_numeral_witness :
  numeral_ok "-5" = true
  /\ (exists n, 0 <= n /\ Py.int "-5" = Some (- n))
  /\ forall r,
       snd (handle_text env0 (says "G1" "U1" "Ann" "!return cable -5") fresh)
       = Reply r ->
       kind_of r <> Some MalformedArgs_kind.
Proof.
  destruct (C7_minus_sign_numeral env0
              (says "G1" "U1" "Ann" "!return cable -5") fresh
              "!return" "cable" "-5" [] eq_refl eq_refl eq_refl)
    as [H _].
  destruct (H "5" true eq_refl eq_refl) as (H1 & H2 & H3).
  split; [exact H1|]. split; [|exact H3].
  apply H2. cbn [String.length]. lia.
Defined.

(** ** The registry *)

(** C8 fails on the code for the name [item], the text of the header cell
    of column A: [upsert_item] finds it in row 1, appends no row and
    overwrites the header cells B1 and C1; afterwards [get_item] does not
    find the item, and the total of every other item reads as 0, its
    column having lost its name. *)
Theorem C8_upsert_header_name :
  get_item one_item "item" = Ret None
  /\ get_item one_item "cable"
     = Ret (Some {| i_item := "cable"; i_total := 3; i_note := PStr "spare" |})
  /\ upsert_item one_item "item" 5 EmptyString
     = [["item"; "5"; EmptyString]; ["cable"; "3"; "spare"]]
  /\ get_item (upsert_item one_item "item" 5 EmptyString) "item" = Ret None
  /\ get_item (upsert_item one_item "item" 5 EmptyString) "cable"
     = Ret (Some {| i_item := "cable"; i_total := 0; i_note := PNone |})
  /\ handle_text env0 (says "G1" "U1" "Ann" "!additem item 5")
       {| ws_items := one_item; ws_tx := [tx_header] |}
     = ({| ws_items := [["item"; "5"; EmptyString]; ["cable"; "3"; "spare"]];
           ws_tx := [tx_header] |},
        Reply (DefineOk "item" 5)).
Proof. repeat split. Qed.

(** ** Where [upsert_item] and [get_item] agree *)

Lemma has_underscore_numeral d :
  Gspread.has_underscore (NilEmpty.string_of_uint d) = false.
Proof. induction d; cbn; assumption || reflexivity. Qed.

Lemma numericise_str n : Gspread.numericise (Py.str n) = PInt n.
Proof.
  unfold Gspread.numericise. rewrite int_str.
  replace (Gspread.has_underscore (Py.str n)) with false; [reflexivity|].
  unfold Py.str. destruct (Z.to_int n) as [d|d]; cbn;
    rewrite has_underscore_numeral; reflexivity.
Qed.

Lemma record_item a (rest : row) :
  dict_get (record_of (a :: rest)) "item" = Gspread.numericise a.
Proof. destruct rest as [|b [|c rest]]; reflexivity. Qed.

Lemma record_total a b (rest : row) :
  dict_get_default (record_of (a :: b :: rest)) "total" (PInt 0)
  = Gspread.numericise b.
Proof. destruct rest as [|c rest]; reflexivity. Qed.

Lemma record_note a b c (rest : row) :
  dict_get (record_of (a :: b :: c :: rest)) "note" = Gspread.numericise c.
Proof. reflexivity. Qed.

Lemma get_item_header rows item :
  get_item (items_header :: rows) item = get_item_in (map record_of rows) item.
Proof. reflexivity. Qed.

Lemma canonical_eqb a item :
  canonical a = true ->
  String.eqb (str_val (Gspread.numericise a)) item = String.eqb a item.
Proof. unfold canonical. intros ->%String.eqb_eq. reflexivity. Qed.

Lemma get_item_in_skip (r : row) recs item :
  r <> [] -> canonical (cell r 0) = true -> cell r 0 <> item ->
  get_item_in (record_of r :: recs) item = get_item_in recs item.
Proof.
  destruct r as [|a rest]; [congruence|]. intros _ Hcan Hne.
  cbn [get_item_in]. rewrite record_item, canonical_eqb by assumption.
  change (cell (a :: rest) 0) with a in Hne.
  apply String.eqb_neq in Hne. rewrite Hne. reflexivity.
Qed.

Lemma get_item_in_hit a (b c : string) (rest : row) recs total :
  canonical a = true -> Py.int b = Some total ->
  Gspread.has_underscore b = false ->
  get_item_in (record_of (a :: b :: c :: rest) :: recs) a
  = Ret (Some {| i_item := a; i_total := total;
                 i_note := Gspread.numericise c |}).
Proof.
  intros Hcan Hint Hus. cbn [get_item_in].
  rewrite record_item, canonical_eqb, String.eqb_refl by assumption.
  rewrite record_total, record_note.
  assert (Hb : Gspread.numericise b = PInt total)
    by (unfold Gspread.numericise; rewrite Hus, Hint; reflexivity).
  rewrite Hb. reflexivity.
Qed.

(** Trailing empty cells hide no name but the empty one. *)
Lemma index_rstrip_empty x l :
  x <> EmptyString -> index x (rstrip_empty l) = index x l.
Proof.
  intros Hx. induction l as [|c l IH]; [reflexivity|].
  cbn [rstrip_empty]. destruct (rstrip_empty l) as [|d t] eqn:E.
  - cbn [index] in *. rewrite <- IH.
    destruct (String.eqb_spec c EmptyString) as [->|Hc].
    + destruct (String.eqb_spec EmptyString x); [congruence|reflexivity].
    + cbn [index]. destruct (String.eqb c x); reflexivity.
  - change (index x (c :: d :: t)) with
      (if String.eqb c x then Some 0%nat else option_map S (index x (d :: t))).
    rewrite IH. reflexivity.
Qed.

Section Registry.
Variables (item : string) (total : Z) (note : string).
Hypothesis item_canonical : canonical item = true.

Lemma has_underscore_str : Gspread.has_underscore (Py.str total) = false.
Proof.
  pose proof (numericise_str total) as H. unfold Gspread.numericise in H.
  destruct (Gspread.has_underscore (Py.str total)); [discriminate|].
  reflexivity.
Qed.

Lemma get_after_update rows : forall i,
  registry_rows rows ->
  index item (map (fun r : row => cell r 0) rows) = Some i ->
  get_item_in (map record_of (alter (new_cells total note) i rows)) item
  = Ret (Some {| i_item := item; i_total := total;
                 i_note := Gspread.numericise note |})
  /\ forall other, other <> item ->
       get_item_in (map record_of (alter (new_cells total note) i rows)) other
       = get_item_in (map record_of rows) other.
Proof.
  induction rows as [|r rows IH]; intros i Hreg; [discriminate|].
  apply Forall_cons in Hreg as [[Hne Hcan] Hreg]. cbn [map index].
  destruct (String.eqb_spec (cell r 0) item) as [Heq|Hneq].
  - intros [= <-]. cbn [alter list_alter map]. unfold new_cells.
    rewrite Heq. split.
    + apply get_item_in_hit;
        [assumption|apply int_str|apply has_underscore_str].
    + intros other Hother.
      rewrite (get_item_in_skip r) by (assumption || congruence).
      apply get_item_in_skip; [discriminate|assumption|].
      cbn. congruence.
  - destruct (index item _) as [j|] eqn:E; [|discriminate].
    intros [= <-]. cbn [alter list_alter map].
    destruct (IH j Hreg eq_refl) as [IH1 IH2]. split.
    + rewrite get_item_in_skip by assumption. apply IH1.
    + intros other Hother. destruct r as [|a rest]; [congruence|].
      cbn [get_item_in]. rewrite IH2 by assumption. reflexivity.
Qed.

Lemma get_after_append rows :
  registry_rows rows ->
  index item (map (fun r : row => cell r 0) rows) = None ->
  get_item_in (map record_of (rows ++ [[item; Py.str total; note]])) item
  = Ret (Some {| i_item := item; i_total := total;
                 i_note := Gspread.numericise note |})
  /\ forall other, other <> item ->
       get_item_in (map record_of (rows ++ [[item; Py.str total; note]])) other
       = get_item_in (map record_of rows) other.
Proof.
  induction rows as [|r rows IH]; intros Hreg.
  - intros _. cbn [app map]. split.
    + apply get_item_in_hit;
        [assumption|apply int_str|apply has_underscore_str].
    + intros other Hother. apply get_item_in_skip;
        [discriminate|assumption|cbn; congruence].
  - apply Forall_cons in Hreg as [[Hne Hcan] Hreg]. cbn [map index].
    destruct (String.eqb_spec (cell r 0) item) as [Heq|Hneq]; [discriminate|].
    destruct (index item _) eqn:E; [discriminate|]. intros _.
    destruct (IH Hreg eq_refl) as [IH1 IH2]. cbn [app map]. split.
    + rewrite get_item_in_skip by assumption. apply IH1.
    + intros other Hother. destruct r as [|a rest]; [congruence|].
      cbn [get_item_in]. rewrite IH2 by assumption. reflexivity.
Qed.

(** On a registry whose header is intact and whose names read back as
    they are written, for a name that is not empty, reads back as written
    and is not the header's, [upsert_item] does what the specification
    says: the item is then found with the given total and the note as read
    back, and every other lookup is as before. *)
Lemma upsert_item_get_item rows :
  registry_rows rows ->
  item <> EmptyString ->
  item <> "item" ->
  let ws' := upsert_item (items_header :: rows) item total note in
  get_item ws' item
  = Ret (Some {| i_item := item; i_total := total;
                 i_note := Gspread.numericise note |})
  /\ forall other, other <> item ->
       get_item ws' other = get_item (items_header :: rows) other.
Proof.
  intros Hreg Hne0 Hne ws'. subst ws'.
  unfold upsert_item, Gspread.col_values_1.
  rewrite index_rstrip_empty by assumption.
  cbn [map index nth items_header]. apply String.eqb_neq in Hne.
  rewrite String.eqb_sym in Hne. rewrite Hne.
  change (fun r : row => nth 0 r EmptyString) with (fun r : row => cell r 0).
  destruct (index item (map _ rows)) as [i|] eqn:E; cbn [option_map].
  - unfold Gspread.update_B_C.
    replace (S i + 1 - 1)%nat with (S i) by lia. cbn [alter list_alter].
    rewrite get_item_header.
    change (fun r : row => nth 0 r EmptyString :: Py.str total :: note :: drop 3 r)
      with (new_cells total note).
    split; [|intros other Hother; rewrite get_item_header];
      apply get_after_update; assumption.
  - unfold Gspread.append_row. rewrite <- app_comm_cons, get_item_header.
    split; [|intros other Hother; rewrite get_item_header];
      apply get_after_append; assumption.
Qed.
End Registry.

(** A name with leading zeros is stored as written and read back as a
    number: the item is not found again. *)
Example upsert_numeral_name :
  upsert_item [items_header] "007" 3 EmptyString
  = [items_header; ["007"; "3"; EmptyString]]
  /\ get_item (upsert_item [items_header] "007" 3 EmptyString) "007" = Ret None
  /\ get_item (upsert_item [items_header] "007" 3 EmptyString) "7"
     = Ret (Some {| i_item := "7"; i_total := 3; i_note := PStr EmptyString |}).
Proof. repeat split. Qed.

(** ** The reports *)

Lemma sumZ_app l1 l2 : sumZ (l1 ++ l2) = sumZ l1 + sumZ l2.
Proof.
  induction l1 as [|x l1 IH]; [reflexivity|].
  rewrite <- app_comm_cons, !sumZ_cons, IH. lia.
Qed.

Lemma tx_unreadable_delta r : tx_unreadable r = true -> tx_delta r = 0.
Proof.
  unfold tx_unreadable, tx_delta.
  destruct (r !! 5%nat) as [c|]; [|reflexivity].
  destruct (Py.int c); [discriminate|reflexivity].
Qed.

(** A row with an unreadable delta can be dropped from a sum of deltas. *)
Lemma sum_deltas_drop (sel : row -> bool) l1 r l2 :
  tx_unreadable r = true ->
  sumZ (map tx_delta (List.filter sel (l1 ++ r :: l2)))
  = sumZ (map tx_delta (List.filter sel (l1 ++ l2))).
Proof.
  intros H. rewrite !List.filter_app, !map_app, !sumZ_app. cbn [List.filter].
  destruct (sel r); [|reflexivity].
  cbn [map]. rewrite sumZ_cons, tx_unreadable_delta by assumption.
  reflexivity.
Qed.

(** C5: on every transactions worksheet, [sum_borrowed item] is the sum of
    the deltas of the ledger rows whose item field is [item], and
    [user_borrowed user_id item] the same sum over the rows whose user
    field is [user_id] as well, where a row whose delta is missing or does
    not read as an integer counts for 0; both are total functions, and
    neither changes when such a row is taken out of the ledger. *)
Theorem C5_folds_skip_unreadable_deltas
  (ws : sheet) (user_id item : string) :
  sum_borrowed ws item = borrowedQuantity (ledger ws) item
  /\ user_borrowed ws user_id item = userOutstanding (ledger ws) user_id item
  /\ forall (header r : row) (l1 l2 : list row),
       tx_unreadable r = true ->
       sum_borrowed (header :: l1 ++ r :: l2) item
       = sum_borrowed (header :: l1 ++ l2) item
       /\ user_borrowed (header :: l1 ++ r :: l2) user_id item
          = user_borrowed (header :: l1 ++ l2) user_id item.
Proof.
  split; [apply sum_borrowed_spec|].
  split; [apply user_borrowed_spec|].
  intros header r l1 l2 H.
  rewrite !sum_borrowed_spec, !user_borrowed_spec.
  unfold ledger, borrowedQuantity, userOutstanding. cbn [tail].
  split; apply sum_deltas_drop, H.
Qed.

Lemma C5_folds_witness :
  sum_borrowed
    [tx_header;
     ["t1"; "G1"; "U1"; "Ann"; "cable"; "2"; EmptyString];
     ["t2"; "G1"; "U1"; "Ann"; "cable"; "two"; EmptyString]] "cable"
  = sum_borrowed
      [tx_header; ["t1"; "G1"; "U1"; "Ann"; "cable"; "2"; EmptyString]]
      "cable".
Proof.
  destruct (C5_folds_skip_unreadable_deltas [] "U1" "cable") as (_ & _ & H).
  destruct (H tx_header
              ["t2"; "G1"; "U1"; "Ann"; "cable"; "two"; EmptyString]
              [["t1"; "G1"; "U1"; "Ann"; "cable"; "2"; EmptyString]] []
              eq_refl) as [H1 _].
  exact H1.
Defined.

(** C9: the [!mine] reply lists each item at most once, and lists the pair
    [(item, v)] exactly when [v] is the actor's net balance of the item
    over the ledger and [v] is strictly positive. *)
Theorem C9_mine_lists_positive_balances
  (e : env) (ev : event) (st : sheets) :
  gate_closed e (group_id_of ev) = false ->
  Py.startswith (Py.lower (message_text ev)) "!mine" = true ->
  exists lines,
    handle_text e ev st = (st, Reply (MineReport lines))
    /\ NoDup (map fst lines)
    /\ forall k v,
         In (k, v) lines
         <-> v = user_borrowed (ws_tx st) (user_id_of ev) k /\ 0 < v.
Proof.
  intros Hgate Hmine. exists (mine_lines (ws_tx st) (user_id_of ev)).
  split; [apply handle_mine; assumption|].
  split; [apply mine_lines_NoDup|].
  intros k v. rewrite <- list_elem_of_In. apply mine_lines_spec.
Qed.

Lemma C9_mine_witness :
  exists lines,
    handle_text env0 (says "G1" "U1" "Ann" "!mine")
      {| ws_items := [items_header]; ws_tx := ledger_C |}
    = ({| ws_items := [items_header]; ws_tx := ledger_C |},
       Reply (MineReport lines))
    /\ NoDup (map fst lines)
    /\ forall k v,
         In (k, v) lines <-> v = user_borrowed ledger_C "U1" k /\ 0 < v.
Proof.
  apply (C9_mine_lists_positive_balances env0 (says "G1" "U1" "Ann" "!mine")
           {| ws_items := [items_header]; ws_tx := ledger_C |});
    reflexivity.
Defined.

(** C10: no fold reads the group id: [sum_borrowed], [user_borrowed] and
    the lines of [!mine] are the same on a worksheet and on the worksheet
    with the group id of every row replaced; and a transaction appended
    for any group adds its delta to [sum_borrowed] of its item. *)
Theorem C10_folds_ignore_group
  (g : nat -> string) (ws : sheet) (user_id item : string) :
  sum_borrowed (regroup g ws) item = sum_borrowed ws item
  /\ user_borrowed (regroup g ws) user_id item = user_borrowed ws user_id item
  /\ mine_lines (regroup g ws) user_id = mine_lines ws user_id
  /\ forall ts gid uid name delta note,
       sum_borrowed (add_tx (tx_header :: ws) ts gid uid name item delta note)
         item
       = sum_borrowed (tx_header :: ws) item + delta.
Proof.
  split; [apply sum_borrowed_regroup|].
  split; [apply user_borrowed_regroup|].
  split; [apply mine_lines_regroup|].
  intros ts gid uid name delta note.
  rewrite sum_borrowed_add_tx by discriminate.
  rewrite String.eqb_refl. reflexivity.
Qed.

(** ** Scenarios *)

Lemma C1_return_clamp_witness :
  handle_text env0 (says "G1" "U1" "Ann" "!return projector 5") projector_lent
  = ({| ws_items := ws_items projector_lent;
        ws_tx := ws_tx projector_lent
                 ++ [["2024-05-01T09:00:00+08:00"; "G1"; "U1"; "Ann";
                      "projector"; "-2"; EmptyString]] |},
     Reply (ReturnOk "projector" 2 "Ann" (Some 2))).
Proof.
  destruct (C1_return_clamp env0
              (says "G1" "U1" "Ann" "!return projector 5") projector_lent
              "!return" "projector" "5" [] 5
              {| i_item := "projector"; i_total := 2;
                 i_note := PStr EmptyString |}
              eq_refl eq_refl eq_refl eq_refl eq_refl eq_refl eq_refl eq_refl)
    as [H _].
  exact H.
Defined.

Lemma C2_borrow_witness :
  handle_text env0 (says "G1" "U1" "Ann" "!borrow projector 2") projector_new
  = ({| ws_items := ws_items projector_new;
        ws_tx := [tx_header;
                  ["2024-05-01T09:00:00+08:00"; "G1"; "U1"; "Ann";
                   "projector"; "2"; EmptyString]] |},
     Reply (BorrowOk "projector" 2 "Ann")).
Proof.
  destruct (C2_borrow env0
              (says "G1" "U1" "Ann" "!borrow projector 2") projector_new
              "!borrow" "projector" "2" [] 2
              eq_refl eq_refl eq_refl eq_refl eq_refl) as [_ H].
  destruct (H {| i_item := "projector"; i_total := 2;
                 i_note := PStr EmptyString |} eq_refl) as (_ & _ & H3).
  destruct H3 as [H3 _]; [reflexivity|discriminate|]. exact H3.
Defined.

Lemma C3_rejection_witness :
  fst (handle_text env0 (says "G1" "U2" "Bob" "!borrow projector 1")
         projector_lent)
  = projector_lent.
Proof.
  apply (C3_rejection_leaves_no_trace env0
           (says "G1" "U2" "Bob" "!borrow projector 1") projector_lent
           (fst (handle_text env0 (says "G1" "U2" "Bob" "!borrow projector 1")
                   projector_lent))
           (InsufficientStock "projector" 0 1)
           InsufficientStock_kind); reflexivity.
Defined.

(** Scenario A: two projectors are defined, U1 borrows both, U2 is then
    refused one. *)
Example scenario_A :
  run env0
    [says "G1" "U1" "Ann" "!additem projector 2";
     says "G1" "U1" "Ann" "!borrow projector 2";
     says "G1" "U1" "Ann" "!status projector";
     says "G1" "U2" "Bob" "!borrow projector 1"] fresh
  = ({| ws_items := [items_header; ["projector"; "2"; EmptyString]];
        ws_tx := [tx_header;
                  ["2024-05-01T09:00:00+08:00"; "G1"; "U1"; "Ann";
                   "projector"; "2"; EmptyString]] |},
     [Reply (DefineOk "projector" 2);
      Reply (BorrowOk "projector" 2 "Ann");
      Reply (StatusOne "projector" 2 2 0);
      Reply (InsufficientStock "projector" 0 1)]).
Proof. reflexivity. Qed.

(** Scenario B: U1, who holds 2, returns 5: 2 are returned, the reply says
    so, and U1 holds none afterwards. *)
Example scenario_B :
  let '(st', o) :=
    handle_text env0 (says "G1" "U1" "Ann" "!return projector 5")
      projector_lent in
  o = Reply (ReturnOk "projector" 2 "Ann" (Some 2))
  /\ user_borrowed (ws_tx st') "U1" "projector" = 0
  /\ sum_borrowed (ws_tx st') "projector" = 0.
Proof. repeat split. Qed.

(** Scenario C: +3 tripod, -3 tripod and +1 cable leave the cable alone
    in the report. *)
Example scenario_C :
  handle_text env0 (says "G1" "U1" "Ann" "!mine")
    {| ws_items := [items_header]; ws_tx := ledger_C |}
  = ({| ws_items := [items_header]; ws_tx := ledger_C |},
     Reply (MineReport [("cable", 1)])).
Proof. reflexivity. Qed.

(** Scenario D: [!status] on an empty registry. *)
Example scenario_D :
  handle_text env0 (says "G1" "U1" "Ann" "!status") fresh
  = (fresh, Reply (StatusAll []))
  /\ render (StatusAll []) = "目前庫存：" +:+ nl +:+ "（尚無物品）".
Proof. repeat split. Qed.

(** A ledger with damaged rows: a delta that is no number, a row cut
    short, a delta with blanks around it. *)
Example damaged_ledger :
  let ws := [tx_header;
             ["t1"; "G1"; "U1"; "Ann"; "cable"; "2"; EmptyString];
             ["t2"; "G1"; "U1"; "Ann"; "cable"; "two"; EmptyString];
             ["t3"; "G1"; "U1"; "Ann"; "cable"];
             ["t4"; "G2"; "U2"; "Bob"; "cable"; " 1 "; EmptyString];
             ["t5"; "G1"; "U1"; "Ann"; "cable"; EmptyString; EmptyString]] in
  sum_borrowed ws "cable" = 3 /\ user_borrowed ws "U1" "cable" = 2
  /\ mine_lines ws "U2" = [("cable", 1)].
Proof. repeat split. Qed.

(** The white list: with groups configured, a text from another group,
    or from no group, is dropped without a reply. *)
Example gate_drops :
  let e := {| ALLOWED_GROUPS := ["G1"]; now := "t"; draw := 0 |} in
  handle_text e (says "G2" "U1" "Ann" "!help") fresh = (fresh, NoReply)
  /\ handle_text e {| text_of := Some "!help"; group_id_of := None;
                      user_id_of := "U1"; profile_name := None |} fresh
     = (fresh, NoReply)
  /\ handle_text e (says "G1" "U1" "Ann" "!help") fresh
     = (fresh, Reply HelpMsg).
Proof. repeat split. Qed.

(** A quantity of several minus signs passes the test of the handler and
    then fails in [int()]: the exception is logged and nothing is
    answered. *)
Example two_dashes_logged :
  handle_text env0 (says "G1" "U1" "Ann" "!borrow projector --1")
    projector_new
  = (projector_new, Logged).
Proof. reflexivity. Qed.

Example render_insufficient :
  render (InsufficientStock "projector" 0 1) = "可借不足：projector 剩 0，你要 1".
Proof. reflexivity. Qed.

Example render_returned :
  render (ReturnOk "projector" 2 "Ann" (Some 2))
  = "歸還成功：projector x 2（Ann）（你手上只有 2，已自動調整）".
Proof. reflexivity. Qed.

(** One ledger for all groups: what U1 borrows in group G1 is missing for
    U2 in group G2. *)
Example scenario_two_groups :
  snd (run env0
         [says "G1" "U1" "Ann" "!borrow projector 2";
          says "G2" "U2" "Bob" "!status projector";
          says "G2" "U2" "Bob" "!borrow projector 1";
          says "G2" "U2" "Bob" "!mine"] projector_new)
  = [Reply (BorrowOk "projector" 2 "Ann");
     Reply (StatusOne "projector" 2 2 0);
     Reply (InsufficientStock "projector" 0 1);
     Reply (MineReport [])].
Proof. reflexivity. Qed.

(** * Further properties of the code *)

(** ** What a call of the handler can do to the worksheets *)

(** The ways [handle_text] ends: without a write, or with one of the
    three writes, each with what the code has checked before it. *)
Lemma handle_text_cases e ev st st' o :
  handle_text e ev st = (st', o) ->
  let uid := user_id_of ev in
  let name := or_else (profile_name ev) uid in
  (st' = st /\ writes o = false)
  \/ (exists tokens total,
        Shlex.split (message_text ev) = Some tokens
        /\ numeral_ok (cell tokens 2) = true
        /\ Py.int (cell tokens 2) = Some total
        /\ o = Reply (DefineOk (cell tokens 1) total)
        /\ st' = {| ws_items := upsert_item (ws_items st) (cell tokens 1)
                                  total (note_of tokens);
                    ws_tx := ws_tx st |})
  \/ (exists tokens qty r,
        Shlex.split (message_text ev) = Some tokens
        /\ Py.int (cell tokens 2) = Some qty
        /\ get_item (ws_items st) (cell tokens 1) = Ret (Some r)
        /\ 0 < qty
        /\ qty <= i_total r - sum_borrowed (ws_tx st) (cell tokens 1)
        /\ o = Reply (BorrowOk (cell tokens 1) qty name)
        /\ st' = {| ws_items := ws_items st;
                    ws_tx := ws_tx st
                             ++ [tx_row e ev (cell tokens 1) qty
                                   (note_of tokens)] |})
  \/ (exists tokens qty r,
        Shlex.split (message_text ev) = Some tokens
        /\ Py.int (cell tokens 2) = Some qty
        /\ get_item (ws_items st) (cell tokens 1) = Ret (Some r)
        /\ 0 < qty
        /\ 0 < user_borrowed (ws_tx st) uid (cell tokens 1)
        /\ let have := user_borrowed (ws_tx st) uid (cell tokens 1) in
           let real := Z.min qty have in
           o = Reply (ReturnOk (cell tokens 1) real name
                        (if real =? qty then None else Some have))
           /\ st' = {| ws_items := ws_items st;
                       ws_tx := ws_tx st
                                ++ [tx_row e ev (cell tokens 1) (- real)
                                      (note_of tokens)] |}).
Proof.
  intros H uid name. unfold handle_text in H.
  repeat match type of H with
    | (if ?b then _ else _) = _ => destruct b eqn:?
    end;
    try (injection H as <- <-; left; split; reflexivity).
  - (* !trun, !pick *)
    left. destruct (Shlex.split (message_text ev)) as [tokens|];
      injection H as <- <-; split; try reflexivity.
    destruct (tail tokens); reflexivity.
  - (* !additem *)
    unfold do_additem in H.
    destruct (Shlex.split (message_text ev)) as [tokens|] eqn:Hsplit;
      [|injection H as <- <-; left; split; reflexivity].
    destruct ((length tokens <? 3)%nat || _) eqn:Hchk;
      [injection H as <- <-; left; split; reflexivity|].
    apply orb_false_elim in Hchk as [_ Hok]. apply negb_false_iff in Hok.
    destruct (Py.int (cell tokens 2)) as [total|] eqn:Hint;
      [|injection H as <- <-; left; split; reflexivity].
    injection H as <- <-. right. left. exists tokens, total. auto.
  - (* !status *)
    apply do_status_frame in H as Hst. subst st'. left. split; [reflexivity|].
    unfold do_status in H.
    repeat match type of H with
      | context [match ?x with _ => _ end] => destruct x
      end;
      inversion H; reflexivity.
  - (* !borrow, !return *)
    unfold do_borrow_return in H.
    destruct (Shlex.split (message_text ev)) as [tokens|] eqn:Hsplit;
      [|injection H as <- <-; left; split; reflexivity].
    destruct ((length tokens <? 3)%nat || _) eqn:Hchk;
      [injection H as <- <-; left; split; reflexivity|].
    destruct (Py.int (cell tokens 2)) as [qty|] eqn:Hint;
      [|injection H as <- <-; left; split; reflexivity].
    destruct (get_item (ws_items st) (cell tokens 1)) as [[r|]|] eqn:Hitem;
      try (injection H as <- <-; left; split; reflexivity).
    fold uid name in H.
    destruct (Py.startswith _ "!borrow").
    + destruct (Z.leb_spec qty 0);
        [injection H as <- <-; left; split; reflexivity|].
      destruct (Z.ltb_spec (i_total r - sum_borrowed (ws_tx st) (cell tokens 1))
                  qty);
        [injection H as <- <-; left; split; reflexivity|].
      injection H as <- <-. right. right. left. exists tokens, qty, r.
      repeat split; assumption.
    + destruct (Z.leb_spec qty 0);
        [injection H as <- <-; left; split; reflexivity|].
      destruct (Z.leb_spec (user_borrowed (ws_tx st) uid (cell tokens 1)) 0);
        [injection H as <- <-; left; split; reflexivity|].
      injection H as <- <-. right. right. right. exists tokens, qty, r.
      repeat split; assumption.
Qed.

(** A worksheet without any row takes the appended row for its header. *)
Lemma user_borrowed_add_tx_any ws ts gid uid name item delta note uid' item' :
  user_borrowed (add_tx ws ts gid uid name item delta note) uid' item'
  = user_borrowed ws uid' item'
    + match ws with
      | [] => 0
      | _ => if String.eqb uid uid' && String.eqb item item' then delta else 0
      end.
Proof.
  destruct ws as [|h ws]; [reflexivity|].
  apply user_borrowed_add_tx. discriminate.
Qed.

Lemma sum_borrowed_add_tx_any ws ts gid uid name item delta note item' :
  sum_borrowed (add_tx ws ts gid uid name item delta note) item'
  = sum_borrowed ws item'
    + match ws with
      | [] => 0
      | _ => if String.eqb item item' then delta else 0
      end.
Proof.
  destruct ws as [|h ws]; [reflexivity|].
  apply sum_borrowed_add_tx. discriminate.
Qed.

(** X1 ([add_tx] read back): on a worksheet that has its header row, a
    transaction appended by [add_tx] adds its delta to [sum_borrowed] of
    its item and to [user_borrowed] of its user and item, and to no other
    sum; on a worksheet without any row it is taken for the header and
    counts nowhere. *)
Theorem X1_add_tx_read_back
  (ws : sheet) (ts : string) (gid : option string)
  (uid name item : string) (delta : Z) (note uid' item' : string) :
  sum_borrowed (add_tx ws ts gid uid name item delta note) item'
  = sum_borrowed ws item'
    + (if bool_decide (ws <> [] /\ item = item') then delta else 0)
  /\ user_borrowed (add_tx ws ts gid uid name item delta note) uid' item'
     = user_borrowed ws uid' item'
       + (if bool_decide (ws <> [] /\ uid = uid' /\ item = item')
          then delta else 0).
Proof.
  rewrite sum_borrowed_add_tx_any, user_borrowed_add_tx_any.
  destruct ws as [|h ws].
  - rewrite !bool_decide_eq_false_2 by (intros [? _]; congruence).
    split; reflexivity.
  - split.
    + destruct (String.eqb_spec item item') as [->|Hne].
      * rewrite bool_decide_eq_true_2 by (split; [discriminate|reflexivity]).
        reflexivity.
      * rewrite bool_decide_eq_false_2 by (intros [_ ?]; congruence).
        reflexivity.
    + destruct (String.eqb_spec uid uid') as [->|Hu];
        destruct (String.eqb_spec item item') as [->|Hi]; cbn [andb].
      * rewrite bool_decide_eq_true_2 by (repeat split; discriminate).
        reflexivity.
      * rewrite bool_decide_eq_false_2 by (intros (_ & _ & ?); congruence).
        reflexivity.
      * rewrite bool_decide_eq_false_2 by (intros (_ & ? & _); congruence).
        reflexivity.
      * rewrite bool_decide_eq_false_2 by (intros (_ & ? & _); congruence).
        reflexivity.
Qed.

(** X2 (writes come with a success reply only): the handler writes only
    on a path that goes on to call [reply_message] with one of the three
    success replies.  When a call ends in a plain return, in an exception
    raised before any reply, or in a call of [reply_message] with a usage
    or error reply, help, status or mine, both worksheets are as before;
    the ledger changes only on the path to a [BorrowOk] or [ReturnOk],
    the registry only on the path to a [DefineOk]. *)
Theorem X2_writes_only_with_success
  (e : env) (ev : event) (st st' : sheets) (o : outcome) :
  handle_text e ev st = (st', o) ->
  (writes o = false -> st' = st)
  /\ (ws_tx st' <> ws_tx st ->
      exists item n name,
        o = Reply (BorrowOk item n name)
        \/ exists adj, o = Reply (ReturnOk item n name adj))
  /\ (ws_items st' <> ws_items st ->
      exists item total, o = Reply (DefineOk item total)).
Proof.
  intros H. apply handle_text_cases in H.
  destruct H as [[-> Hw]|[(tokens & total & _ & _ & _ & -> & ->)
                 |[(tokens & qty & r & _ & _ & _ & _ & _ & -> & ->)
                  |(tokens & qty & r & _ & _ & _ & _ & _ & -> & ->)]]];
    cbn [ws_items ws_tx writes]; repeat split; intros; try congruence; eauto 8.
Qed.

Lemma X2_writes_witness :
  fst (handle_text env0 (says "G1" "U1" "Ann" "!borrow projector --1")
         projector_new)
  = projector_new.
Proof.
  destruct (X2_writes_only_with_success env0
              (says "G1" "U1" "Ann" "!borrow projector --1") projector_new
              (fst (handle_text env0
                      (says "G1" "U1" "Ann" "!borrow projector --1")
                      projector_new))
              Logged eq_refl) as [H _].
  apply H. reflexivity.
Defined.

(** X3 (the row a call appends): a call of the handler leaves the ledger
    as it is or appends exactly one row to it; that row has seven cells,
    carries the time stamp, the group id and the user id of the call, and
    a delta that reads as a non-zero integer: positive with [BorrowOk],
    negative with [ReturnOk]. *)
Theorem X3_appended_row
  (e : env) (ev : event) (st st' : sheets) (o : outcome) :
  handle_text e ev st = (st', o) ->
  ws_tx st' = ws_tx st
  \/ exists r : row,
       ws_tx st' = ws_tx st ++ [r]
       /\ length r = 7%nat
       /\ r !! 0%nat = Some (now e)
       /\ r !! 1%nat = Some (gid_cell (group_id_of ev))
       /\ tx_user r = Some (user_id_of ev)
       /\ tx_unreadable r = false
       /\ ((0 < tx_delta r
            /\ exists item name,
                 tx_item r = Some item
                 /\ o = Reply (BorrowOk item (tx_delta r) name))
           \/ (tx_delta r < 0
               /\ exists item name adj,
                    tx_item r = Some item
                    /\ o = Reply (ReturnOk item (- tx_delta r) name adj))).
Proof.
  intros H. apply handle_text_cases in H.
  destruct H as [[-> Hw]|[(tokens & total & _ & _ & _ & -> & ->)
                 |[(tokens & qty & r & _ & _ & _ & Hq & _ & -> & ->)
                  |(tokens & qty & r & _ & _ & _ & Hq & Hh & -> & ->)]]];
    cbn [ws_items ws_tx]; auto.
  - right. eexists. split; [reflexivity|].
    rewrite tx_row_delta. unfold tx_unreadable, tx_row.
    cbn [lookup list_lookup]. rewrite int_str.
    repeat split. left. split; [assumption|]. eauto.
  - right. eexists. split; [reflexivity|].
    rewrite tx_row_delta. unfold tx_unreadable, tx_row.
    cbn [lookup list_lookup]. rewrite int_str.
    repeat split. right. split; [lia|].
    rewrite Z.opp_involutive. eauto.
Qed.

Lemma X3_appended_row_witness :
  exists r : row,
    ws_tx (fst (handle_text env0 (says "G1" "U1" "Ann" "!return projector 5")
                  projector_lent))
    = ws_tx projector_lent ++ [r]
    /\ tx_delta r = -2.
Proof.
  destruct (X3_appended_row env0 (says "G1" "U1" "Ann" "!return projector 5")
              projector_lent
              (fst (handle_text env0
                      (says "G1" "U1" "Ann" "!return projector 5")
                      projector_lent))
              (Reply (ReturnOk "projector" 2 "Ann" (Some 2))) eq_refl)
    as [H|(r & H & _)].
  - discriminate H.
  - exists r. split; [exact H|].
    apply app_inj_tail in H as [_ <-]. reflexivity.
Defined.

(** ** Borrowing and returning *)

(** X4 (effect of a borrow): when the handler answers [BorrowOk item qty]
    on a ledger that has its header row, [qty] is positive, the borrowed
    quantity of the item and the holding of the caller both grow by
    [qty], no other item's borrowed quantity moves, and the item is not
    lent beyond its total: the total that [get_item] reads is at least
    the new borrowed quantity. *)
Theorem X4_borrow_effect
  (e : env) (ev : event) (st st' : sheets) (item name : string) (qty : Z) :
  handle_text e ev st = (st', Reply (BorrowOk item qty name)) ->
  ws_tx st <> [] ->
  0 < qty
  /\ sum_borrowed (ws_tx st') item = sum_borrowed (ws_tx st) item + qty
  /\ user_borrowed (ws_tx st') (user_id_of ev) item
     = user_borrowed (ws_tx st) (user_id_of ev) item + qty
  /\ (forall item', item' <> item ->
      sum_borrowed (ws_tx st') item' = sum_borrowed (ws_tx st) item')
  /\ exists r, get_item (ws_items st') item = Ret (Some r)
               /\ sum_borrowed (ws_tx st') item <= i_total r.
Proof.
  intros H Hne. apply handle_text_cases in H.
  destruct H as [[-> Hw]|[(tokens & total & _ & _ & _ & Ho & ->)
                 |[(tokens & q & r & _ & _ & Hitem & Hq & Hav & Ho & ->)
                  |(tokens & q & r & _ & _ & _ & _ & _ & Ho & _)]]];
    [discriminate Hw|discriminate Ho| |discriminate Ho].
  injection Ho as -> -> _. cbn [ws_items ws_tx].
  pose proof (fun i => sum_borrowed_add_tx (ws_tx st) (now e) (group_id_of ev)
                (user_id_of ev) (or_else (profile_name ev) (user_id_of ev))
                (cell tokens 1) q (note_of tokens) i Hne) as Hsum.
  pose proof (user_borrowed_add_tx (ws_tx st) (now e) (group_id_of ev)
                (user_id_of ev) (or_else (profile_name ev) (user_id_of ev))
                (cell tokens 1) q (note_of tokens) (user_id_of ev)
                (cell tokens 1) Hne) as Huser.
  unfold add_tx, Gspread.append_row in Hsum, Huser. fold (tx_row e ev (cell tokens 1) q (note_of tokens)) in Hsum, Huser.
  rewrite !String.eqb_refl in Huser. cbn [andb] in Huser.
  split; [assumption|]. split.
  { rewrite Hsum, String.eqb_refl. reflexivity. }
  split; [exact Huser|]. split.
  { intros item' Hi. rewrite Hsum.
    destruct (String.eqb_spec (cell tokens 1) item'); [congruence|lia]. }
  exists r. split; [assumption|].
  rewrite Hsum, String.eqb_refl. lia.
Qed.

Lemma X4_borrow_effect_witness :
  sum_borrowed
    (ws_tx (fst (handle_text env0 (says "G1" "U1" "Ann" "!borrow projector 2")
                   projector_new))) "projector"
  = sum_borrowed (ws_tx projector_new) "projector" + 2.
Proof.
  destruct (X4_borrow_effect env0 (says "G1" "U1" "Ann" "!borrow projector 2")
              projector_new
              (fst (handle_text env0
                      (says "G1" "U1" "Ann" "!borrow projector 2")
                      projector_new))
              "projector" "Ann" 2 eq_refl) as (_ & H & _).
  - discriminate.
  - exact H.
Defined.

(** X5 (rejections of a return): for a [!return] whose quantity token
    reads as [qty], an item that [get_item] does not find is answered
    with [ItemNotFound], whatever the caller holds; a found item with
    [qty <= 0] with [InvalidQuantity], whatever the caller holds; a found
    item with [qty > 0] and a holding of zero or less with
    [NothingToReturn]; the worksheets stay as they are in all three. *)
Theorem X5_return_rejections
  (e : env) (ev : event) (st : sheets) (cmd item q : string)
  (rest : list string) (qty : Z) :
  gate_closed e (group_id_of ev) = false ->
  Py.startswith (Py.lower (message_text ev)) "!return" = true ->
  Shlex.split (message_text ev) = Some (cmd :: item :: q :: rest) ->
  numeral_ok q = true ->
  Py.int q = Some qty ->
  (get_item (ws_items st) item = Ret None ->
   handle_text e ev st = (st, Reply (ItemNotFound item)))
  /\ (forall r, get_item (ws_items st) item = Ret (Some r) ->
      (qty <= 0 -> handle_text e ev st = (st, Reply InvalidQuantity))
      /\ (0 < qty -> user_borrowed (ws_tx st) (user_id_of ev) item <= 0 ->
          handle_text e ev st = (st, Reply (NothingToReturn item))))
  /\ (get_item (ws_items st) item = Raise ->
      handle_text e ev st = (st, Logged)).
Proof.
  intros Hgate Hret Hsplit Hok Hint.
  rewrite handle_return by assumption. unfold do_borrow_return.
  rewrite Hsplit. change (cell (cmd :: item :: q :: rest) 2) with q.
  change (cell (cmd :: item :: q :: rest) 1) with item.
  rewrite Hok, Hint. cbn [length Nat.ltb Nat.leb orb negb].
  rewrite (startswith_excl _ _ "!borrow" Hret eq_refl eq_refl).
  split; [intros ->; reflexivity|]. split; [|intros ->; reflexivity].
  intros r ->. split.
  - intros H. destruct (Z.leb_spec qty 0); [reflexivity|lia].
  - intros Hq Hh. destruct (Z.leb_spec qty 0); [lia|].
    destruct (Z.leb_spec (user_borrowed (ws_tx st) (user_id_of ev) item) 0);
      [reflexivity|lia].
Qed.

Lemma X5_return_rejections_witness :
  handle_text env0 (says "G1" "U2" "Bob" "!return projector 1") projector_lent
  = (projector_lent, Reply (NothingToReturn "projector")).
Proof.
  destruct (X5_return_rejections env0
              (says "G1" "U2" "Bob" "!return projector 1") projector_lent
              "!return" "projector" "1" [] 1
              eq_refl eq_refl eq_refl eq_refl eq_refl) as (_ & H & _).
  destruct (H {| i_item := "projector"; i_total := 2;
                 i_note := PStr EmptyString |} eq_refl) as [_ H2].
  apply H2; [reflexivity|discriminate].
Defined.

(** ** Invariants of the ledger *)

Lemma holdings_nonneg_step e ev st st' o :
  handle_text e ev st = (st', o) ->
  holdings_nonneg (ws_tx st) -> holdings_nonneg (ws_tx st').
Proof.
  intros H Hinv. apply handle_text_cases in H.
  destruct H as [[-> Hw]|[(tokens & total & _ & _ & _ & _ & ->)
                 |[(tokens & q & r & _ & _ & _ & Hq & _ & _ & ->)
                  |(tokens & q & r & _ & _ & _ & Hq & Hh & _ & ->)]]];
    cbn [ws_tx]; try assumption; intros uid item.
  - pose proof (user_borrowed_add_tx_any (ws_tx st) (now e) (group_id_of ev)
                  (user_id_of ev) (or_else (profile_name ev) (user_id_of ev))
                  (cell tokens 1) q (note_of tokens) uid item) as E.
    unfold add_tx, Gspread.append_row in E.
    fold (tx_row e ev (cell tokens 1) q (note_of tokens)) in E. rewrite E.
    specialize (Hinv uid item).
    destruct (ws_tx st); [lia|]. destruct (_ && _); lia.
  - pose proof (user_borrowed_add_tx_any (ws_tx st) (now e) (group_id_of ev)
                  (user_id_of ev) (or_else (profile_name ev) (user_id_of ev))
                  (cell tokens 1)
                  (- Z.min q (user_borrowed (ws_tx st) (user_id_of ev)
                                (cell tokens 1)))
                  (note_of tokens) uid item) as E.
    unfold add_tx, Gspread.append_row in E. unfold tx_row. rewrite E.
    pose proof (Hinv uid item) as Hui.
    destruct (ws_tx st) as [|h t]; [lia|].
    destruct (String.eqb_spec (user_id_of ev) uid) as [Hu|Hu];
      destruct (String.eqb_spec (cell tokens 1) item) as [Hi|Hi];
      cbn [andb]; try lia.
    subst uid item. lia.
Qed.

(** X6 (no negative holding): if no user holds a negative quantity of any
    item, then after any call of the handler, and after any sequence of
    calls, still none does: a borrow adds a positive quantity and a return
    takes away no more than the caller holds. *)
Theorem X6_holdings_stay_nonneg
  (e : env) (evs : list event) (st : sheets) :
  holdings_nonneg (ws_tx st) ->
  holdings_nonneg (ws_tx (fst (run e evs st))).
Proof.
  revert st. induction evs as [|ev evs IH]; intros st Hinv; [assumption|].
  cbn [run]. destruct (handle_text e ev st) as [st1 o] eqn:E1.
  specialize (IH st1 (holdings_nonneg_step _ _ _ _ _ E1 Hinv)).
  destruct (run e evs st1) as [st2 os]. exact IH.
Qed.

Lemma X6_holdings_witness :
  holdings_nonneg
    (ws_tx (fst (run env0
                   [says "G1" "U1" "Ann" "!borrow projector 1";
                    says "G1" "U1" "Ann" "!return projector 7"]
                   projector_new))).
Proof.
  apply (X6_holdings_stay_nonneg env0
           [says "G1" "U1" "Ann" "!borrow projector 1";
            says "G1" "U1" "Ann" "!return projector 7"] projector_new).
  intros uid item. cbn. lia.
Defined.

Lemma handle_text_tx_step e ev st st' o :
  handle_text e ev st = (st', o) ->
  (ws_tx st' = ws_tx st /\ appends_tx o = false)
  \/ (exists r : row, ws_tx st' = ws_tx st ++ [r] /\ appends_tx o = true).
Proof.
  intros H. apply handle_text_cases in H.
  destruct H as [[-> Hw]|[(tokens & total & _ & _ & _ & -> & ->)
                 |[(tokens & q & r & _ & _ & _ & _ & _ & -> & ->)
                  |(tokens & q & r & _ & _ & _ & _ & _ & -> & ->)]]];
    cbn [ws_tx appends_tx]; eauto.
  left. split; [reflexivity|].
  destruct o as [[]| | |]; try reflexivity; discriminate Hw.
Qed.

(** X7 (the ledger only grows): after any sequence of calls of the
    handler the ledger is the ledger before followed by new rows, one for
    each [BorrowOk] or [ReturnOk] among the replies and no other: no row
    is ever changed or removed, the header included. *)
Theorem X7_ledger_append_only (e : env) (evs : list event) (st : sheets) :
  exists rows,
    ws_tx (fst (run e evs st)) = ws_tx st ++ rows
    /\ length rows = length (List.filter appends_tx (snd (run e evs st))).
Proof.
  revert st. induction evs as [|ev evs IH]; intros st.
  - exists []. rewrite app_nil_r. split; reflexivity.
  - cbn [run]. destruct (handle_text e ev st) as [st1 o] eqn:E1.
    destruct (IH st1) as (rows & Hrows & Hlen).
    destruct (run e evs st1) as [st2 os]. cbn [fst snd] in *.
    destruct (handle_text_tx_step e ev st st1 o E1)
      as [[Htx Ho]|(r & Htx & Ho)].
    + exists rows. rewrite Hrows, Htx. split; [reflexivity|].
      cbn [List.filter]. rewrite Ho. assumption.
    + exists (r :: rows). rewrite Hrows, Htx, <- app_assoc.
      split; [reflexivity|]. cbn [List.filter]. rewrite Ho.
      cbn [length]. congruence.
Qed.

(** ** Start-up *)

Lemma rstrip_empty_prefix r : exists rest, r = rstrip_empty r ++ rest.
Proof.
  induction r as [|c r [rest IH]]; [exists []; reflexivity|].
  cbn [rstrip_empty]. destruct (rstrip_empty r) as [|d t] eqn:E.
  - destruct (String.eqb c EmptyString).
    + exists (c :: r). reflexivity.
    + exists r. reflexivity.
  - exists rest. rewrite IH at 1. reflexivity.
Qed.

Lemma rstrip_empty_app_nil a b :
  rstrip_empty (a ++ b) = [] -> rstrip_empty a = [].
Proof.
  induction a as [|c a IH]; [reflexivity|].
  rewrite <- app_comm_cons. cbn [rstrip_empty].
  destruct (rstrip_empty (a ++ b)) eqn:E; [|discriminate].
  rewrite IH by reflexivity. trivial.
Qed.

Lemma take_rstrip_empty r : take (length (rstrip_empty r)) r = rstrip_empty r.
Proof.
  destruct (rstrip_empty_prefix r) as [rest E]. rewrite E at 2.
  apply take_app_length.
Qed.

(** From a worksheet whose row 1 starts with the header, [_get_ws] keeps
    that row and the rows below. *)
Lemma get_ws_settled (header x : row) (rows : list row) :
  rstrip_empty header <> [] ->
  _get_ws (Some ((header ++ x) :: rows)) header = (header ++ x) :: rows.
Proof.
  intros Hh. unfold _get_ws, row_values_1. cbn [hd].
  destruct (bool_decide _); [reflexivity|].
  destruct (rstrip_empty (header ++ x)) eqn:E.
  - apply rstrip_empty_app_nil in E. contradiction.
  - cbn [length Nat.eqb]. unfold update_row_1. cbn [hd tail].
    rewrite drop_app_length. reflexivity.
Qed.

(** X8 ([_get_ws] puts the header in place): for a header with a cell
    that is not empty, and a worksheet that is missing, has no row, or has
    a row 1 that is not blank, the worksheet that [_get_ws] returns has a
    row 1 that starts with the header, keeps every row below row 1 as it
    was, and is left unchanged by another call of [_get_ws]. *)
Theorem X8_get_ws_header (found : option sheet) (header : row) :
  rstrip_empty header <> [] ->
  (forall ws, found = Some ws -> ws = [] \/ row_values_1 ws <> []) ->
  let ws' := _get_ws found header in
  take (length header) (hd [] ws') = header
  /\ tail ws' = tail (default [] found)
  /\ _get_ws (Some ws') header = ws'.
Proof.
  intros Hh Hrow ws'.
  assert (Hfresh : take (length header) (hd [] [header]) = header
                   /\ _get_ws (Some [header]) header = [header]).
  { split; [apply firstn_all|].
    rewrite <- (app_nil_r header) at 1 3. apply get_ws_settled, Hh. }
  destruct found as [ws|]; [|cbn; tauto].
  subst ws'. unfold _get_ws. cbn [default].
  destruct (bool_decide (row_values_1 ws = header)) eqn:Eh.
  - apply bool_decide_eq_true_1 in Eh. unfold row_values_1 in Eh.
    destruct ws as [|r rows]; [cbn in Eh; subst header; contradiction|].
    cbn [hd] in *. split; [rewrite <- Eh; apply take_rstrip_empty|].
    split; [reflexivity|].
    destruct (rstrip_empty_prefix r) as [rest E]. rewrite Eh in E.
    rewrite E. apply get_ws_settled, Hh.
  - destruct (Hrow ws eq_refl) as [->|Hv].
    + cbn. destruct Hfresh as [H1 H2]. split; [exact H1|].
      split; [reflexivity|exact H2].
    + destruct (row_values_1 ws) eqn:Ev; [congruence|].
      cbn [length Nat.eqb]. unfold update_row_1. cbn [hd tail].
      split; [apply take_app_length|]. split; [reflexivity|].
      apply get_ws_settled, Hh.
Qed.

Lemma X8_get_ws_header_witness :
  _get_ws (Some [["name"; "qty"]; ["cable"; "3"; EmptyString]]) items_header
  = [items_header; ["cable"; "3"; EmptyString]]
  /\ tail (_get_ws (Some [["name"; "qty"]; ["cable"; "3"; EmptyString]])
             items_header)
     = [["cable"; "3"; EmptyString]].
Proof.
  destruct (X8_get_ws_header
              (Some [["name"; "qty"]; ["cable"; "3"; EmptyString]])
              items_header) as (_ & H & _).
  - discriminate.
  - intros ws [= <-]. right. discriminate.
  - split; [reflexivity|exact H].
Defined.

(** A blank row 1 above rows of data is not repaired: the header is
    appended below the data, and the first row of data is then read as
    the header. *)
Example get_ws_blank_first_row :
  _get_ws (Some [[EmptyString; EmptyString];
                 ["t1"; "G1"; "U1"; "Ann"; "cable"; "2"; EmptyString]])
    tx_header
  = [[EmptyString; EmptyString];
     ["t1"; "G1"; "U1"; "Ann"; "cable"; "2"; EmptyString];
     tx_header].
Proof. reflexivity. Qed.

Lemma get_ws_nonempty found header : header <> [] -> _get_ws found header <> [].
Proof.
  intros Hh. destruct found as [ws|]; [|discriminate].
  unfold _get_ws. destruct (bool_decide _) eqn:E.
  - apply bool_decide_eq_true_1 in E. intros ->. cbn in E. congruence.
  - destruct (_ =? _)%nat; [|discriminate].
    unfold Gspread.append_row. destruct ws; discriminate.
Qed.

Lemma run_tx_nonempty e evs : forall st,
  ws_tx st <> [] -> ws_tx (fst (run e evs st)) <> [].
Proof.
  induction evs as [|ev evs IH]; intros st H; [assumption|].
  cbn [run]. destruct (handle_text e ev st) as [st1 o] eqn:E1.
  specialize (IH st1). destruct (run e evs st1) as [st2 os].
  cbn [fst] in *. apply IH.
  destruct (handle_text_tx_step e ev st st1 o E1) as [[-> _]|(r & -> & _)];
    [assumption|]. destruct (ws_tx st); discriminate.
Qed.

(** X9 (the ledger always has a first row): whatever the spreadsheet
    holds at start-up, the transactions worksheet that [_get_ws] hands
    over has at least one row, and it still has after any sequence of
    calls of the handler; so the row that a borrow or a return appends is
    never the one that the folds skip as the header. *)
Theorem X9_ledger_has_first_row
  (items tx : option sheet) (e : env) (evs : list event) :
  ws_tx (startup items tx) <> []
  /\ ws_tx (fst (run e evs (startup items tx))) <> []
  /\ forall ts gid uid name item delta note,
       sum_borrowed
         (add_tx (ws_tx (fst (run e evs (startup items tx))))
            ts gid uid name item delta note) item
       = sum_borrowed (ws_tx (fst (run e evs (startup items tx)))) item
         + delta.
Proof.
  assert (H0 : ws_tx (startup items tx) <> [])
    by (apply get_ws_nonempty; discriminate).
  pose proof (run_tx_nonempty e evs _ H0) as H1.
  split; [assumption|]. split; [assumption|].
  intros. rewrite sum_borrowed_add_tx by assumption.
  rewrite String.eqb_refl. reflexivity.
Qed.

(** ** The status reports *)

Section MoreDispatch.
Variables (e : env) (ev : event) (st : sheets).
Hypothesis gate : gate_closed e (group_id_of ev) = false.

Lemma handle_status :
  Py.startswith (Py.lower (message_text ev)) "!status" = true ->
  handle_text e ev st = do_status (message_text ev) st.
Proof.
  intros H. unfold handle_text. rewrite gate.
  dispatch H. reflexivity.
Qed.

Lemma handle_pick :
  Py.startswith (Py.lower (message_text ev)) "!trun"
  || Py.startswith (Py.lower (message_text ev)) "!pick" = true ->
  handle_text e ev st
  = match Shlex.split (message_text ev) with
    | None => (st, Raised)
    | Some tokens =>
        (st, Reply (match tail tokens with
                    | [] => UsagePick
                    | _ => Chosen (random_choice (draw e) (tail tokens))
                    end))
    end.
Proof.
  intros H. unfold handle_text. rewrite gate.
  assert (Hy : Py.startswith (Py.lower (message_text ev)) "!yesno" = false).
  { apply orb_prop in H as [H|H];
      apply (startswith_excl _ _ "!yesno" H eq_refl eq_refl). }
  rewrite Hy, H. reflexivity.
Qed.
End MoreDispatch.

(** Where a [StatusOne] reply comes from. *)
Lemma status_one_inv e ev st st' item t b a :
  handle_text e ev st = (st', Reply (StatusOne item t b a)) ->
  st' = st
  /\ b = sum_borrowed (ws_tx st) item
  /\ a = t - b
  /\ exists r, get_item (ws_items st) item = Ret (Some r) /\ i_total r = t.
Proof.
  intros H. pose proof H as Hc. apply handle_text_cases in Hc.
  destruct Hc as [[-> Hw]|[(tokens & total & _ & _ & _ & Ho & _)
                  |[(tokens & q & r & _ & _ & _ & _ & _ & Ho & _)
                   |(tokens & q & r & _ & _ & _ & _ & _ & Ho & _)]]];
    [|discriminate Ho..].
  split; [reflexivity|]. unfold handle_text in H.
  repeat match type of H with
    | (if ?b then _ else _) = _ => destruct b eqn:?
    end; try discriminate H.
  - destruct (Shlex.split (message_text ev)) as [tokens|];
      [destruct (tail tokens)|]; discriminate H.
  - unfold do_additem in H.
    repeat match type of H with
      | context [match ?x with _ => _ end] => destruct x
      end; discriminate H.
  - unfold do_status in H.
    destruct (Shlex.split (message_text ev)) as [tokens|]; [|discriminate H].
    destruct (2 <=? length tokens)%nat.
    + destruct (get_item (ws_items st) (cell tokens 1)) as [[r|]|] eqn:Hitem;
        try discriminate H.
      injection H as <- <- <- <-. eauto.
    + destruct (status_all st); discriminate H.
  - unfold do_borrow_return in H.
    repeat match type of H with
      | context [match ?x with _ => _ end] => destruct x
      end; discriminate H.
Qed.

(** X10 (status predicts borrow): when [!status item] reports the total
    [t], the borrowed quantity [b] and the availability [a], then [b] is
    [sum_borrowed item], [a] is [t - b], nothing was written, and a
    [!borrow] of [qty] units of the item on the same worksheets succeeds
    exactly when [0 < qty <= a]; it is refused with [InsufficientStock]
    when [a < qty] and with [InvalidQuantity] when [qty <= 0]. *)
Theorem X10_status_predicts_borrow
  (e : env) (ev_s ev_b : event) (st st_s : sheets) (item : string)
  (t b a : Z) (cmd q : string) (rest : list string) (qty : Z) :
  handle_text e ev_s st = (st_s, Reply (StatusOne item t b a)) ->
  gate_closed e (group_id_of ev_b) = false ->
  Py.startswith (Py.lower (message_text ev_b)) "!borrow" = true ->
  Shlex.split (message_text ev_b) = Some (cmd :: item :: q :: rest) ->
  numeral_ok q = true ->
  Py.int q = Some qty ->
  st_s = st
  /\ b = sum_borrowed (ws_tx st) item
  /\ a = t - b
  /\ (0 < qty <= a <->
      exists st', handle_text e ev_b st
                  = (st', Reply (BorrowOk item qty
                                   (or_else (profile_name ev_b)
                                      (user_id_of ev_b)))))
  /\ (0 < qty -> a < qty ->
      handle_text e ev_b st = (st, Reply (InsufficientStock item a qty)))
  /\ (qty <= 0 -> handle_text e ev_b st = (st, Reply InvalidQuantity)).
Proof.
  intros Hs Hgate Hbor Hsplit Hok Hint.
  apply status_one_inv in Hs as (-> & -> & -> & r & Hitem & <-).
  split; [reflexivity|]. split; [reflexivity|]. split; [reflexivity|].
  assert (Hrun : handle_text e ev_b st
    = let avail := i_total r - sum_borrowed (ws_tx st) item in
      if qty <=? 0 then (st, Reply InvalidQuantity)
      else if avail <? qty
      then (st, Reply (InsufficientStock item avail qty))
      else ({| ws_items := ws_items st;
               ws_tx := add_tx (ws_tx st) (now e) (group_id_of ev_b)
                          (user_id_of ev_b)
                          (or_else (profile_name ev_b) (user_id_of ev_b))
                          item qty (note_of (cmd :: item :: q :: rest)) |},
            Reply (BorrowOk item qty
                     (or_else (profile_name ev_b) (user_id_of ev_b))))).
  { rewrite handle_borrow by assumption. unfold do_borrow_return.
    rewrite Hsplit. change (cell (cmd :: item :: q :: rest) 2) with q.
    change (cell (cmd :: item :: q :: rest) 1) with item.
    rewrite Hok, Hint, Hitem, Hbor. reflexivity. }
  rewrite Hrun. cbv zeta.
  destruct (Z.leb_spec qty 0) as [Hq|Hq];
    [|destruct (Z.ltb_spec (i_total r - sum_borrowed (ws_tx st) item) qty)
        as [Ha|Ha]].
  - split; [split; [lia|intros [st' Hx]; discriminate Hx]|].
    split; [lia|reflexivity].
  - split; [split; [lia|intros [st' Hx]; discriminate Hx]|].
    split; [reflexivity|lia].
  - split; [split; [eauto|lia]|]. split; lia.
Qed.

Lemma X10_status_predicts_borrow_witness :
  (0 < 2 <= 2 <->
   exists st', handle_text env0 (says "G1" "U1" "Ann" "!borrow projector 2")
                 projector_new
               = (st', Reply (BorrowOk "projector" 2 "Ann"))).
Proof.
  destruct (X10_status_predicts_borrow env0
              (says "G2" "U2" "Bob" "!status projector")
              (says "G1" "U1" "Ann" "!borrow projector 2")
              projector_new projector_new "projector" 2 0 2
              "!borrow" "2" [] 2
              eq_refl eq_refl eq_refl eq_refl eq_refl eq_refl)
    as (_ & _ & _ & H & _).
  exact H.
Defined.

Lemma status_rows_ret tx recs : forall lines,
  status_rows tx recs = Ret lines ->
  Forall2 (fun rec line =>
             exists t, rec_total rec = Some t
                       /\ line = status_of tx (rec_name rec) t)
    recs lines.
Proof.
  induction recs as [|rec recs IH]; intros lines; cbn [status_rows].
  - intros [= <-]. constructor.
  - fold (rec_total rec). fold (rec_name rec).
    destruct (rec_total rec) as [t|] eqn:Et; [|discriminate].
    cbn [of_option mbind exc_bind].
    destruct (status_rows tx recs) as [info|]; [|discriminate].
    intros [= <-]. constructor; [|apply IH; reflexivity].
    exists t. split; [assumption|reflexivity].
Qed.

Lemma status_rows_raise tx recs :
  status_rows tx recs = Raise <-> Exists (fun rec => rec_total rec = None) recs.
Proof.
  induction recs as [|rec recs IH]; cbn [status_rows].
  - split; [discriminate|]. intros H. inversion H.
  - fold (rec_total rec). rewrite Exists_cons.
    destruct (rec_total rec) as [t|]; cbn [of_option mbind exc_bind].
    + destruct (status_rows tx recs) as [info|].
      * split; [discriminate|]. intros [H|H]; [discriminate|].
        apply IH in H. discriminate.
      * split; [intros _; right; apply IH; reflexivity|reflexivity].
    + split; [auto|reflexivity].
Qed.

Lemma get_item_records ws item :
  get_item ws item
  = if Gspread.header_unique ws
    then get_item_in (Gspread.get_all_records ws) item else Raise.
Proof.
  unfold get_item, all_records. destruct (Gspread.header_unique ws);
    reflexivity.
Qed.

Lemma status_all_records st :
  status_all st
  = if Gspread.header_unique (ws_items st)
    then status_rows (ws_tx st) (Gspread.get_all_records (ws_items st))
    else Raise.
Proof.
  unfold status_all, all_records.
  destruct (Gspread.header_unique (ws_items st)); reflexivity.
Qed.

Lemma get_item_in_found recs item r :
  get_item_in recs item = Ret (Some r) ->
  i_item r = item
  /\ exists rec, In rec recs /\ rec_name rec = item
                 /\ rec_total rec = Some (i_total r).
Proof.
  induction recs as [|rec recs IH]; cbn [get_item_in]; [discriminate|].
  fold (rec_name rec). fold (rec_total rec).
  destruct (String.eqb_spec (rec_name rec) item) as [Hn|Hn].
  - destruct (rec_total rec) as [t|] eqn:Et; [|discriminate].
    cbn [of_option mbind exc_bind]. intros [= <-]. cbn [i_item i_total].
    split; [reflexivity|]. exists rec. cbn [In]. auto.
  - intros H. destruct (IH H) as (Hi & rec' & Hin & Hrest).
    split; [assumption|]. exists rec'. cbn [In]. auto.
Qed.

Lemma get_item_in_raise recs item :
  get_item_in recs item = Raise ->
  Exists (fun rec => rec_total rec = None) recs.
Proof.
  induction recs as [|rec recs IH]; cbn [get_item_in]; [discriminate|].
  fold (rec_name rec). fold (rec_total rec).
  destruct (String.eqb (rec_name rec) item).
  - destruct (rec_total rec) as [t|] eqn:Et; [discriminate|].
    intros _. apply Exists_cons. auto.
  - intros H. apply Exists_cons. auto.
Qed.

(** X11 (the full status): when [status_all] returns, it has one line for
    each row below the header of the registry, in their order; every line
    [(item, total, borrowed, avail)] has [borrowed = sum_borrowed item]
    and [avail = total - borrowed]; and for every item that [get_item]
    finds, the line that [!status item] reports is among them. *)
Theorem X11_status_all_lines (st : sheets) (lines : list (string * Z * Z * Z)) :
  status_all st = Ret lines ->
  length lines = length (tail (ws_items st))
  /\ Forall (fun line : string * Z * Z * Z =>
               let '(item, t, b, a) := line in
               b = sum_borrowed (ws_tx st) item /\ a = t - b) lines
  /\ map (fun line : string * Z * Z * Z => fst (fst (fst line))) lines
     = map rec_name (Gspread.get_all_records (ws_items st))
  /\ forall item r,
       get_item (ws_items st) item = Ret (Some r) ->
       In (status_of (ws_tx st) item (i_total r)) lines.
Proof.
  rewrite status_all_records. intros H.
  destruct (Gspread.header_unique (ws_items st)) eqn:Eh; [|discriminate].
  enough (G : length lines = length (tail (ws_items st))
    /\ Forall (fun line : string * Z * Z * Z =>
                 let '(item, t, b, a) := line in
                 b = sum_borrowed (ws_tx st) item /\ a = t - b) lines
    /\ map (fun line : string * Z * Z * Z => fst (fst (fst line))) lines
       = map rec_name (Gspread.get_all_records (ws_items st))
    /\ forall item r,
         get_item_in (Gspread.get_all_records (ws_items st)) item
         = Ret (Some r) ->
         In (status_of (ws_tx st) item (i_total r)) lines).
  { destruct G as (G1 & G2 & G3 & G4). repeat split; try assumption.
    intros item r Hr. rewrite get_item_records, Eh in Hr. eauto. }
  apply status_rows_ret in H.
  assert (Hlen : length (Gspread.get_all_records (ws_items st))
                 = length (tail (ws_items st))).
  { unfold Gspread.get_all_records. destruct (ws_items st); [reflexivity|].
    apply length_map. }
  rewrite <- Hlen. clear Hlen.
  induction H as [|rec line recs lines (t & Ht & ->) H IH].
  - repeat split; try constructor. intros item r Hr. discriminate Hr.
  - destruct IH as (IH1 & IH2 & IH3 & IH4). cbn [length map]. split; [congruence|].
    split; [constructor; [split; reflexivity|assumption]|].
    split; [cbn [fst status_of]; congruence|].
    intros item r. cbn [get_item_in]. fold (rec_name rec).
    fold (rec_total rec). rewrite Ht. cbn [of_option mbind exc_bind].
    destruct (String.eqb_spec (rec_name rec) item) as [->|Hn].
    + intros [= <-]. left. reflexivity.
    + intros Hr. right. apply IH4, Hr.
Qed.

Lemma X11_status_all_witness :
  length (match status_all projector_lent with Ret l => l | Raise => [] end)
  = 1%nat.
Proof.
  destruct (X11_status_all_lines projector_lent
              [("projector", 2, 2, 0)] eq_refl) as [H _].
  exact H.
Defined.

(** X12 (a lookup that raises): whenever [get_item] raises for some item,
    on a repeated header cell or on a total it cannot convert,
    [status_all] raises on the same registry: a registry on which some
    [!status item] ends in a logged exception gives no full [!status]
    either. *)
Theorem X12_lookup_raises_status_raises (st : sheets) (item : string) :
  get_item (ws_items st) item = Raise -> status_all st = Raise.
Proof.
  rewrite get_item_records, status_all_records.
  destruct (Gspread.header_unique (ws_items st)); [|reflexivity].
  intros H. apply status_rows_raise. eapply get_item_in_raise, H.
Qed.

Lemma X12_lookup_raises_witness :
  status_all {| ws_items := [items_header; ["cable"; "three"; EmptyString]];
                ws_tx := [tx_header] |} = Raise.
Proof.
  apply (X12_lookup_raises_status_raises
           {| ws_items := [items_header; ["cable"; "three"; EmptyString]];
              ws_tx := [tx_header] |} "cable").
  reflexivity.
Defined.

Lemma dict_find_combine_notin keys : forall (vals : list pyval) k,
  ~ In k keys -> dict_find (combine keys vals) k = None.
Proof.
  induction keys as [|k0 keys IH]; intros vals k Hk; [reflexivity|].
  destruct vals as [|v vals]; [reflexivity|]. cbn [combine dict_find].
  rewrite IH by (intros H; apply Hk; right; exact H).
  destruct (String.eqb_spec k0 k) as [->|]; [|reflexivity].
  exfalso. apply Hk. left. reflexivity.
Qed.

(** X13 (a header without the column [total]): when the header row of the
    registry has no two equal cells and no cell [total], reading a total
    falls back to 0 and never raises: every item that [get_item] finds has
    total 0, and [status_all] returns, with total 0 in every line. *)
Theorem X13_missing_total_column
  (keys : row) (rows : list row) (tx : sheet) :
  Gspread.distinct keys = true ->
  ~ In "total" keys ->
  (forall item, get_item (keys :: rows) item <> Raise)
  /\ (forall item r, get_item (keys :: rows) item = Ret (Some r) ->
                     i_total r = 0)
  /\ exists lines,
       status_all {| ws_items := keys :: rows; ws_tx := tx |} = Ret lines
       /\ Forall (fun line : string * Z * Z * Z => snd (fst (fst line)) = 0)
            lines.
Proof.
  intros Hu Hk.
  assert (Htot : forall rec,
             In rec (Gspread.get_all_records (keys :: rows)) ->
             rec_total rec = Some 0).
  { intros rec Hin. cbn [Gspread.get_all_records] in Hin.
    apply in_map_iff in Hin as (r & <- & _).
    unfold rec_total, dict_get_default.
    rewrite dict_find_combine_notin by assumption. reflexivity. }
  assert (Hh : Gspread.header_unique (keys :: rows) = true) by exact Hu.
  split; [|split].
  - intros item H. rewrite get_item_records, Hh in H.
    apply get_item_in_raise, Exists_exists in H as (rec & Hin & Hnone).
    apply list_elem_of_In, Htot in Hin. congruence.
  - intros item r H. rewrite get_item_records, Hh in H.
    apply get_item_in_found in H as (_ & rec & Hin & _ & Ht).
    apply Htot in Hin. congruence.
  - rewrite status_all_records. cbn [ws_items ws_tx]. rewrite Hh.
    induction (Gspread.get_all_records (keys :: rows)) as [|rec recs IH].
    + exists []. split; [reflexivity|constructor].
    + destruct IH as (lines & Hl & Hall).
      { intros rec' H'. apply Htot. right. exact H'. }
      cbn [status_rows]. fold (rec_total rec).
      rewrite (Htot rec) by (left; reflexivity).
      cbn [of_option mbind exc_bind]. rewrite Hl.
      eexists. split; [reflexivity|]. constructor; [reflexivity|assumption].
Qed.

Lemma X13_missing_total_witness :
  get_item [["item"; "5"; EmptyString]; ["cable"; "3"; "spare"]] "cable"
  <> Raise
  /\ forall r,
       get_item [["item"; "5"; EmptyString]; ["cable"; "3"; "spare"]] "cable"
       = Ret (Some r) ->
       i_total r = 0.
Proof.
  destruct (X13_missing_total_column ["item"; "5"; EmptyString]
              [["cable"; "3"; "spare"]] [tx_header]) as (H1 & H2 & _).
  - reflexivity.
  - cbn. intros [H|[H|[H|[]]]]; discriminate H.
  - split; [apply H1|intros r; apply H2].
Defined.

(** A header row with a repeated cell: no lookup and no status. *)
Example repeated_header_cell :
  get_item [["item"; "5"; "5"]; ["cable"; "3"; "spare"]] "cable" = Raise
  /\ status_all {| ws_items := [["item"; "5"; "5"]; ["cable"; "3"; "spare"]];
                   ws_tx := [tx_header] |} = Raise.
Proof. split; reflexivity. Qed.

(** ** Tokens that the handler cannot use *)

Lemma numeral_ok_int q :
  numeral_ok q = true ->
  (Py.startswith q "--" = true /\ Py.int q = None)
  \/ (Py.startswith q "--" = false /\ exists n, Py.int q = Some n).
Proof.
  unfold numeral_ok. destruct q as [|c q]; [discriminate|].
  destruct (Ascii.eqb_spec c "-"%char) as [->|Hc].
  - destruct q as [|c' q]; [discriminate|].
    destruct (Ascii.eqb_spec c' "-"%char) as [->|Hc'].
    + intros _. left. split; [destruct q; reflexivity|reflexivity].
    + intros H. right. split.
      * unfold Py.startswith. cbn [String.prefix].
        destruct (ascii_dec "-"%char "-"%char); [|congruence].
        destruct (ascii_dec "-"%char c'); [congruence|reflexivity].
      * cbn [Py.lstrip] in H. change (Py.is_dash "-"%char) with true in H.
        cbv iota in H. unfold Py.is_dash in H at 1.
        apply Ascii.eqb_neq in Hc'. rewrite Hc' in H.
        destruct (int_digits _ H) as (n & _ & _ & Hn). eauto.
  - intros H. right. split.
    + unfold Py.startswith. cbn [String.prefix].
      destruct (ascii_dec "-"%char c); [congruence|reflexivity].
    + cbn [Py.lstrip] in H. unfold Py.is_dash in H at 1.
      apply Ascii.eqb_neq in Hc. rewrite Hc in H.
      destruct (int_digits _ H) as (n & _ & Hn & _). eauto.
Qed.

(** X14 (two minus signs): an [!additem], [!borrow] or [!return] whose
    quantity token passes the test of the handler and begins with two
    minus signs is not answered at all: [int()] raises on the token, the
    exception is logged and nothing is written. *)
Theorem X14_two_minus_signs
  (e : env) (ev : event) (st : sheets) (cmd item q : string)
  (rest : list string) :
  gate_closed e (group_id_of ev) = false ->
  existsb (Py.startswith (Py.lower (message_text ev)))
    ["!additem"; "!borrow"; "!return"] = true ->
  Shlex.split (message_text ev) = Some (cmd :: item :: q :: rest) ->
  numeral_ok q = true ->
  Py.startswith q "--" = true ->
  handle_text e ev st = (st, Logged).
Proof.
  intros Hgate Hcmd Hsplit Hok Hdd.
  destruct (numeral_ok_int q Hok) as [[Hd Hint]|[Hd Hint]]; [|congruence].
  cbn [existsb] in Hcmd. rewrite orb_false_r in Hcmd.
  apply orb_prop in Hcmd as [Hadd|Hcmd].
  - rewrite handle_additem by assumption.
    rewrite (do_additem_parsed _ _ _ _ _ _ Hsplit), Hok, Hint. reflexivity.
  - assert (Hrun : handle_text e ev st
      = do_borrow_return e ev (message_text ev) (Py.lower (message_text ev))
          st).
    { apply orb_prop in Hcmd as [H|H];
        [apply handle_borrow|apply handle_return]; assumption. }
    rewrite Hrun. unfold do_borrow_return. rewrite Hsplit.
    change (cell (cmd :: item :: q :: rest) 2) with q. rewrite Hok, Hint.
    reflexivity.
Qed.

Lemma X14_two_minus_signs_witness :
  handle_text env0 (says "G1" "U1" "Ann" "!additem cable --3") fresh
  = (fresh, Logged).
Proof.
  apply (X14_two_minus_signs env0
           (says "G1" "U1" "Ann" "!additem cable --3") fresh
           "!additem" "cable" "--3" [] eq_refl eq_refl eq_refl eq_refl
           eq_refl).
Defined.

Lemma random_choice_in n (l : list string) :
  l <> [] -> In (random_choice n l) l.
Proof.
  intros H. unfold random_choice. apply nth_In.
  apply Nat.mod_upper_bound. destruct l; [congruence|discriminate].
Qed.

(** X15 (the draw): a [!trun] or [!pick] whose text splits into the
    command and at least one option is answered with one of its options
    and writes nothing; with no option it is answered with the usage
    string; when the text does not split (an unclosed quote), the
    exception leaves the handler, this branch being outside the [try]. *)
Theorem X15_pick_among_options (e : env) (ev : event) (st : sheets) :
  gate_closed e (group_id_of ev) = false ->
  Py.startswith (Py.lower (message_text ev)) "!trun"
  || Py.startswith (Py.lower (message_text ev)) "!pick" = true ->
  match Shlex.split (message_text ev) with
  | None => handle_text e ev st = (st, Raised)
  | Some [] | Some [_] => handle_text e ev st = (st, Reply UsagePick)
  | Some (_ :: opts) =>
      exists s, In s opts /\ handle_text e ev st = (st, Reply (Chosen s))
  end.
Proof.
  intros Hgate Hcmd. rewrite (handle_pick e ev st Hgate Hcmd).
  destruct (Shlex.split (message_text ev)) as [[|cmd [|o opts]]|];
    try reflexivity.
  exists (random_choice (draw e) (o :: opts)). split; [|reflexivity].
  apply random_choice_in. discriminate.
Qed.

Lemma X15_pick_witness :
  exists s, In s ["tea"; "coffee"]
            /\ handle_text env0 (says "G1" "U1" "Ann" "!pick tea coffee") fresh
               = (fresh, Reply (Chosen s)).
Proof.
  apply (X15_pick_among_options env0
           (says "G1" "U1" "Ann" "!pick tea coffee") fresh eq_refl eq_refl).
Defined.

(** ** Writing the registry *)

Lemma col_A_alter (f : row -> row) i (ws : sheet) :
  (forall r, nth 0 (f r) EmptyString = nth 0 r EmptyString) ->
  map (fun r : row => nth 0 r EmptyString) (alter f i ws)
  = map (fun r : row => nth 0 r EmptyString) ws.
Proof.
  intros Hf. revert i.
  induction ws as [|r ws IH]; intros [|i]; cbn [alter list_alter map];
    rewrite ?Hf, ?IH; reflexivity.
Qed.

Lemma index_app_new x l : index x l = None -> index x (l ++ [x]) = Some (length l).
Proof.
  induction l as [|y l IH]; cbn [index app length].
  - intros _. rewrite String.eqb_refl. reflexivity.
  - destruct (String.eqb y x); [discriminate|].
    destruct (index x l); [discriminate|]. intros _.
    rewrite IH by reflexivity. reflexivity.
Qed.

Lemma upsert_item_found ws item total note i :
  item <> EmptyString ->
  index item (map (fun r : row => nth 0 r EmptyString) ws) = Some i ->
  upsert_item ws item total note = alter (new_cells total note) i ws.
Proof.
  intros Hne H. unfold upsert_item, Gspread.col_values_1.
  rewrite index_rstrip_empty, H by assumption. unfold Gspread.update_B_C.
  replace (i + 1 - 1)%nat with i by lia. reflexivity.
Qed.

Lemma upsert_item_new ws item total note :
  item <> EmptyString ->
  index item (map (fun r : row => nth 0 r EmptyString) ws) = None ->
  upsert_item ws item total note = ws ++ [[item; Py.str total; note]].
Proof.
  intros Hne H. unfold upsert_item, Gspread.col_values_1.
  rewrite index_rstrip_empty, H by assumption. reflexivity.
Qed.

(** A registry that ends in a row without a name: [col_values(1)] does
    not show that row, and the empty name is appended each time. *)
Example upsert_empty_name :
  upsert_item (upsert_item [items_header] EmptyString 3 EmptyString)
    EmptyString 4 EmptyString
  = [items_header; [EmptyString; "3"; EmptyString];
     [EmptyString; "4"; EmptyString]].
Proof. reflexivity. Qed.

(** X16 (the last write wins): for every worksheet and every name but the
    empty one, [upsert_item] twice for the same name leaves what the
    second call alone would leave: total and note are overwritten, not
    added up or merged; a call appends at most one row, removes none, and
    changes the name cell of no row. *)
Theorem X16_upsert_overwrites
  (ws : sheet) (item : string) (t1 t2 : Z) (n1 n2 : string) :
  item <> EmptyString ->
  upsert_item (upsert_item ws item t1 n1) item t2 n2
  = upsert_item ws item t2 n2
  /\ (length ws <= length (upsert_item ws item t1 n1) <= S (length ws))%nat
  /\ take (length ws)
       (map (fun r : row => cell r 0) (upsert_item ws item t1 n1))
     = map (fun r : row => cell r 0) ws.
Proof.
  intros Hne. change (fun r : row => cell r 0)
    with (fun r : row => nth 0 r EmptyString).
  destruct (index item (map (fun r : row => nth 0 r EmptyString) ws))
    as [i|] eqn:E.
  - rewrite !(upsert_item_found ws item _ _ i Hne E).
    assert (Hcol : forall t n,
               map (fun r : row => nth 0 r EmptyString)
                 (alter (new_cells t n) i ws)
               = map (fun r : row => nth 0 r EmptyString) ws)
      by (intros; apply col_A_alter; reflexivity).
    rewrite (upsert_item_found _ item t2 n2 i Hne)
      by (rewrite Hcol; exact E).
    rewrite list_alter_alter_eq, length_alter, Hcol. split; [|split].
    + apply list_alter_ext; [|reflexivity]. intros r _. reflexivity.
    + lia.
    + rewrite <- (length_map (fun r : row => nth 0 r EmptyString)).
      apply firstn_all.
  - rewrite !(upsert_item_new ws item _ _ Hne E).
    assert (Hcol : map (fun r : row => nth 0 r EmptyString)
                     (ws ++ [[item; Py.str t1; n1]])
                   = map (fun r : row => nth 0 r EmptyString) ws ++ [item])
      by apply map_app.
    assert (Hlen : length (map (fun r : row => nth 0 r EmptyString) ws)
                   = length ws)
      by apply length_map.
    rewrite (upsert_item_found _ item t2 n2 (length ws) Hne)
      by (rewrite Hcol, <- Hlen; apply index_app_new, E).
    rewrite length_app, Hcol. cbn [length]. split; [|split].
    + rewrite <- (Nat.add_0_r (length ws)) at 1. rewrite alter_app_r.
      reflexivity.
    + lia.
    + rewrite <- Hlen. apply take_app_length.
Qed.

Lemma X16_upsert_overwrites_witness :
  upsert_item (upsert_item one_item "tripod" 4 "new") "tripod" 6 "more"
  = upsert_item one_item "tripod" 6 "more".
Proof.
  destruct (X16_upsert_overwrites one_item "tripod" 4 6 "new" "more")
    as [H _]; [discriminate|exact H].
Defined.

(** ** Names that are read back as they are written *)

Lemma word_letter_plain c :
  word_letter c = true ->
  Py.c_isspace c = false /\ Py.is_digit c = false
  /\ c <> "+"%char /\ c <> "-"%char /\ c <> "_"%char.
Proof.
  destruct c as [[] [] [] [] [] [] [] []]; vm_compute; intros;
    repeat split; congruence.
Qed.

Lemma wordy_lstrip s :
  wordy s = true -> wordy (Py.lstrip Py.c_isspace s) = true.
Proof.
  induction s as [|c s IH]; cbn [Py.lstrip wordy]; [auto|].
  destruct (Py.c_isspace c) eqn:E; [|auto].
  destruct (word_letter c) eqn:W; [|exact IH].
  apply word_letter_plain in W as [W _]. congruence.
Qed.

Lemma wordy_scan s : forall acc b n rest,
  Py.scan_digits acc b s = Some (n, rest) ->
  wordy s = true -> wordy rest = true.
Proof.
  induction s as [|c s IH]; intros acc b n rest; cbn [Py.scan_digits].
  - intros _ H. discriminate H.
  - unfold Py.digit_val. destruct (Py.is_digit c) eqn:D.
    + intros H W. cbn [wordy] in W.
      destruct (word_letter c) eqn:Wc.
      * apply word_letter_plain in Wc as (_ & Wc & _). congruence.
      * eapply IH; eassumption.
    + destruct (Ascii.eqb_spec c "_"%char) as [->|Hc].
      * destruct b; [discriminate|]. intros H W. eapply IH; eassumption.
      * destruct b; [discriminate|]. intros [= <- <-] W. exact W.
Qed.

Lemma all_space_not_wordy s :
  Py.all_chars Py.c_isspace s = true -> wordy s = false.
Proof.
  induction s as [|c s IH]; cbn [Py.all_chars wordy]; [reflexivity|].
  intros [Hc Hs]%andb_prop. rewrite IH by assumption.
  destruct (word_letter c) eqn:W; [|reflexivity].
  apply word_letter_plain in W as [W _]. congruence.
Qed.

(** [int()] reads no text that holds such a letter. *)
Lemma wordy_int s : wordy s = true -> Py.int s = None.
Proof.
  intros W%wordy_lstrip. unfold Py.int.
  set (s1 := Py.lstrip Py.c_isspace s) in *. clearbody s1.
  assert (Hsign : exists neg s2,
             match s1 with
             | String "+"%char r => (false, r)
             | String "-"%char r => (true, r)
             | _ => (false, s1)
             end = (neg, s2) /\ wordy s2 = true).
  { destruct s1 as [|c r]; [discriminate W|].
    destruct (Ascii.eqb_spec c "+"%char) as [->|Hp];
      [exists false, r; split; [reflexivity|exact W]|].
    destruct (Ascii.eqb_spec c "-"%char) as [->|Hm];
      [exists true, r; split; [reflexivity|exact W]|].
    exists false, (String c r). split; [|exact W].
    destruct c as [[] [] [] [] [] [] [] []]; try reflexivity; congruence. }
  destruct Hsign as (neg & s2 & -> & W2).
  destruct s2 as [|c r]; [reflexivity|].
  destruct (Py.is_digit c); [|reflexivity].
  destruct (Py.scan_digits 0 false (String c r)) as [[n rest]|] eqn:E;
    [|reflexivity].
  apply wordy_scan in E; [|assumption].
  destruct (Py.all_chars Py.c_isspace rest) eqn:A; [|reflexivity].
  apply all_space_not_wordy in A. congruence.
Qed.

Lemma wordy_numericise s : wordy s = true -> Gspread.numericise s = PStr s.
Proof.
  intros W. unfold Gspread.numericise. rewrite (wordy_int s W).
  destruct (Gspread.has_underscore s); reflexivity.
Qed.

Lemma wordy_canonical s : wordy s = true -> canonical s = true.
Proof.
  intros W. unfold canonical. rewrite wordy_numericise by assumption.
  apply String.eqb_refl.
Qed.

Lemma named_registry rows : named_rows rows -> registry_rows rows.
Proof.
  unfold named_rows, registry_rows. intros H.
  eapply List.Forall_impl; [|exact H]. cbn beta.
  intros r W. split; [|apply wordy_canonical, W].
  intros ->. discriminate W.
Qed.

(** X17 (write, then look up): on a registry whose header is intact and
    whose names each hold a letter that no numeral is written with, for a
    name that holds such a letter and is not the header's, the item that
    [upsert_item] has written is found by [get_item] with the given
    total, and with the given note when the note is empty or holds such a
    letter; the lookup of every other name gives what it gave before. *)
Theorem X17_upsert_then_get
  (rows : list row) (item : string) (total : Z) (note : string) :
  wordy item = true ->
  named_rows rows ->
  item <> "item" ->
  (exists r,
     get_item (upsert_item (items_header :: rows) item total note) item
     = Ret (Some r)
     /\ i_item r = item /\ i_total r = total
     /\ (wordy note = true \/ note = EmptyString -> i_note r = PStr note))
  /\ forall other, other <> item ->
       get_item (upsert_item (items_header :: rows) item total note) other
       = get_item (items_header :: rows) other.
Proof.
  intros Hw Hreg Hne.
  assert (Hne0 : item <> EmptyString) by (intros ->; discriminate Hw).
  destruct (upsert_item_get_item item total note (wordy_canonical _ Hw) rows
              (named_registry _ Hreg) Hne0 Hne) as [H1 H2].
  split; [|exact H2]. eexists. split; [exact H1|]. cbn [i_item i_total i_note].
  repeat split. intros [Hn| ->]; [apply wordy_numericise, Hn|reflexivity].
Qed.

Lemma X17_upsert_then_get_witness :
  (exists r,
     get_item (upsert_item one_item "tripod" 4 "new") "tripod" = Ret (Some r)
     /\ i_item r = "tripod" /\ i_total r = 4
     /\ (wordy "new" = true \/ "new" = EmptyString -> i_note r = PStr "new"))
  /\ forall other, other <> "tripod" ->
       get_item (upsert_item one_item "tripod" 4 "new") other
       = get_item one_item other.
Proof.
  apply (X17_upsert_then_get [["cable"; "3"; "spare"]] "tripod" 4 "new").
  - reflexivity.
  - repeat constructor.
  - discriminate.
Defined.

(** X18 (define, then ask): on a registry whose header is intact and
    whose names each hold a letter that no numeral is written with, once
    [!additem item total] is accepted for a name that holds such a letter
    and is not the header's, a [!status item] reports that total, the
    borrowed quantity of the ledger and their difference; with no
    transaction on the item the availability is the total. *)
Theorem X18_define_then_status
  (e1 e2 : env) (ev1 ev2 : event) (st : sheets) (rows : list row)
  (cmd item q : string) (rest : list string) (total : Z)
  (cmd2 : string) (rest2 : list string) :
  gate_closed e1 (group_id_of ev1) = false ->
  Py.startswith (Py.lower (message_text ev1)) "!additem" = true ->
  Shlex.split (message_text ev1) = Some (cmd :: item :: q :: rest) ->
  numeral_ok q = true ->
  Py.int q = Some total ->
  ws_items st = items_header :: rows ->
  named_rows rows ->
  item <> "item" ->
  wordy item = true ->
  gate_closed e2 (group_id_of ev2) = false ->
  Py.startswith (Py.lower (message_text ev2)) "!status" = true ->
  Shlex.split (message_text ev2) = Some (cmd2 :: item :: rest2) ->
  exists st1,
    handle_text e1 ev1 st = (st1, Reply (DefineOk item total))
    /\ ws_tx st1 = ws_tx st
    /\ handle_text e2 ev2 st1
       = (st1, Reply (StatusOne item total (sum_borrowed (ws_tx st) item)
                        (total - sum_borrowed (ws_tx st) item)))
    /\ (sum_borrowed (ws_tx st) item = 0 ->
        handle_text e2 ev2 st1 = (st1, Reply (StatusOne item total 0 total))).
Proof.
  intros Hg1 Hadd Hs1 Hok Hint Hitems Hreg Hne Hw Hg2 Hstat Hs2.
  assert (Hne0 : item <> EmptyString) by (intros ->; discriminate Hw).
  eexists. split.
  { rewrite handle_additem by assumption.
    rewrite (do_additem_parsed _ _ _ _ _ _ Hs1), Hok, Hint. reflexivity. }
  split; [reflexivity|].
  assert (Hrun : handle_text e2 ev2
                   {| ws_items := upsert_item (ws_items st) item total
                                    (note_of (cmd :: item :: q :: rest));
                      ws_tx := ws_tx st |}
                 = ({| ws_items := upsert_item (ws_items st) item total
                                     (note_of (cmd :: item :: q :: rest));
                       ws_tx := ws_tx st |},
                    Reply (StatusOne item total (sum_borrowed (ws_tx st) item)
                             (total - sum_borrowed (ws_tx st) item)))).
  { rewrite handle_status by assumption. unfold do_status. rewrite Hs2.
    change (cell (cmd2 :: item :: rest2) 1) with item.
    cbn [length Nat.leb ws_items ws_tx]. rewrite Hitems.
    destruct (upsert_item_get_item item total
                (note_of (cmd :: item :: q :: rest)) (wordy_canonical _ Hw)
                rows (named_registry _ Hreg) Hne0 Hne)
      as [Hget _].
    cbv zeta in Hget. rewrite Hget. reflexivity. }
  split; [exact Hrun|].
  intros Hz. rewrite Hrun, Hz, Z.sub_0_r. reflexivity.
Qed.

Lemma X18_define_then_status_witness :
  exists st1,
    handle_text env0 (says "G1" "U1" "Ann" "!additem cable 3") fresh
    = (st1, Reply (DefineOk "cable" 3))
    /\ handle_text env0 (says "G2" "U2" "Bob" "!status cable") st1
       = (st1, Reply (StatusOne "cable" 3 0 3)).
Proof.
  destruct (X18_define_then_status env0 env0
              (says "G1" "U1" "Ann" "!additem cable 3")
              (says "G2" "U2" "Bob" "!status cable") fresh []
              "!additem" "cable" "3" [] 3 "!status" [])
    as (st1 & H1 & _ & _ & H2); try reflexivity.
  - constructor.
  - discriminate.
  - exists st1. split; [exact H1|]. apply H2. reflexivity.
Defined.

(** X19 (arguments that do not parse): for an [!additem], [!borrow] or
    [!return], a text that does not split (an unclosed quote) is not
    answered: the exception is logged; a text with fewer than three
    tokens, or whose third token fails the test of the handler, is
    answered with the usage string of its command; nothing is written in
    either case. *)
Theorem X19_unusable_arguments (e : env) (ev : event) (st : sheets) :
  gate_closed e (group_id_of ev) = false ->
  existsb (Py.startswith (Py.lower (message_text ev)))
    ["!additem"; "!borrow"; "!return"] = true ->
  match Shlex.split (message_text ev) with
  | None => handle_text e ev st = (st, Logged)
  | Some tokens =>
      (length tokens <? 3)%nat || negb (numeral_ok (cell tokens 2)) = true ->
      handle_text e ev st
      = (st, Reply (if Py.startswith (Py.lower (message_text ev)) "!additem"
                    then UsageAddItem else UsageBorrowReturn))
  end.
Proof.
  intros Hgate Hcmd. cbn [existsb] in Hcmd. rewrite orb_false_r in Hcmd.
  apply orb_prop in Hcmd as [Hadd|Hcmd].
  - rewrite handle_additem, Hadd by assumption. unfold do_additem.
    destruct (Shlex.split (message_text ev)) as [tokens|]; [|reflexivity].
    intros ->. reflexivity.
  - assert (Hrun : handle_text e ev st
      = do_borrow_return e ev (message_text ev) (Py.lower (message_text ev))
          st).
    { apply orb_prop in Hcmd as [H|H];
        [apply handle_borrow|apply handle_return]; assumption. }
    assert (Hna : Py.startswith (Py.lower (message_text ev)) "!additem"
                  = false).
    { apply orb_prop in Hcmd as [H|H];
        apply (startswith_excl _ _ "!additem" H eq_refl eq_refl). }
    rewrite Hrun, Hna. unfold do_borrow_return.
    destruct (Shlex.split (message_text ev)) as [tokens|]; [|reflexivity].
    intros ->. reflexivity.
Qed.

Lemma X19_unusable_arguments_witness :
  handle_text env0 (says "G1" "U1" "Ann" "!borrow 'big tripod 2") fresh
  = (fresh, Logged).
Proof.
  apply (X19_unusable_arguments env0
           (says "G1" "U1" "Ann" "!borrow 'big tripod 2") fresh
           eq_refl eq_refl).
Defined.

(** ** The white list *)

(** X20 (the white list): when a call of the handler replies, logs or
    raises an exception, or writes, then the white list is empty or the
    message comes from a group that is on it; a message from another
    group, or from no group, is met with silence and no write, whatever
    its text. *)
Theorem X20_white_list
  (e : env) (ev : event) (st st' : sheets) (o : outcome) :
  handle_text e ev st = (st', o) ->
  o <> NoReply \/ st' <> st ->
  ALLOWED_GROUPS e = []
  \/ exists g, group_id_of ev = Some g /\ In g (ALLOWED_GROUPS e).
Proof.
  unfold handle_text.
  destruct (gate_closed e (group_id_of ev)) eqn:Hgate.
  - intros [= <- <-] [H|H]; congruence.
  - intros _ _. unfold gate_closed in Hgate.
    destruct (ALLOWED_GROUPS e) as [|a l]; [left; reflexivity|]. right.
    destruct (group_id_of ev) as [g|]; [|discriminate].
    exists g. split; [reflexivity|].
    apply negb_false_iff, existsb_exists in Hgate as (x & Hin & Hx).
    apply String.eqb_eq in Hx. subst x. exact Hin.
Qed.

Lemma X20_white_list_witness :
  ALLOWED_GROUPS {| ALLOWED_GROUPS := ["G1"]; now := "t"; draw := 0 |} = []
  \/ exists g, Some "G1" = Some g /\ In g ["G1"].
Proof.
  apply (X20_white_list {| ALLOWED_GROUPS := ["G1"]; now := "t"; draw := 0 |}
           (says "G1" "U1" "Ann" "!help") fresh fresh (Reply HelpMsg)
           eq_refl).
  left. discriminate.
Defined.

(** ** The effect of a return *)

(** X21 (effect of a return): when the handler answers [ReturnOk] with
    the quantity [real], then [real] is positive and no more than the
    caller held, the holding of the caller and the borrowed quantity of
    the item both drop by [real], and the reply carries the note of an
    adjustment only with the holding before, which [real] then equals. *)
Theorem X21_return_effect
  (e : env) (ev : event) (st st' : sheets) (item name : string) (real : Z)
  (adjusted : option Z) :
  handle_text e ev st = (st', Reply (ReturnOk item real name adjusted)) ->
  let have := user_borrowed (ws_tx st) (user_id_of ev) item in
  0 < real <= have
  /\ user_borrowed (ws_tx st') (user_id_of ev) item = have - real
  /\ sum_borrowed (ws_tx st') item = sum_borrowed (ws_tx st) item - real
  /\ (forall h, adjusted = Some h -> h = have /\ real = have)
  /\ ws_items st' = ws_items st.
Proof.
  intros H have. apply handle_text_cases in H.
  destruct H as [[-> Hw]|[(tokens & total & _ & _ & _ & Ho & ->)
                 |[(tokens & q & r & _ & _ & _ & _ & _ & Ho & ->)
                  |(tokens & q & r & _ & _ & _ & Hq & Hh & Ho & ->)]]];
    [discriminate Hw|discriminate Ho|discriminate Ho|].
  injection Ho as -> -> _ ->. subst have. cbn [ws_items ws_tx].
  set (have := user_borrowed (ws_tx st) (user_id_of ev) (cell tokens 1)) in *.
  assert (Hne : ws_tx st <> [])
    by (apply (user_borrowed_nonempty _ (user_id_of ev) (cell tokens 1));
        fold have; lia).
  pose proof (sum_borrowed_add_tx (ws_tx st) (now e) (group_id_of ev)
                (user_id_of ev) (or_else (profile_name ev) (user_id_of ev))
                (cell tokens 1) (- Z.min q have) (note_of tokens)
                (cell tokens 1) Hne) as Hsum.
  pose proof (user_borrowed_add_tx (ws_tx st) (now e) (group_id_of ev)
                (user_id_of ev) (or_else (profile_name ev) (user_id_of ev))
                (cell tokens 1) (- Z.min q have) (note_of tokens)
                (user_id_of ev) (cell tokens 1) Hne) as Huser.
  unfold add_tx, Gspread.append_row in Hsum, Huser.
  rewrite String.eqb_refl in Hsum. rewrite !String.eqb_refl in Huser.
  cbn [andb] in Huser. unfold tx_row. rewrite Hsum, Huser. fold have.
  split; [lia|]. split; [lia|]. split; [lia|]. split; [|reflexivity].
  intros h. destruct (Z.eqb_spec (Z.min q have) q); [discriminate|].
  intros [= <-]. split; [reflexivity|lia].
Qed.

Lemma X21_return_effect_witness :
  user_borrowed
    (ws_tx (fst (handle_text env0 (says "G1" "U1" "Ann" "!return projector 5")
                   projector_lent))) "U1" "projector"
  = 2 - 2.
Proof.
  destruct (X21_return_effect env0
              (says "G1" "U1" "Ann" "!return projector 5") projector_lent
              (fst (handle_text env0
                      (says "G1" "U1" "Ann" "!return projector 5")
                      projector_lent))
              "projector" "Ann" 2 (Some 2) eq_refl) as (_ & H & _).
  exact H.
Defined.

(** ** The report after a borrow or a return *)

Lemma borrow_ok_user e ev st st' item n name :
  handle_text e ev st = (st', Reply (BorrowOk item n name)) ->
  ws_tx st <> [] ->
  0 < n
  /\ user_borrowed (ws_tx st') (user_id_of ev) item
     = user_borrowed (ws_tx st) (user_id_of ev) item + n.
Proof.
  intros H Hne. apply handle_text_cases in H.
  destruct H as [[-> Hw]|[(tokens & total & _ & _ & _ & Ho & ->)
                 |[(tokens & q & r & _ & _ & _ & Hq & _ & Ho & ->)
                  |(tokens & q & r & _ & _ & _ & _ & _ & Ho & _)]]];
    [discriminate Hw|discriminate Ho| |discriminate Ho].
  injection Ho as -> -> _. split; [assumption|]. cbn [ws_tx].
  pose proof (user_borrowed_add_tx (ws_tx st) (now e) (group_id_of ev)
                (user_id_of ev) (or_else (profile_name ev) (user_id_of ev))
                (cell tokens 1) q (note_of tokens) (user_id_of ev)
                (cell tokens 1) Hne) as Huser.
  unfold add_tx, Gspread.append_row in Huser.
  rewrite !String.eqb_refl in Huser. exact Huser.
Qed.

Lemma return_ok_user e ev st st' item n name adj :
  handle_text e ev st = (st', Reply (ReturnOk item n name adj)) ->
  0 < n <= user_borrowed (ws_tx st) (user_id_of ev) item
  /\ user_borrowed (ws_tx st') (user_id_of ev) item
     = user_borrowed (ws_tx st) (user_id_of ev) item - n.
Proof.
  intros H. apply handle_text_cases in H.
  destruct H as [[-> Hw]|[(tokens & total & _ & _ & _ & Ho & ->)
                 |[(tokens & q & r & _ & _ & _ & _ & _ & Ho & ->)
                  |(tokens & q & r & _ & _ & _ & Hq & Hh & Ho & ->)]]];
    [discriminate Hw|discriminate Ho|discriminate Ho|].
  injection Ho as -> -> _ _. cbn [ws_tx].
  set (have := user_borrowed (ws_tx st) (user_id_of ev) (cell tokens 1)) in *.
  assert (Hne : ws_tx st <> [])
    by (apply (user_borrowed_nonempty _ (user_id_of ev) (cell tokens 1));
        fold have; lia).
  pose proof (user_borrowed_add_tx (ws_tx st) (now e) (group_id_of ev)
                (user_id_of ev) (or_else (profile_name ev) (user_id_of ev))
                (cell tokens 1) (- Z.min q have) (note_of tokens)
                (user_id_of ev) (cell tokens 1) Hne) as Huser.
  unfold add_tx, Gspread.append_row in Huser.
  rewrite !String.eqb_refl in Huser. cbn [andb] in Huser.
  unfold tx_row. rewrite Huser. fold have. lia.
Qed.

(** X22 (the report follows the ledger): after a [BorrowOk] on a ledger
    that has its header row, for a caller whose holding of the item was
    not negative, the caller's [!mine] lists the item with the holding
    before plus the quantity borrowed; after a [ReturnOk] the caller's
    [!mine] lists the item exactly when less was returned than was held,
    then with the rest. *)
Theorem X22_mine_follows_ledger
  (e : env) (ev : event) (st st' : sheets) (item name : string) (n : Z) :
  let uid := user_id_of ev in
  let have := user_borrowed (ws_tx st) uid item in
  (handle_text e ev st = (st', Reply (BorrowOk item n name)) ->
   ws_tx st <> [] -> 0 <= have ->
   In (item, have + n) (mine_lines (ws_tx st') uid))
  /\ (forall adj,
        handle_text e ev st = (st', Reply (ReturnOk item n name adj)) ->
        (n < have <-> In (item, have - n) (mine_lines (ws_tx st') uid))
        /\ (n = have -> forall v, ~ In (item, v) (mine_lines (ws_tx st') uid))).
Proof.
  intros uid have. split.
  - intros H Hne Hh. destruct (borrow_ok_user _ _ _ _ _ _ _ H Hne) as [Hn Hu].
    apply list_elem_of_In, mine_lines_spec. fold uid have in Hu.
    rewrite Hu. split; [reflexivity|lia].
  - intros adj H. destruct (return_ok_user _ _ _ _ _ _ _ _ H) as [Hn Hu].
    fold uid have in Hn, Hu. split.
    + rewrite <- list_elem_of_In, mine_lines_spec, Hu.
      split; [intros; split; [reflexivity|lia]|intros [_ ?]; lia].
    + intros -> v Hin. apply list_elem_of_In, mine_lines_spec in Hin.
      rewrite Hu in Hin. lia.
Qed.

Lemma X22_mine_follows_ledger_witness :
  In ("projector", 0 + 2)
    (mine_lines
       (ws_tx (fst (handle_text env0
                      (says "G1" "U1" "Ann" "!borrow projector 2")
                      projector_new))) "U1").
Proof.
  destruct (X22_mine_follows_ledger env0
              (says "G1" "U1" "Ann" "!borrow projector 2") projector_new
              (fst (handle_text env0
                      (says "G1" "U1" "Ann" "!borrow projector 2")
                      projector_new))
              "projector" "Ann" 2) as [H _].
  apply H; [reflexivity|discriminate|discriminate].
Defined.
